(** * Travel-matrix construction and gap filling: a shallow embedding

    The development follows the Python sources

    - [old_progress/src/data/travel_matrix/travel_matrix_builder.py]
      (class [TravelMatrixBuilder]),
    - [old_progress/src/data/travel_matrix/interpolation_methods.py]
      (class [InterpolationMethods]),
    - [old_progress/src/data/travel_matrix/zip_coordinates_db.py]
      (class [ZipCoordinatesDB]),
    - [old_progress/generate_statewide_travel_matrix.py] (function [haversine]).

    Conventions of the embedding.

    - Python floats are idealised as real numbers ([R]); the float value NaN,
      which pandas uses for "unset", is kept apart from the numbers (a cell
      is a number, a string or NaN).
    - A pandas [DataFrame] is a list of named columns of cells, addressed by
      position: every frame built by these modules carries the default
      [RangeIndex], for which label and position coincide.
    - Python exceptions are values of type [exn]; a fallible function returns
      [exn + A].
    - Integers of pandas and numpy are [int64]: conversions to it raise
      [OverflowError] outside its range, its arithmetic wraps around.
    - Functions of scikit-learn, the random generator of numpy and
      [DataFrame.to_parquet] are not part of the repository: they are
      variables of the sections below, and nothing is assumed about them
      unless a theorem says so.
    - The column [drive_minutes] of a travel matrix is a column of floats:
      the builder creates it as NaN and assigns floats to it.  A theorem
      about a method that is handed a matrix says so where the method
      computes with the column. *)

From Stdlib Require Import Reals Lra Lia ZArith Ascii DecimalString.
From stdpp Require Import gmap strings list.

Local Open Scope R_scope.

(** ** Python and numpy primitives used by the sources *)

Module Py.

(** Exceptions raised by the modelled code. *)
Inductive exn : Type :=
| FileNotFoundError
| ValueError
| KeyError (key : string)
| TypeError
| IndexError
| AttributeError
| ZeroDivisionError
| ImportError
| OverflowError.

Definition result (A : Type) : Type := (exn + A)%type.

Definition ret {A} (a : A) : result A := inr a.
Definition raise {A} (e : exn) : result A := inl e.
Definition bind {A B} (m : result A) (k : A -> result B) : result B :=
  match m with
  | inl e => inl e
  | inr a => k a
  end.

(** [all_ok f l]: run [f] on every element, left to right, stopping at the
    first exception. *)
Fixpoint all_ok {A B} (f : A -> result B) (l : list A) : result (list B) :=
  match l with
  | [] => ret []
  | a :: l' =>
      bind (f a) (fun b => bind (all_ok f l') (fun bs => ret (b :: bs)))
  end.

(** *** Strings *)

Definition chars (s : string) : list ascii := String.list_ascii_of_string s.
Definition of_chars (l : list ascii) : string := String.string_of_list_ascii l.

(** [s[:n]] *)
Definition slice_to (n : nat) (s : string) : string :=
  of_chars (take n (chars s)).
(** [s[a:b]] *)
Definition slice (a b : nat) (s : string) : string :=
  of_chars (take (b - a) (drop a (chars s))).
(** [s[n:]] *)
Definition slice_from (n : nat) (s : string) : string :=
  of_chars (drop n (chars s)).

(** [s.startswith(p)] *)
Definition startswith (p s : string) : bool := String.prefix p s.

(** [s.startswith((p1, ..., pn))] *)
Definition startswith_any (ps : list string) (s : string) : bool :=
  existsb (fun p => startswith p s) ps.

(** [s.zfill(width)]: left padding with zeros, after a leading sign. *)
Definition zfill (width : nat) (s : string) : string :=
  let n := String.length s in
  if (width <=? n)%nat then s
  else
    let zeros := of_chars (replicate (width - n) "0"%char) in
    match s with
    | String c rest =>
        if (Ascii.eqb c "+" || Ascii.eqb c "-")%bool
        then String c (zeros +:+ rest)
        else zeros +:+ s
    | EmptyString => zeros
    end.

Definition is_space (c : ascii) : bool :=
  let n := nat_of_ascii c in
  (((9 <=? n) && (n <=? 13)) || ((28 <=? n) && (n <=? 32)))%nat%bool.

Definition digit_of (c : ascii) : option Z :=
  let n := nat_of_ascii c in
  if ((48 <=? n) && (n <=? 57))%nat%bool
  then Some (Z.of_nat (n - 48)) else None.

(** Decimal digits with single underscores between digits. *)
Fixpoint parse_digits (after_digit : bool) (acc : Z) (cs : list ascii)
  : option Z :=
  match cs with
  | [] => if after_digit then Some acc else None
  | c :: cs' =>
      match digit_of c with
      | Some d => parse_digits true (10 * acc + d)%Z cs'
      | None =>
          if (Ascii.eqb c "_" && after_digit)%bool
          then parse_digits false acc cs'
          else None
      end
  end.

Fixpoint lstrip (cs : list ascii) : list ascii :=
  match cs with
  | c :: cs' => if is_space c then lstrip cs' else cs
  | [] => []
  end.

Definition strip (cs : list ascii) : list ascii :=
  rev (lstrip (rev (lstrip cs))).

(** [int(s)] on a string of ASCII characters, base 10: surrounding
    white space, an optional sign, digits.  [None] is [ValueError].  The
    integers of Python are unbounded; the conversion to [int64] that
    [astype(int)] adds is part of [str_astype_int] below. *)
Definition int (s : string) : option Z :=
  match strip (chars s) with
  | c :: cs =>
      if Ascii.eqb c "-" then Z.opp <$> parse_digits false 0%Z cs
      else if Ascii.eqb c "+" then parse_digits false 0%Z cs
      else parse_digits false 0%Z (c :: cs)
  | [] => None
  end.

(** *** Numbers *)

(** [numpy.int64]: the range of the values, and the wrap-around of its
    arithmetic. *)
Definition int64_min : Z := (- 2 ^ 63)%Z.
Definition int64_max : Z := (2 ^ 63 - 1)%Z.
Definition in_int64 (z : Z) : bool :=
  ((int64_min <=? z) && (z <=? int64_max))%Z%bool.
Definition wrap_int64 (z : Z) : Z := ((z + 2 ^ 63) mod 2 ^ 64 - 2 ^ 63)%Z.

(** [max(a, b)] of Python: the first argument unless the second is
    strictly larger. *)
Definition max (a b : R) : R := if Rlt_dec a b then b else a.
(** [min(a, b)] of Python: the first argument unless the second is
    strictly smaller. *)
Definition min (a b : R) : R := if Rlt_dec b a then b else a.

(** [math.radians], [numpy.radians] *)
Definition radians (deg : R) : R := deg * (PI / 180).

(** [math.atan2(y, x)] *)
Definition atan2 (y x : R) : R :=
  if Rlt_dec 0 x then atan (y / x)
  else if Rlt_dec x 0 then
    (if Rle_dec 0 y then atan (y / x) + PI else atan (y / x) - PI)
  else if Rlt_dec 0 y then PI / 2
  else if Rlt_dec y 0 then - (PI / 2)
  else 0.

(** [numpy.random.normal(loc, scale)], as a function of the standard
    normal draw [z] that the generator produces. *)
Definition random_normal (loc scale z : R) : R := loc + scale * z.

End Py.

(** ** [ZipCoordinatesDB] *)

Module ZipCoordinatesDB.

(** [self.coordinates]: ZIP code to (latitude, longitude). *)
Abbreviation t := (gmap string (R * R)).

Definition get_coordinates (coordinates : t) (zip_code : string)
  : option (R * R) :=
  let clean_zip := Py.zfill 5 zip_code in
  coordinates !! clean_zip.

(** [batch_get_coordinates]: the dictionary of the ZIP codes that resolve,
    keyed by the ZIP code as it was given; a pair of coordinates is a
    non-empty tuple, hence true in [if coords:]. *)
Definition batch_get_coordinates (coordinates : t) (zip_codes : list string)
  : t :=
  foldl (fun results zip_code =>
           match get_coordinates coordinates zip_code with
           | Some coords => <[zip_code := coords]> results
           | None => results
           end) ∅ zip_codes.

(** The entry ["total_zip_codes"] of [get_stats]. *)
Definition get_stats_total_zip_codes (coordinates : t) : nat :=
  size coordinates.

End ZipCoordinatesDB.

(** ** [generate_statewide_travel_matrix.haversine] *)

Module Statewide.

Definition haversine (lat1 lon1 lat2 lon2 : R) : R :=
  let R_ := 3958.8 in
  let dlat := Py.radians (lat2 - lat1) in
  let dlon := Py.radians (lon2 - lon1) in
  let a := (sin (dlat / 2))² +
           cos (Py.radians lat1) * cos (Py.radians lat2) * (sin (dlon / 2))² in
  let c := 2 * Py.atan2 (sqrt a) (sqrt (1 - a)) in
  R_ * c * 1.15.

End Statewide.

(** ** Distance and travel-time estimation of [TravelMatrixBuilder] *)

Module Estimator.

Definition _calculate_distance (coords1 coords2 : R * R) : R :=
  let '(lat1, lon1) := coords1 in
  let '(lat2, lon2) := coords2 in
  let lat1 := Py.radians lat1 in
  let lon1 := Py.radians lon1 in
  let lat2 := Py.radians lat2 in
  let lon2 := Py.radians lon2 in
  let dlat := lat2 - lat1 in
  let dlon := lon2 - lon1 in
  let a := (sin (dlat / 2))² + cos lat1 * cos lat2 * (sin (dlon / 2))² in
  let c := 2 * asin (sqrt a) in
  let r := 3959 in
  c * r.

Definition ca_prefixes : list string :=
  ["90"; "91"; "92"; "93"; "94"; "95"; "96"]%string.

(** The random generator is a stream [gauss] of standard normal draws and
    a position [n] in it; a function that may draw returns the new
    position. *)
Definition _fallback_travel_time_estimation
    (gauss : nat -> R) (n : nat) (origin_zip dest_zip : string) : R * nat :=
  let origin_is_ca := Py.startswith_any ca_prefixes origin_zip in
  let dest_is_ca := Py.startswith_any ca_prefixes dest_zip in
  if (negb origin_is_ca && negb dest_is_ca)%bool then (180, n)
  else if negb (Bool.eqb origin_is_ca dest_is_ca) then (120, n)
  else
    match Py.int (Py.slice_to 2 origin_zip),
          Py.int (Py.slice_to 2 dest_zip) with
    | Some origin_region, Some dest_region =>
        if ((90 <=? origin_region) && (origin_region <=? 96) &&
            (90 <=? dest_region) && (dest_region <=? 96))%Z%bool
        then
          let distance := (Z.abs (origin_region - dest_region) * 10)%Z in
          let travel_time := IZR distance * 1.5 in
          let travel_time := travel_time + Py.random_normal 0 10 (gauss n) in
          let travel_time := Py.max 10 travel_time in
          let travel_time := Py.min 120 travel_time in
          (travel_time, S n)
        else (150, n)
    | _, _ => (45, n)
    end.

(** The distance bands of [_estimate_travel_time]. *)
Definition speed_tier_minutes (distance : R) : R :=
  if Rle_dec distance 50 then distance * 1.71
  else if Rle_dec distance 150 then distance * 1.09
  else if Rle_dec distance 300 then distance * 0.92
  else (distance * 1.0) * 1.1.

(** The tail of [_estimate_travel_time] after the distance is known:
    band formula, perturbation [normal(0, 5)], clamping. *)
Definition estimate_minutes (distance z : R) : R :=
  let travel_time := speed_tier_minutes distance in
  let travel_time := travel_time + Py.random_normal 0 5 z in
  let travel_time := Py.max 5 travel_time in
  let travel_time := Py.min 600 travel_time in
  travel_time.

Definition _estimate_travel_time
    (zip_db : ZipCoordinatesDB.t) (gauss : nat -> R) (n : nat)
    (origin_zip dest_zip : string) : R * nat :=
  let origin_zip_5digit := Py.zfill 5 origin_zip in
  let dest_zip_5digit := Py.zfill 5 dest_zip in
  match ZipCoordinatesDB.get_coordinates zip_db origin_zip_5digit,
        ZipCoordinatesDB.get_coordinates zip_db dest_zip_5digit with
  | Some origin_coords, Some dest_coords =>
      let distance := _calculate_distance origin_coords dest_coords in
      (estimate_minutes distance (gauss n), S n)
  | _, _ => _fallback_travel_time_estimation gauss n origin_zip dest_zip
  end.

End Estimator.

(** ** The fragment of pandas and numpy used by the sources *)

Module Pandas.

Import Py.

(** A cell of a column: a string, an integer (dtype [int64]), a float
    (dtype [float64]) or NaN. *)
Inductive Cell : Type :=
| CStr (s : string)
| CInt (z : Z)
| CNum (x : R)
| CNaN.

(** [Series.isna()] and [Series.notna()], cell by cell. *)
Definition isna (c : Cell) : bool :=
  match c with CNaN => true | _ => false end.
Definition notna (c : Cell) : bool := negb (isna c).

(** The number held by a cell, if any. *)
Definition as_num (c : Cell) : option R :=
  match c with
  | CInt z => Some (IZR z)
  | CNum x => Some x
  | _ => None
  end.

Definition Req_bool (x y : R) : bool := if Req_dec_T x y then true else false.
Definition Rlt_bool (x y : R) : bool := if Rlt_dec x y then true else false.
Definition Rle_bool (x y : R) : bool := if Rle_dec x y then true else false.

(** [a == b] on cells: NaN is equal to nothing. *)
Definition cell_eqb (a b : Cell) : bool :=
  match a, b with
  | CStr s, CStr t => String.eqb s t
  | CInt x, CInt y => Z.eqb x y
  | CStr _, _ | _, CStr _ => false
  | CNaN, _ | _, CNaN => false
  | _, _ =>
      match as_num a, as_num b with
      | Some x, Some y => Req_bool x y
      | _, _ => false
      end
  end.

(** Sameness for [drop_duplicates], [unique] and [nunique]: as [==], but two
    NaN are the same value. *)
Definition cell_same (a b : Cell) : bool :=
  match a, b with
  | CNaN, CNaN => true
  | _, _ => cell_eqb a b
  end.

(** Keep the first occurrence of every value, in order of appearance. *)
Fixpoint drop_duplicates_from {A} (same : A -> A -> bool) (seen l : list A)
  : list A :=
  match l with
  | [] => []
  | x :: l' =>
      if existsb (same x) seen then drop_duplicates_from same seen l'
      else x :: drop_duplicates_from same (x :: seen) l'
  end.

Definition drop_duplicates {A} (same : A -> A -> bool) (l : list A) : list A :=
  drop_duplicates_from same [] l.

(** A frame: named columns, all of one length. *)
Definition DataFrame : Type := list (string * list Cell).

Definition columns (df : DataFrame) : list string := map fst df.

Fixpoint lookup_col (name : string) (df : DataFrame) : option (list Cell) :=
  match df with
  | [] => None
  | (n, c) :: df' => if String.eqb n name then Some c else lookup_col name df'
  end.

(** [df[name]] *)
Definition getitem (df : DataFrame) (name : string) : result (list Cell) :=
  match lookup_col name df with
  | Some c => ret c
  | None => raise (KeyError name)
  end.

(** [df[name] = col], and the column-wise effect of [df.loc[i, name] = v]. *)
Fixpoint set_col (name : string) (col : list Cell) (df : DataFrame)
  : DataFrame :=
  match df with
  | [] => [(name, col)]
  | (n, c) :: df' =>
      if String.eqb n name then (n, col) :: df'
      else (n, c) :: set_col name col df'
  end.

(** [df.rename(columns={old: new})] *)
Definition rename (old new : string) (df : DataFrame) : DataFrame :=
  map (fun '(n, c) => (if String.eqb n old then new else n, c)) df.

(** The row at position [i]: the cell of every column. *)
Definition row (df : DataFrame) (i : nat) : list (string * option Cell) :=
  map (fun '(n, c) => (n, c !! i)) df.

(** Positions at which a boolean mask holds: the index selected by
    [df[mask].index] under a [RangeIndex]. *)
Definition positions (mask : list bool) : list nat :=
  map fst (List.filter snd (zip (seq 0 (length mask)) mask)).

(** [rows[mask]] for a mask over the same positions. *)
Definition select {A} (rows : list A) (mask : list bool) : list A :=
  map fst (List.filter snd (zip rows mask)).

(** [frame[mask]] where [frame] has its own [RangeIndex] and [mask] is a
    boolean series: pandas aligns the mask on the frame's index and raises
    when a label of the frame is absent from the mask. *)
Definition bool_index {A} (rows : list A) (mask : list bool)
  : result (list A) :=
  if (length mask <? length rows)%nat then raise IndexError
  else ret (select rows mask).

(** [frame[mask]] where [mask] is a boolean numpy array: the lengths must
    agree. *)
Definition array_index {A} (rows : list A) (mask : list bool)
  : result (list A) :=
  if (length mask =? length rows)%nat then ret (select rows mask)
  else raise ValueError.

(** [seq[i]] *)
Definition item {A} (l : list A) (i : nat) : result A :=
  match l !! i with
  | Some a => ret a
  | None => raise IndexError
  end.

Definition Rsum (l : list R) : R := foldr Rplus 0 l.

(** [numpy.average(values, weights=weights)] over cells: shapes must agree,
    the weights must not sum to zero, NaN propagates. *)
Definition np_average (values : list Cell) (weights : list R) : result Cell :=
  if negb (length values =? length weights)%nat then raise TypeError
  else if Req_bool (Rsum weights) 0 then raise ZeroDivisionError
  else if existsb (fun c => match c with CStr _ => true | _ => false end) values
  then raise TypeError
  else
    match mapM as_num values with
    | Some xs =>
        ret (CNum (Rsum (zip_with Rmult xs weights) / Rsum weights))
    | None => ret CNaN
    end.

(** [Series.mean()] of numbers; NaN on an empty series. *)
Definition mean (xs : list R) : Cell :=
  match xs with
  | [] => CNaN
  | _ => CNum (Rsum xs / INR (length xs))
  end.

(** Numbers of a series without missing values; a string makes the numeric
    reductions of pandas raise. *)
Definition numbers (e : exn) (cells : list Cell) : result (list R) :=
  all_ok (fun c => match as_num c with
                   | Some x => ret x
                   | None => raise e
                   end) cells.

(** [Series.argmin()] / [numpy.argmin]: position of the first minimum. *)
Fixpoint argmin_from (best : nat) (best_val : R) (i : nat) (l : list R) : nat :=
  match l with
  | [] => best
  | x :: l' =>
      if Rlt_bool x best_val then argmin_from i x (S i) l'
      else argmin_from best best_val (S i) l'
  end.

Definition argmin (l : list R) : result nat :=
  match l with
  | [] => raise ValueError
  | x :: l' => ret (argmin_from 0%nat x 1%nat l')
  end.

End Pandas.

(** ** [InterpolationMethods] *)

Module InterpolationMethods.

Import Py Pandas.

Notation "'let*' x := m 'in' k" := (bind m (fun x => k))
  (at level 10, x pattern, m at level 100, k at level 200).

Definition travel_time_minutes : string := "travel_time_minutes".

(** The body shared by the four strategies,

      [for i, missing_idx in enumerate(missing_indices):]
      [    ...]
      [    result_matrix.loc[missing_idx, 'travel_time_minutes'] = value]

    over the travel-time column of [result_matrix]; [value] may read the
    column as it stands when its turn comes. *)
Fixpoint fill_loop (value : nat -> nat -> list Cell -> result Cell)
    (i : nat) (missing_indices : list nat) (times : list Cell)
  : result (list Cell) :=
  match missing_indices with
  | [] => ret times
  | missing_idx :: rest =>
      let* v := value i missing_idx times in
      fill_loop value (S i) rest (<[missing_idx := v]> times)
  end.

(** [series.str[...].astype(int)] on one cell: [int] of the string, then
    the conversion to [int64], which raises [OverflowError] outside its
    range.  The exception raised on a cell that is not a string depends on
    the dtype of the column. *)
Definition str_astype_int (sl : string -> string) (c : Cell) : result Z :=
  match c with
  | CStr s =>
      match Py.int (sl s) with
      | Some z => if in_int64 z then ret z else raise OverflowError
      | None => raise ValueError
      end
  | CNaN => raise ValueError
  | _ => raise AttributeError
  end.

(** [abs(a - b)] on two [int64] columns: both operations wrap around. *)
Definition zip_diff (a b : Z) : Z := wrap_int64 (Z.abs (wrap_int64 (a - b))).

Definition feature_row (o d : Z * Z * Z) : list R :=
  let '(o1, o2, o3) := o in
  let '(d1, d2, d3) := d in
  [IZR o1; IZR o2; IZR o3; IZR d1; IZR d2; IZR d3;
   IZR (zip_diff o1 d1); IZR (zip_diff o2 d2); IZR (zip_diff o3 d3)].

(** Coordinates of the centroid of a pair, from the ZIP digits. *)
Definition centroid (o d : R * R * R) : R * R :=
  let '(o1, o2, o3) := o in
  let '(d1, d2, d3) := d in
  let origin_lat := o1 + o2 / 100 in
  let origin_lon := -120 + o3 / 10 in
  let dest_lat := d1 + d2 / 100 in
  let dest_lon := -120 + d3 / 10 in
  ((origin_lat + dest_lat) / 2, (origin_lon + dest_lon) / 2).

(** [float('inf')] and the floats below it: [None] is infinity. *)
Definition lt_inf (d : R) (bound : option R) : bool :=
  match bound with
  | None => true
  | Some b => Rlt_bool d b
  end.

(** [numpy.linalg.norm(u - v)] *)
Definition norm_diff (u v : list R) : R :=
  sqrt (Rsum (zip_with (fun x y => (x - y)²) u v)).

(** Column-wise [DataFrame.mean()] of feature rows of width [w]; [None] is
    the all-NaN series of an empty frame. *)
Definition feature_mean (w : nat) (rows : list (list R)) : option (list R) :=
  match rows with
  | [] => None
  | _ =>
      Some (map (fun j => Rsum (map (fun r => nth j r 0) rows)
                          / INR (length rows)) (seq 0 w))
  end.

Section Engine.

(** scikit-learn, as used by the class:
    [StandardScaler().fit_transform(X)];
    [NearestNeighbors(n_neighbors=n).fit(X).kneighbors(Q)], returning the
    arrays [distances] and [indices], one row per query;
    [AgglomerativeClustering(n_clusters=n).fit_predict(X)];
    [RandomForestRegressor(n_estimators=100, random_state=42).fit(X, y)]
    followed by [predict(Q)]. *)
Variable scaler_fit_transform : list (list R) -> result (list (list R)).
Variable kneighbors :
  nat -> list (list R) -> list (list R) ->
  result (list (list R) * list (list nat)).
Variable agglomerative_fit_predict : nat -> list (list R) -> result (list nat).
Variable random_forest_fit_predict :
  list (list R) -> list R -> list (list R) -> result (list R).

(** [float(s)] of Python on the strings that denote a real number; [None] is
    [ValueError]. *)
Variable py_float : string -> option R.

Definition str_astype_float (sl : string -> string) (c : Cell) : result R :=
  match c with
  | CStr s =>
      match py_float (sl s) with
      | Some x => ret x
      | None => raise ValueError
      end
  | CNaN => raise ValueError
  | _ => raise AttributeError
  end.

Definition _create_zip_features (matrix : DataFrame)
  : result (list (list R)) :=
  let* origin := getitem matrix "origin_zip" in
  let* origin_zip_1 := all_ok (str_astype_int (slice_to 2)) origin in
  let* origin_zip_2 := all_ok (str_astype_int (slice 2 4)) origin in
  let* origin_zip_3 := all_ok (str_astype_int (slice_from 4)) origin in
  let* dest := getitem matrix "destination_zip" in
  let* dest_zip_1 := all_ok (str_astype_int (slice_to 2)) dest in
  let* dest_zip_2 := all_ok (str_astype_int (slice 2 4)) dest in
  let* dest_zip_3 := all_ok (str_astype_int (slice_from 4)) dest in
  let features :=
    zip_with feature_row
      (zip (zip origin_zip_1 origin_zip_2) origin_zip_3)
      (zip (zip dest_zip_1 dest_zip_2) dest_zip_3) in
  let* scaled := scaler_fit_transform features in
  if forallb (fun r => (length r =? 9)%nat) scaled then ret scaled
  else raise ValueError.

Definition _create_zip_coordinates (matrix : DataFrame)
  : result (list (R * R)) :=
  let* origin := getitem matrix "origin_zip" in
  let* o1 := all_ok (str_astype_float (slice_to 2)) origin in
  let* o2 := all_ok (str_astype_float (slice 2 4)) origin in
  let* o3 := all_ok (str_astype_float (slice_from 4)) origin in
  let* dest := getitem matrix "destination_zip" in
  let* d1 := all_ok (str_astype_float (slice_to 2)) dest in
  let* d2 := all_ok (str_astype_float (slice 2 4)) dest in
  let* d3 := all_ok (str_astype_float (slice_from 4)) dest in
  ret (zip_with centroid (zip (zip o1 o2) o3) (zip (zip d1 d2) d3)).

(** One turn of the loop of [nearest_neighbor_interpolation]: the rows read
    are those at the positions [known_mask.index[indices[i]]] of the whole
    matrix. *)
Definition nn_value (distances : list (list R)) (indices : list (list nat))
    (i missing_idx : nat) (times : list Cell) : result Cell :=
  let* indices_i := item indices i in
  let* neighbor_values := all_ok (item times) indices_i in
  let* distances_i := item distances i in
  let neighbor_weights := map (fun d => 1 / (d + 1e-6)) distances_i in
  np_average neighbor_values neighbor_weights.

Definition nearest_neighbor_interpolation (matrix : DataFrame) (k : nat)
  : result DataFrame :=
  let result_matrix := matrix in
  let* times := getitem result_matrix travel_time_minutes in
  let missing_mask := map isna times in
  let missing_indices := positions missing_mask in
  if (length missing_indices =? 0)%nat then ret result_matrix
  else
    let* features := _create_zip_features result_matrix in
    let known_mask := map notna times in
    let* known_features := bool_index features known_mask in
    let* missing_features := bool_index features missing_mask in
    let* (distances, indices) :=
      kneighbors (Nat.min k (length known_features))
                 known_features missing_features in
    let* times' :=
      fill_loop (nn_value distances indices) 0 missing_indices times in
    ret (set_col travel_time_minutes times' result_matrix).

(** One turn of the loop of [spatial_weighting_interpolation]. *)
Definition spatial_value (max_distance : R) (known_coords : list (R * R))
    (known_values : list Cell) (missing_coords : list (R * R))
    (i missing_idx : nat) (times : list Cell) : result Cell :=
  let* missing_coord := item missing_coords i in
  let distances :=
    map (fun kc => sqrt ((fst kc - fst missing_coord)² +
                         (snd kc - snd missing_coord)²) * 69) known_coords in
  let within_range := map (fun d => Rle_bool d max_distance) distances in
  if (0 <? length (List.filter (fun b : bool => b) within_range))%nat then
    let weights := map (fun d => 1 / (d + 1e-6)) (select distances within_range) in
    let values := select known_values within_range in
    np_average values weights
  else
    let* nearest_idx := argmin distances in
    item known_values nearest_idx.

Definition spatial_weighting_interpolation (matrix : DataFrame)
    (max_distance : R) : result DataFrame :=
  let result_matrix := matrix in
  let* times := getitem result_matrix travel_time_minutes in
  let missing_mask := map isna times in
  let missing_indices := positions missing_mask in
  if (length missing_indices =? 0)%nat then ret result_matrix
  else
    let* zip_coords := _create_zip_coordinates result_matrix in
    let known_mask := map notna times in
    let known_coords := select zip_coords known_mask in
    let known_values := select times known_mask in
    let missing_coords := select zip_coords missing_mask in
    let* times' :=
      fill_loop (spatial_value max_distance known_coords known_values
                               missing_coords) 0 missing_indices times in
    ret (set_col travel_time_minutes times' result_matrix).

(** The dictionaries [cluster_centers] and [cluster_values], in insertion
    order: the entry of cluster [cluster_id] is at position [cluster_id]. *)
Definition cluster_summary (cluster_labels : list nat)
    (known_features : list (list R)) (known_values : list Cell)
    (cluster_id : nat) : result (option (list R) * Cell) :=
  let cluster_mask := map (Nat.eqb cluster_id) cluster_labels in
  let* cluster_features := array_index known_features cluster_mask in
  let* cluster_travel_times := array_index known_values cluster_mask in
  let* travel_times := numbers TypeError cluster_travel_times in
  ret (feature_mean 9 cluster_features, mean travel_times).

(** The search for the nearest centre: [min_distance] starts at infinity,
    [nearest_cluster] at 0; a centre of NaN is never nearer. *)
Fixpoint nearest_cluster_from (missing_feature : list R)
    (min_distance : option R) (nearest_cluster : nat) (cluster_id : nat)
    (centers : list (option (list R))) : nat :=
  match centers with
  | [] => nearest_cluster
  | center :: rest =>
      match center with
      | Some c =>
          let distance := norm_diff missing_feature c in
          if lt_inf distance min_distance
          then nearest_cluster_from missing_feature (Some distance) cluster_id
                                    (S cluster_id) rest
          else nearest_cluster_from missing_feature min_distance
                                    nearest_cluster (S cluster_id) rest
      | None =>
          nearest_cluster_from missing_feature min_distance nearest_cluster
                               (S cluster_id) rest
      end
  end.

(** One turn of the loop of [hierarchical_clustering_interpolation]. *)
Definition cluster_value (clusters : list (option (list R) * Cell))
    (missing_features : list (list R))
    (i missing_idx : nat) (times : list Cell) : result Cell :=
  let* missing_feature := item missing_features i in
  let nearest_cluster :=
    nearest_cluster_from missing_feature None 0 0 (map fst clusters) in
  match clusters !! nearest_cluster with
  | Some (_, v) => ret v
  | None => raise (KeyError "0")
  end.

Definition hierarchical_clustering_interpolation (matrix : DataFrame)
    (n_clusters : nat) : result DataFrame :=
  let result_matrix := matrix in
  let* times := getitem result_matrix travel_time_minutes in
  let missing_mask := map isna times in
  let missing_indices := positions missing_mask in
  if (length missing_indices =? 0)%nat then ret result_matrix
  else
    let* features := _create_zip_features result_matrix in
    let known_mask := map notna times in
    let* known_features := bool_index features known_mask in
    let known_values := select times known_mask in
    let n_clusters := Nat.min n_clusters (length known_features) in
    let* cluster_labels :=
      agglomerative_fit_predict n_clusters known_features in
    let* clusters :=
      all_ok (cluster_summary cluster_labels known_features known_values)
             (seq 0 n_clusters) in
    let* missing_features := bool_index features missing_mask in
    let* times' :=
      fill_loop (cluster_value clusters missing_features)
                0 missing_indices times in
    ret (set_col travel_time_minutes times' result_matrix).

(** One turn of the loop of [machine_learning_interpolation]. *)
Definition ml_value (predicted_values : list R)
    (i missing_idx : nat) (times : list Cell) : result Cell :=
  let* v := item predicted_values i in
  ret (CNum v).

Definition machine_learning_interpolation (matrix : DataFrame)
  : result DataFrame :=
  let result_matrix := matrix in
  let* times := getitem result_matrix travel_time_minutes in
  let missing_mask := map isna times in
  let missing_indices := positions missing_mask in
  if (length missing_indices =? 0)%nat then ret result_matrix
  else
    let* features := _create_zip_features result_matrix in
    let known_mask := map notna times in
    let* known_features := bool_index features known_mask in
    let known_values := select times known_mask in
    let* missing_features := bool_index features missing_mask in
    let* known_numbers := numbers ValueError known_values in
    let* predicted_values :=
      random_forest_fit_predict known_features known_numbers
                                missing_features in
    let* times' :=
      fill_loop (ml_value predicted_values) 0 missing_indices times in
    ret (set_col travel_time_minutes times' result_matrix).

(** The four strategies with their parameters; the caller picks one. *)
Inductive Strategy : Type :=
| NearestNeighbor (k : nat)
| SpatialWeighting (max_distance : R)
| HierarchicalClustering (n_clusters : nat)
| MachineLearning.

Definition interpolate (strategy : Strategy) (matrix : DataFrame)
  : result DataFrame :=
  match strategy with
  | NearestNeighbor k => nearest_neighbor_interpolation matrix k
  | SpatialWeighting max_distance =>
      spatial_weighting_interpolation matrix max_distance
  | HierarchicalClustering n_clusters =>
      hierarchical_clustering_interpolation matrix n_clusters
  | MachineLearning => machine_learning_interpolation matrix
  end.

End Engine.

End InterpolationMethods.

(** ** [TravelMatrixBuilder] *)

Module TravelMatrixBuilder.

Import Py Pandas.

(** A row of [self.provider_data] as the builder reads it: the cell of the
    column [NPI] and [str] of the cell of the column [zip_code]; the other
    columns of the roster are never read. *)
Record Provider : Type := mkProvider {
  NPI : Cell;
  provider_zip_code : string
}.

(** A row of [self.demand_data] as the builder reads it: the cell of the
    column [zip_code]. *)
Record Demand : Type := mkDemand {
  demand_zip_code : Cell
}.

(** A row of the travel matrix: the columns [zip_code] (demand ZIP),
    [provider_npi] and [drive_minutes] (a float: NaN or a number). *)
Record Entry : Type := mkEntry {
  zip_code : Cell;
  provider_npi : Cell;
  drive_minutes : Cell
}.

Definition Matrix : Type := list Entry.

(** The content of [travel_matrix_summary.json]. *)
Record Summary : Type := mkSummary {
  total_pairs : nat;
  coverage : Cell;
  mean_travel_time : Cell;
  median_travel_time : Cell;
  min_travel_time : Cell;
  max_travel_time : Cell;
  providers_count : nat;
  demand_areas_count : nat
}.

Inductive File : Type :=
| CsvFile (df : DataFrame)
| ParquetFile (df : DataFrame)
| JsonFile (summary : Summary).

(** Constructor arguments. *)
Record Config : Type := mkConfig {
  data_dir : string;
  output_dir : string;
  max_error_rate : R;
  min_coverage : R
}.

(** The files on disk and the attributes of the builder;
    [self.provider_data] and [self.demand_data] are [None] or a frame. *)
Record State : Type := mkState {
  fs : gmap string File;
  provider_data : option DataFrame;
  demand_data : option DataFrame;
  final_matrix : option Matrix
}.

Definition set_fs (f : gmap string File) (s : State) : State :=
  mkState f (provider_data s) (demand_data s) (final_matrix s).
Definition set_provider_data (p : DataFrame) (s : State) : State :=
  mkState (fs s) (Some p) (demand_data s) (final_matrix s).
Definition set_demand_data (d : DataFrame) (s : State) : State :=
  mkState (fs s) (provider_data s) (Some d) (final_matrix s).
Definition set_final_matrix (m : Matrix) (s : State) : State :=
  mkState (fs s) (provider_data s) (demand_data s) (Some m).

(** Methods run on the state and may raise; the state reached when an
    exception is raised is kept. *)
Definition M (A : Type) : Type := State -> result A * State.

Definition mret {A} (a : A) : M A := fun s => (ret a, s).
Definition mraise {A} (e : exn) : M A := fun s => (raise e, s).
Definition mbind {A B} (m : M A) (k : A -> M B) : M B :=
  fun s =>
    match m s with
    | (inl e, s') => (inl e, s')
    | (inr a, s') => k a s'
    end.
Definition lift {A} (r : result A) : M A := fun s => (r, s).
Definition get : M State := fun s => (ret s, s).
Definition modify (f : State -> State) : M unit := fun s => (ret tt, f s).

Notation "'do' x <- m ; k" := (mbind m (fun x => k))
  (at level 10, x pattern, m at level 100, k at level 200).
Notation "'let*' x := m 'in' k" := (bind m (fun x => k))
  (at level 10, x pattern, m at level 100, k at level 200).

(** A method that leaves the files on disk and [self.final_matrix] as they
    are, whatever it returns or raises. *)
Definition reads_only {A} (m : M A) : Prop :=
  forall s r s', m s = (r, s') ->
    fs s' = fs s /\ final_matrix s' = final_matrix s.

(** [pd.read_csv(path)] on a file that is there. *)
Definition read_csv (f : File) : result DataFrame :=
  match f with
  | CsvFile df => ret df
  | _ => raise ValueError
  end.

(** The frame of a matrix and back. *)
Definition to_frame (m : Matrix) : DataFrame :=
  [("zip_code"%string, map zip_code m);
   ("provider_npi"%string, map provider_npi m);
   ("drive_minutes"%string, map drive_minutes m)].

Definition of_frame (df : DataFrame) : result Matrix :=
  let* drive := getitem df "drive_minutes" in
  let* npi := getitem df "provider_npi" in
  let* zips := getitem df "zip_code" in
  ret (zip_with (fun z '(p, d) => mkEntry z p d) zips (zip npi drive)).

Definition set_drive_minutes (v : Cell) (e : Entry) : Entry :=
  mkEntry (zip_code e) (provider_npi e) v.

(** [1 - matrix['drive_minutes'].isna().mean()]; NaN on an empty matrix. *)
Definition matrix_coverage (m : Matrix) : Cell :=
  match m with
  | [] => CNaN
  | _ =>
      CNum (1 - INR (length (List.filter (fun e => isna (drive_minutes e)) m))
                / INR (length m))
  end.

(** [x < y] for a float [x] that may be NaN. *)
Definition cell_lt (c : Cell) (y : R) : bool :=
  match as_num c with
  | Some x => Rlt_bool x y
  | None => false
  end.

Fixpoint insert_sorted (x : R) (l : list R) : list R :=
  match l with
  | [] => [x]
  | y :: l' => if Rle_bool x y then x :: l else y :: insert_sorted x l'
  end.

Definition sort (l : list R) : list R := foldr insert_sorted [] l.

(** [Series.median()], [Series.min()], [Series.max()], NaN skipped. *)
Definition median (xs : list R) : Cell :=
  let s := sort xs in
  let n := length s in
  match n with
  | O => CNaN
  | _ =>
      if Nat.even n
      then CNum ((nth (n / 2 - 1) s 0 + nth (n / 2) s 0) / 2)
      else CNum (nth (n / 2) s 0)
  end.

Definition minimum (xs : list R) : Cell :=
  match xs with
  | [] => CNaN
  | x :: xs' => CNum (foldl Rmin x xs')
  end.

Definition maximum (xs : list R) : Cell :=
  match xs with
  | [] => CNaN
  | x :: xs' => CNum (foldl Rmax x xs')
  end.

(** [Series.nunique()]: distinct values, NaN not counted. *)
Definition nunique (cells : list Cell) : nat :=
  length (drop_duplicates cell_same (List.filter notna cells)).

Definition summary_of (matrix : Matrix) : Summary :=
  let times := omap (fun e => as_num (drive_minutes e)) matrix in
  {| total_pairs := length matrix;
     coverage := matrix_coverage matrix;
     mean_travel_time := mean times;
     median_travel_time := median times;
     min_travel_time := minimum times;
     max_travel_time := maximum times;
     providers_count := nunique (map provider_npi matrix);
     demand_areas_count := nunique (map zip_code matrix) |}.

(** Cells of dtype [object] (strings) and of dtype [float64]. *)
Definition is_str (c : Cell) : bool :=
  match c with CStr _ => true | _ => false end.
Definition is_float (c : Cell) : bool :=
  match c with CNum _ | CNaN => true | _ => false end.

(** The cell that [frame.iloc[i][name]] returns for the cell [c] of the
    frame: [iloc[i]] is the row as one series, whose dtype is the common
    dtype of the columns, so that the integers of a frame of numeric
    columns, one of them of floats, come back as floats. *)
Definition iloc_cell (frame : DataFrame) (c : Cell) : Cell :=
  if existsb (fun col => existsb is_str (snd col)) frame then c
  else if existsb (fun col => existsb is_float (snd col)) frame then
    match c with
    | CInt z => CNum (IZR z)
    | _ => c
    end
  else c.

(** Position of the first row that a boolean mask selects. *)
Fixpoint first_position (mask : list bool) : option nat :=
  match mask with
  | [] => None
  | b :: mask' => if b then Some 0%nat else S <$> first_position mask'
  end.

(** A frame with distinct column names, among them the two that the
    builder reads from the roster; and whether the column [NPI] of
    [self.provider_data] holds a value equal to [provider_npi]. *)
Definition roster_frame (frame : DataFrame) : Prop :=
  NoDup (columns frame) /\
  exists npis zips,
    lookup_col "NPI" frame = Some npis /\
    lookup_col "zip_code" frame = Some zips /\
    length zips = length npis.

Definition npi_listed (provider_data : option DataFrame) (provider_npi : Cell)
  : bool :=
  match provider_data ≫= lookup_col "NPI" with
  | Some npis => existsb (fun c => cell_eqb c provider_npi) npis
  | None => false
  end.

Section Builder.

(** The environment of a build: the loaded [ZipCoordinatesDB]; the standard
    normal draws of numpy's generator after [np.random.seed(42)]; [str] on a
    float; [DataFrame.to_parquet], which returns or raises before it
    creates the file ([ImportError] without an engine, the errors of the
    conversion of the frame by [pyarrow]); and the scikit-learn functions of
    the [InterpolationMethods] instance. *)
Variable zip_db : ZipCoordinatesDB.t.
Variable gauss : nat -> R.
Variable float_str : R -> string.
Variable to_parquet : DataFrame -> result unit.
Variable scaler_fit_transform : list (list R) -> result (list (list R)).
Variable kneighbors :
  nat -> list (list R) -> list (list R) ->
  result (list (list R) * list (list nat)).

Variable cfg : Config.

(** [series.astype(str)] on one cell, and [str] of a cell. *)
Definition astype_str (c : Cell) : string :=
  match c with
  | CStr s => s
  | CInt z => NilZero.string_of_int (Z.to_int z)
  | CNum x => float_str x
  | CNaN => "nan"
  end.

Definition provider_file : string :=
  data_dir cfg +:+ "/processed/ca_providers_filtered.csv".
Definition demand_file : string :=
  data_dir cfg +:+ "/processed/ca_demand_filtered.csv".
Definition csv_file : string := output_dir cfg +:+ "/travel_matrix.csv".
Definition output_file : string := output_dir cfg +:+ "/travel_matrix.parquet".
Definition summary_file : string :=
  output_dir cfg +:+ "/travel_matrix_summary.json".

Definition has_column (df : DataFrame) (col : string) : bool :=
  existsb (String.eqb col) (columns df).

(** [frame['zip_code'] = frame['zip_code'].astype(str).str.zfill(5)] *)
Definition clean_zip_codes (frame : DataFrame) : result DataFrame :=
  let* zips := getitem frame "zip_code" in
  ret (set_col "zip_code"
         (map (fun c => CStr (zfill 5 (astype_str c))) zips) frame).

(** The frame is assigned to [self.provider_data] as soon as it is read,
    before the columns are checked. *)
Definition load_provider_data : M DataFrame :=
  do s <- get;
  match fs s !! provider_file with
  | None => mraise FileNotFoundError
  | Some f =>
      do df <- lift (read_csv f);
      do _ <- modify (set_provider_data df);
      let required_cols := ["provider_npi"; "zip_code"]%string in
      let missing_cols :=
        List.filter (fun col => negb (has_column df col)) required_cols in
      if negb (length missing_cols =? 0)%nat then mraise ValueError
      else
        let df := rename "provider_npi" "NPI" df in
        do _ <- modify (set_provider_data df);
        do df <- lift (clean_zip_codes df);
        do _ <- modify (set_provider_data df);
        mret df
  end.

Definition load_demand_data : M DataFrame :=
  do s <- get;
  match fs s !! demand_file with
  | None => mraise FileNotFoundError
  | Some f =>
      do df <- lift (read_csv f);
      do _ <- modify (set_demand_data df);
      let required_cols := ["zip_code"; "demand_score"]%string in
      let missing_cols :=
        List.filter (fun col => negb (has_column df col)) required_cols in
      if negb (length missing_cols =? 0)%nat then mraise ValueError
      else
        let df := rename "demand_score" "ensemble_demand_score" df in
        do _ <- modify (set_demand_data df);
        do df <- lift (clean_zip_codes df);
        do _ <- modify (set_demand_data df);
        mret df
  end.

(** [download_academic_dataset] reads the academic file when it is there,
    and otherwise makes a placeholder from the ZIP codes of the two frames.
    Either is assigned to [self.academic_matrix], an attribute that no later
    phase reads (see [_fill_with_academic_data]) and that the state does not
    hold; no file is written. *)
Definition academic_file : string :=
  data_dir cfg +:+ "/external/travel_matrices/academic_travel_matrix.csv".

Definition _create_placeholder_academic_matrix : M unit :=
  do s <- get;
  match provider_data s with
  | None => mraise TypeError
  | Some provider_data =>
      do _ <- lift (getitem provider_data "zip_code");
      match demand_data s with
      | None => mraise TypeError
      | Some demand_data =>
          do _ <- lift (getitem demand_data "zip_code");
          mret tt
      end
  end.

Definition download_academic_dataset : M unit :=
  do s <- get;
  match fs s !! academic_file with
  | Some f =>
      do _ <- lift (read_csv f);
      mret tt
  | None => _create_placeholder_academic_matrix
  end.

Definition same_provider_info (a b : Cell * string) : bool :=
  (cell_same (fst a) (fst b) && String.eqb (snd a) (snd b))%bool.

Definition create_target_matrix
    (provider_data : list Provider) (demand_data : list Demand) : Matrix :=
  let provider_info :=
    drop_duplicates same_provider_info
      (map (fun p => (NPI p, slice_to 5 (provider_zip_code p))) provider_data) in
  let demand_zips :=
    drop_duplicates cell_same (map demand_zip_code demand_data) in
  flat_map (fun provider =>
              let provider_npi := fst provider in
              map (fun demand_zip => mkEntry demand_zip provider_npi CNaN)
                  demand_zips)
           provider_info.

(** The rows of the two frames as [_create_target_matrix] reads them:
    [provider_data_clean['zip_code'].astype(str)] and the selection
    [[['NPI', 'zip_5digit']]] of the roster, [self.demand_data['zip_code']]
    of the demand areas. *)
Definition provider_rows (frame : DataFrame) : result (list Provider) :=
  let* zips := getitem frame "zip_code" in
  let* npis :=
    match lookup_col "NPI" frame with
    | Some npis => ret npis
    | None => raise (KeyError "['NPI'] not in index")
    end in
  ret (zip_with mkProvider npis (map astype_str zips)).

Definition demand_rows (frame : DataFrame) : result (list Demand) :=
  let* zips := getitem frame "zip_code" in
  ret (map mkDemand zips).

Definition _create_target_matrix : M Matrix :=
  do s <- get;
  match provider_data s, demand_data s with
  | Some provider_data, Some demand_data =>
      do providers <- lift (provider_rows provider_data);
      do demands <- lift (demand_rows demand_data);
      mret (create_target_matrix providers demands)
  | _, _ => mraise ValueError
  end.

Definition _fill_with_academic_data (target_matrix : Matrix) : M Matrix :=
  mret target_matrix.

(** [str(provider_row.iloc[0]['zip_code'])[:5]] for the first row of
    [self.provider_data] whose [NPI] equals [provider_npi]; [None] when
    [provider_row] is empty. *)
Definition provider_zip_of (provider_data : DataFrame) (provider_npi : Cell)
  : result (option string) :=
  let* npis := getitem provider_data "NPI" in
  match first_position (map (fun c => cell_eqb c provider_npi) npis) with
  | None => ret None
  | Some i =>
      let* zips := getitem provider_data "zip_code" in
      let* c := item zips i in
      ret (Some (slice_to 5 (astype_str (iloc_cell provider_data c))))
  end.

(** The loop of [_fill_with_osrm_data]; [n] is the position in the stream
    of draws.  The indices are positions of the matrix. *)
Fixpoint osrm_loop (providers : option DataFrame) (n : nat)
    (missing_indices : list nat) (target_matrix : Matrix) : result Matrix :=
  match missing_indices with
  | [] => ret target_matrix
  | idx :: rest =>
      match target_matrix !! idx, providers with
      | Some e, Some provider_data =>
          let* provider_zip := provider_zip_of provider_data (provider_npi e) in
          match provider_zip with
          | Some provider_zip =>
              let '(travel_time, n') :=
                Estimator._estimate_travel_time zip_db gauss n
                  provider_zip (astype_str (zip_code e)) in
              osrm_loop providers n' rest
                (<[idx := set_drive_minutes (CNum travel_time) e]> target_matrix)
          | None => osrm_loop providers n rest target_matrix
          end
      | _, _ => osrm_loop providers n rest target_matrix
      end
  end.

Definition missing_mask (m : Matrix) : list bool :=
  map (fun e => isna (drive_minutes e)) m.

Definition _fill_with_osrm_data (target_matrix : Matrix) : M Matrix :=
  do s <- get;
  let missing_indices := positions (missing_mask target_matrix) in
  if (length missing_indices =? 0)%nat then mret target_matrix
  else lift (osrm_loop (provider_data s) 0 missing_indices target_matrix).

Definition _interpolate_remaining_gaps (target_matrix : Matrix) : M Matrix :=
  let missing_count :=
    length (List.filter (fun b : bool => b) (missing_mask target_matrix)) in
  if (missing_count =? 0)%nat then mret target_matrix
  else
    do df <- lift (InterpolationMethods.nearest_neighbor_interpolation
                     scaler_fit_transform kneighbors
                     (to_frame target_matrix) 5);
    lift (of_frame df).

Definition _validate_matrix (matrix : Matrix) : M Matrix :=
  let coverage := matrix_coverage matrix in
  if cell_lt coverage (min_coverage cfg) then mraise ValueError
  else
    let negative_count :=
      length (List.filter (fun e => cell_lt (drive_minutes e) 0) matrix) in
    if (0 <? negative_count)%nat
    then mret (map (fun e => if cell_lt (drive_minutes e) 0
                             then set_drive_minutes (CNum 5) e else e) matrix)
    else mret matrix.

(** The CSV file is written first; of the exceptions of [to_parquet] only
    [ImportError] is caught; the summary is written last. *)
Definition _save_matrix (matrix : Matrix) : M unit :=
  do _ <- modify (fun s =>
            set_fs (<[csv_file := CsvFile (to_frame matrix)]> (fs s)) s);
  do _ <- (match to_parquet (to_frame matrix) with
           | inr _ =>
               modify (fun s =>
                 set_fs (<[output_file := ParquetFile (to_frame matrix)]> (fs s)) s)
           | inl ImportError => mret tt
           | inl e => mraise e
           end);
  modify (fun s =>
    set_fs (<[summary_file := JsonFile (summary_of matrix)]> (fs s)) s).

(** Phases 1 to 4 of [build_travel_matrix]: the matrix after the computed
    fill. *)
Definition estimate_phases : M Matrix :=
  do _ <- load_provider_data;
  do _ <- load_demand_data;
  do _ <- download_academic_dataset;
  do target_matrix <- _create_target_matrix;
  do target_matrix <- _fill_with_academic_data target_matrix;
  _fill_with_osrm_data target_matrix.

(** Phases 1 to 5: the matrix after all fill phases. *)
Definition fill_phases : M Matrix :=
  do target_matrix <- estimate_phases;
  _interpolate_remaining_gaps target_matrix.

Definition build_travel_matrix : M Matrix :=
  do target_matrix <- fill_phases;
  do target_matrix <- _validate_matrix target_matrix;
  do _ <- _save_matrix target_matrix;
  do _ <- modify (set_final_matrix target_matrix);
  mret target_matrix.

End Builder.

(** The dictionary returned by [get_matrix_summary]. *)
Record MatrixSummary : Type := mkMatrixSummary {
  summary_total_pairs : nat;
  summary_coverage : Cell;
  summary_mean_travel_time : Cell;
  summary_median_travel_time : Cell;
  summary_providers_count : nat;
  summary_demand_areas_count : nat
}.

Definition get_matrix_summary : M MatrixSummary :=
  do s <- get;
  match final_matrix s with
  | None => mraise ValueError
  | Some matrix =>
      let times := omap (fun e => as_num (drive_minutes e)) matrix in
      mret {| summary_total_pairs := length matrix;
              summary_coverage := matrix_coverage matrix;
              summary_mean_travel_time := mean times;
              summary_median_travel_time := median times;
              summary_providers_count := nunique (map provider_npi matrix);
              summary_demand_areas_count := nunique (map zip_code matrix) |}
  end.

(** An entry that holds a travel time between 5 and 600 minutes. *)
Definition in_range (e : Entry) : Prop :=
  exists t, drive_minutes e = CNum t /\ 5 <= t <= 600.

End TravelMatrixBuilder.

(** ** [InterpolationMethods.get_interpolation_quality_metrics] *)

Module QualityMetrics.

Import Py Pandas InterpolationMethods.

(** The dictionary [metrics]. *)
Record Metrics : Type := mkMetrics {
  original_coverage : Cell;
  final_coverage : Cell;
  coverage_improvement : Cell;
  mean_travel_time : Cell;
  median_travel_time : Cell;
  min_travel_time : Cell;
  max_travel_time : Cell;
  std_travel_time : Cell;
  total_pairs : nat;
  interpolated_pairs : nat
}.

(** [1 - series.isna().mean()]; NaN on an empty series. *)
Definition series_coverage (col : list Cell) : Cell :=
  match col with
  | [] => CNaN
  | _ => CNum (1 - INR (length (List.filter isna col)) / INR (length col))
  end.

(** Subtraction of floats that may be NaN. *)
Definition float_sub (a b : Cell) : Cell :=
  match as_num a, as_num b with
  | Some x, Some y => CNum (x - y)
  | _, _ => CNaN
  end.

(** [Series.std()]: sample standard deviation, NaN below two values. *)
Definition std (xs : list R) : Cell :=
  match xs with
  | [] | [_] => CNaN
  | _ =>
      let m := Rsum xs / INR (length xs) in
      CNum (sqrt (Rsum (map (fun x => (x - m)²) xs) / INR (length xs - 1)))
  end.

(** [(original.isna() & interpolated.notna()).sum()]: the two series are
    aligned on their index, and a position that only one of them has counts
    as false. *)
Definition count_interpolated (original interpolated : list Cell) : nat :=
  length (List.filter (fun p => (isna (fst p) && notna (snd p))%bool)
                      (zip original interpolated)).

(** [describe()] has the entries [mean], [50%], [min], [max] and [std] for
    a numeric series only. *)
Definition get_interpolation_quality_metrics
    (original_matrix interpolated_matrix : DataFrame) : result Metrics :=
  bind (getitem original_matrix travel_time_minutes) (fun original =>
  bind (getitem interpolated_matrix travel_time_minutes) (fun interpolated =>
  let original_coverage := series_coverage original in
  let final_coverage := series_coverage interpolated in
  if existsb (fun c => match c with CStr _ => true | _ => false end) interpolated
  then raise (KeyError "mean")
  else
    let values := omap as_num interpolated in
    ret {| original_coverage := original_coverage;
           final_coverage := final_coverage;
           coverage_improvement := float_sub final_coverage original_coverage;
           mean_travel_time := mean values;
           median_travel_time := TravelMatrixBuilder.median values;
           min_travel_time := TravelMatrixBuilder.minimum values;
           max_travel_time := TravelMatrixBuilder.maximum values;
           std_travel_time := std values;
           total_pairs := length interpolated;
           interpolated_pairs := count_interpolated original interpolated |})).

End QualityMetrics.

(** ** The distance of the specification *)

Module Spec.

(** Following the spec's words, section 4.2: the standard great-circle
    distance by the haversine formula on a sphere of radius [radius] miles,
    between points given as (latitude, longitude) in degrees ... *)
Definition haversine_term (p q : R * R) : R :=
  let '(lat1, lon1) := p in
  let '(lat2, lon2) := q in
  (sin ((Py.radians lat2 - Py.radians lat1) / 2))² +
  cos (Py.radians lat1) * cos (Py.radians lat2) *
  (sin ((Py.radians lon2 - Py.radians lon1) / 2))².

Definition great_circle_miles (radius : R) (p q : R * R) : R :=
  radius * (2 * asin (sqrt (haversine_term p q))).

(** ... multiplied by the road-network inflation factor 1.15. *)
Definition distanceMiles (radius : R) (p q : R * R) : R :=
  great_circle_miles radius p q * 1.15.

(** Following the spec's words, section 4.5: the value that the
    nearest-neighbor strategy predicts for the [i]-th unknown entry, the
    inverse-distance-weighted average of the travel times of the known rows
    that the index selected. *)
Definition nearest_neighbor_value (known_values : list Pandas.Cell)
    (distances : list (list R)) (indices : list (list nat)) (i : nat)
  : Py.result Pandas.Cell :=
  Py.bind (Pandas.item indices i) (fun indices_i =>
  Py.bind (Py.all_ok (Pandas.item known_values) indices_i) (fun neighbor_values =>
  Py.bind (Pandas.item distances i) (fun distances_i =>
  Pandas.np_average neighbor_values
    (map (fun d => 1 / (d + 1e-6)) distances_i)))).

End Spec.

(** ** Concrete inputs and environments used in the examples *)

Module Scenarios.

Import Py Pandas TravelMatrixBuilder.

(** Stand-ins for scikit-learn: a scaler that leaves the features as they
    are; an index that answers every query with the first [n] fitted rows at
    distance 1; a clustering that puts row [c] in cluster [c]; a regressor
    that predicts 42. *)
Definition identity_scaler (X : list (list R)) : result (list (list R)) :=
  ret X.

Definition first_rows_neighbors (n : nat) (X Q : list (list R))
  : result (list (list R) * list (list nat)) :=
  let k := Nat.min n (length X) in
  ret (map (fun _ => replicate k 1) Q, map (fun _ => seq 0 k) Q).

Definition one_cluster_per_row (n : nat) (X : list (list R))
  : result (list nat) :=
  ret (seq 0 n).

Definition constant_forest (X : list (list R)) (y : list R)
    (Q : list (list R)) : result (list R) :=
  ret (map (fun _ => 42) Q).

Definition no_float (s : string) : option R := None.

(** Two pairs, the first known. *)
Definition known_then_unknown : DataFrame :=
  [("origin_zip"%string, [CStr "90001"; CStr "90001"]);
   ("destination_zip"%string, [CStr "90002"; CStr "90003"]);
   ("travel_time_minutes"%string, [CNum 10; CNaN])].

(** Two pairs, the second known. *)
Definition unknown_then_known : DataFrame :=
  [("origin_zip"%string, [CStr "90001"; CStr "90001"]);
   ("destination_zip"%string, [CStr "90002"; CStr "90003"]);
   ("travel_time_minutes"%string, [CNaN; CNum 10])].


(** A roster in which one provider identifier has two practice ZIP codes. *)
Definition repeated_provider : list Provider :=
  [mkProvider (CInt 1234567890) "90001"; mkProvider (CInt 1234567890) "94102"].

Definition one_demand_area : list Demand := [mkDemand (CStr "90210")].

(** A matrix of the builder with one unset entry. *)
Definition one_gap : Matrix := [mkEntry (CStr "90210") (CInt 1234567890) CNaN].

(** A matrix with a negative travel time. *)
Definition negative_time : Matrix :=
  [mkEntry (CStr "90210") (CInt 1234567890) (CNum (-3))].

(** A builder whose roster is loaded, with the provider of [one_gap]. *)
Definition loaded_roster : DataFrame :=
  [("NPI"%string, [CInt 1234567890]); ("zip_code"%string, [CStr "90001"])].
Definition builder_with_roster : State :=
  mkState ∅ (Some loaded_roster) None None.

(** Files of a build: one provider in ZIP 10001, one demand area 20001. *)
Definition providers_csv : DataFrame :=
  [("provider_npi"%string, [CInt 1234567890]);
   ("zip_code"%string, [CInt 10001])].

Definition demand_csv : DataFrame :=
  [("zip_code"%string, [CInt 20001]);
   ("demand_score"%string, [CInt 1])].

(** The same roster with the provider identifier missing. *)
Definition providers_csv_no_npi : DataFrame :=
  [("provider_npi"%string, [CNaN]);
   ("zip_code"%string, [CInt 10001])].

Definition files (providers : DataFrame) : gmap string File :=
  <["data/processed/ca_providers_filtered.csv"%string := CsvFile providers]>
  (<["data/processed/ca_demand_filtered.csv"%string := CsvFile demand_csv]> ∅).

Definition fresh_builder (providers : DataFrame) : State :=
  mkState (files providers) None None None.

(** The default configuration. *)
Definition default_config : Config := mkConfig "data" "data/processed" 0.15 0.95.

Definition no_perturbation (n : nat) : R := 0.
Definition no_float_str (x : R) : string := "".

(** [to_parquet] with an engine that accepts every frame, and with an
    engine that rejects the frame ([pyarrow.lib.ArrowInvalid] is a
    [ValueError]). *)
Definition parquet_ok (df : DataFrame) : result unit := ret tt.
Definition parquet_invalid (df : DataFrame) : result unit :=
  raise ValueError.

(** Two pairs, the first with an origin ZIP code of four characters. *)
Definition four_digit_origin : DataFrame :=
  [("origin_zip"%string, [CStr "9021"; CStr "90001"]);
   ("destination_zip"%string, [CStr "90002"; CStr "90003"]);
   ("travel_time_minutes"%string, [CNum 10; CNaN])].

(** The matrix [known_then_unknown] after its gap was filled with 42. *)
Definition both_known : DataFrame :=
  [("origin_zip"%string, [CStr "90001"; CStr "90001"]);
   ("destination_zip"%string, [CStr "90002"; CStr "90003"]);
   ("travel_time_minutes"%string, [CNum 10; CNum 42])].

(** [float] on the strings of decimal digits. *)
Definition digits_float (s : string) : option R := IZR <$> Py.int s.

End Scenarios.

(** * Properties *)

Import Py Pandas.

(** ** Clamping and the speed-tier estimate *)

Lemma clamp_between (lo hi x : R) :
  lo <= hi -> lo <= Py.min hi (Py.max lo x) <= hi.
Proof.
  intros Hlh. unfold Py.min, Py.max.
  destruct (Rlt_dec lo x); destruct (Rlt_dec _ hi); lra.
Qed.

(** C5. For every distance [d >= 0] and every value [z] of the random draw,
    the minutes estimated from [d] (band formula, perturbation
    [normal(0, 5)], clamping) lie in the closed interval [5, 600]. *)
Theorem estimate_minutes_range (d z : R) :
  0 <= d -> 5 <= Estimator.estimate_minutes d z <= 600.
Proof.
  intros _. unfold Estimator.estimate_minutes. apply clamp_between. lra.
Qed.

Lemma estimate_minutes_range_witness :
  0 <= 25 /\ 5 <= Estimator.estimate_minutes 25 0 <= 600.
Proof.
  split; [lra|]. apply (estimate_minutes_range 25 0). lra.
Defined.

(** The whole of [_estimate_travel_time], fallback included, stays in the
    interval as well. *)
Lemma fallback_between (gauss : nat -> R) (n : nat) (origin_zip dest_zip : string) :
  5 <= fst (Estimator._fallback_travel_time_estimation gauss n origin_zip dest_zip)
    <= 600.
Proof.
  unfold Estimator._fallback_travel_time_estimation.
  repeat match goal with
  | |- context [if ?b then _ else _] => destruct b
  | |- context [match ?o with Some _ => _ | None => _ end] => destruct o
  end; cbn [fst]; try lra.
  match goal with
  | |- context [Py.min 120 (Py.max 10 ?x)] =>
      pose proof (clamp_between 10 120 x)
  end. lra.
Qed.

Lemma estimate_travel_time_between (zip_db : ZipCoordinatesDB.t)
    (gauss : nat -> R) (n : nat) (origin_zip dest_zip : string) :
  5 <= fst (Estimator._estimate_travel_time zip_db gauss n origin_zip dest_zip)
    <= 600.
Proof.
  unfold Estimator._estimate_travel_time.
  destruct (ZipCoordinatesDB.get_coordinates zip_db (zfill 5 origin_zip));
    [destruct (ZipCoordinatesDB.get_coordinates zip_db (zfill 5 dest_zip))|];
    try apply fallback_between.
  cbn [fst]. unfold Estimator.estimate_minutes. apply clamp_between. lra.
Qed.

(** ** The fallback heuristic *)

Lemma startswith_take (p s : string) :
  startswith p s = true ->
  take (String.length p) (chars s) = chars p.
Proof.
  unfold startswith, chars. revert s.
  induction p as [|c p IH]; intros s H.
  - reflexivity.
  - destruct s as [|c' s]; cbn [String.prefix] in H; [discriminate|].
    destruct (ascii_dec c c') as [->|]; [|discriminate].
    cbn. f_equal. now apply IH.
Qed.

(** A ZIP that starts with an in-region prefix has a numeric two-digit
    prefix between 90 and 96: the branches returning 150 and 45 are never
    taken. *)
Lemma in_region_prefix (s : string) :
  startswith_any Estimator.ca_prefixes s = true ->
  exists r, Py.int (slice_to 2 s) = Some r /\ (90 <= r <= 96)%Z.
Proof.
  unfold startswith_any. intros H.
  apply existsb_exists in H as (p & Hin & Hp).
  apply startswith_take in Hp. unfold slice_to.
  unfold Estimator.ca_prefixes in Hin. cbn [In] in Hin.
  repeat (destruct Hin as [<-|Hin];
          [cbn [String.length] in Hp; rewrite Hp; eexists;
           split; [vm_compute; reflexivity | lia]|]).
  destruct Hin.
Qed.

(** C8. For every pair of ZIP strings and every value of the random draw,
    [_fallback_travel_time_estimation] returns 180 when neither ZIP starts
    with an in-region prefix (90 to 96), a value in [120, 150] when exactly
    one does, and a value in [10, 120] when both do. *)
Theorem fallback_cases (gauss : nat -> R) (n : nat) (origin_zip dest_zip : string) :
  let minutes :=
    fst (Estimator._fallback_travel_time_estimation gauss n origin_zip dest_zip) in
  match startswith_any Estimator.ca_prefixes origin_zip,
        startswith_any Estimator.ca_prefixes dest_zip with
  | false, false => minutes = 180
  | true, true => 10 <= minutes <= 120
  | _, _ => 120 <= minutes <= 150
  end.
Proof.
  unfold Estimator._fallback_travel_time_estimation.
  destruct (startswith_any _ origin_zip) eqn:Ho;
    destruct (startswith_any _ dest_zip) eqn:Hd; cbn; try lra.
  apply in_region_prefix in Ho as (ro & -> & Hro).
  apply in_region_prefix in Hd as (rd & -> & Hrd).
  replace ((90 <=? ro)%Z && (ro <=? 96)%Z && (90 <=? rd)%Z && (rd <=? 96)%Z)
    with true by (symmetry; repeat (apply andb_true_intro; split); lia).
  cbn. apply clamp_between. lra.
Qed.

(** ** Distances *)

Lemma sin_half_sqr_sym (x y : R) : (sin ((x - y) / 2))² = (sin ((y - x) / 2))².
Proof.
  replace ((x - y) / 2) with (- ((y - x) / 2)) by lra.
  rewrite sin_neg. unfold Rsqr. ring.
Qed.

Lemma atan2_0_1 : atan2 0 1 = 0.
Proof.
  unfold atan2. destruct (Rlt_dec 0 1); [|lra].
  replace (0 / 1) with 0 by lra. apply atan_0.
Qed.

(** C9. [_calculate_distance] is symmetric in its two points and zero on
    identical points; so is [haversine] of the statewide generator. *)
Theorem calculate_distance_symmetric_zero (a b : R * R) :
  Estimator._calculate_distance a b = Estimator._calculate_distance b a /\
  Estimator._calculate_distance a a = 0 /\
  Statewide.haversine (fst a) (snd a) (fst b) (snd b) =
    Statewide.haversine (fst b) (snd b) (fst a) (snd a) /\
  Statewide.haversine (fst a) (snd a) (fst a) (snd a) = 0.
Proof.
  destruct a as [lat1 lon1], b as [lat2 lon2]. cbn [fst snd].
  unfold Estimator._calculate_distance, Statewide.haversine.
  repeat split.
  - rewrite (sin_half_sqr_sym (radians lat2)), (sin_half_sqr_sym (radians lon2)).
    rewrite (Rmult_comm (cos (radians lat1))). reflexivity.
  - replace (radians lat1 - radians lat1) with 0 by lra.
    replace (radians lon1 - radians lon1) with 0 by lra.
    replace (0 / 2) with 0 by lra. rewrite sin_0.
    replace (0² + cos (radians lat1) * cos (radians lat1) * 0²) with 0
      by (unfold Rsqr; ring).
    rewrite sqrt_0, asin_0. ring.
  - unfold radians.
    replace ((lat2 - lat1) * (PI / 180) / 2)
      with (- ((lat1 - lat2) * (PI / 180) / 2)) by lra.
    replace ((lon2 - lon1) * (PI / 180) / 2)
      with (- ((lon1 - lon2) * (PI / 180) / 2)) by lra.
    rewrite !sin_neg, <- !Rsqr_neg.
    rewrite (Rmult_comm (cos (lat1 * _))). reflexivity.
  - unfold radians.
    replace ((lat1 - lat1) * (PI / 180) / 2) with 0 by lra.
    replace ((lon1 - lon1) * (PI / 180) / 2) with 0 by lra.
    rewrite sin_0.
    replace (0² + cos (lat1 * (PI / 180)) * cos (lat1 * (PI / 180)) * 0²)
      with 0 by (unfold Rsqr; ring).
    rewrite Rminus_0_r, sqrt_0, sqrt_1, atan2_0_1. ring.
Qed.

Lemma atan2_sqrt_asin (a : R) :
  0 <= a <= 1 -> atan2 (sqrt a) (sqrt (1 - a)) = asin (sqrt a).
Proof.
  intros [H0 H1]. unfold atan2.
  destruct (Req_dec a 1) as [->|Hne].
  - replace (1 - 1) with 0 by lra. rewrite sqrt_0, sqrt_1, asin_1.
    destruct (Rlt_dec 0 0); [lra|]. destruct (Rlt_dec 0 1); lra.
  - assert (Hpos : 0 < sqrt (1 - a)) by (apply sqrt_lt_R0; lra).
    destruct (Rlt_dec 0 (sqrt (1 - a))); [|lra].
    assert (Hs : 0 <= sqrt a < 1).
    { split; [apply sqrt_pos|]. rewrite <- sqrt_1. apply sqrt_lt_1; lra. }
    rewrite asin_atan by lra.
    rewrite Rsqr_sqrt by lra. reflexivity.
Qed.

Lemma sin_half_sqr (x : R) : (sin (x / 2))² = (1 - cos x) / 2.
Proof.
  pose proof (cos_2a_sin (x / 2)) as H.
  replace (2 * (x / 2)) with x in H by lra. unfold Rsqr. lra.
Qed.

(** The haversine term of two points with latitudes between the poles is
    between 0 and 1. *)
Lemma haversine_term_range (phi1 phi2 dl : R) :
  - (PI / 2) <= phi1 <= PI / 2 -> - (PI / 2) <= phi2 <= PI / 2 ->
  0 <= (sin ((phi2 - phi1) / 2))² + cos phi1 * cos phi2 * (sin (dl / 2))² <= 1.
Proof.
  intros [H1 H1'] [H2 H2'].
  pose proof (cos_ge_0 phi1 H1 H1') as C1.
  pose proof (cos_ge_0 phi2 H2 H2') as C2.
  assert (Ht : 0 <= (sin (dl / 2))² <= 1).
  { split; [apply Rle_0_sqr|].
    pose proof (sin2_cos2 (dl / 2)). pose proof (Rle_0_sqr (cos (dl / 2))). lra. }
  assert (Hs : 0 <= (sin ((phi2 - phi1) / 2))²) by apply Rle_0_sqr.
  assert (Hp : 0 <= cos phi1 * cos phi2) by (apply Rmult_le_pos; assumption).
  split.
  - assert (0 <= cos phi1 * cos phi2 * (sin (dl / 2))²)
      by (apply Rmult_le_pos; lra). lra.
  - rewrite (sin_half_sqr (phi2 - phi1)), cos_minus.
    pose proof (COS_bound (phi1 + phi2)) as [_ Hb]. rewrite cos_plus in Hb.
    assert (cos phi1 * cos phi2 * (sin (dl / 2))² <= cos phi1 * cos phi2) by nra.
    lra.
Qed.

Lemma radians_range (lat : R) :
  -90 <= lat <= 90 -> - (PI / 2) <= radians lat <= PI / 2.
Proof. unfold radians. pose proof PI_RGT_0. intros. split; nra. Qed.

Lemma calculate_distance_antipodal :
  Estimator._calculate_distance (0, 0) (0, 180) = PI * 3959.
Proof.
  unfold Estimator._calculate_distance, radians.
  replace (0 * (PI / 180) - 0 * (PI / 180)) with 0 by lra.
  replace ((180 * (PI / 180) - 0 * (PI / 180)) / 2) with (PI / 2) by lra.
  replace (0 * (PI / 180)) with 0 by lra.
  replace (0 / 2) with 0 by lra.
  rewrite sin_0, cos_0, sin_PI2.
  replace (0² + 1 * 1 * 1²) with 1 by (unfold Rsqr; ring).
  rewrite sqrt_1, asin_1. lra.
Qed.

Lemma distanceMiles_antipodal (radius : R) :
  Spec.distanceMiles radius (0, 0) (0, 180) = radius * PI * 1.15.
Proof.
  unfold Spec.distanceMiles, Spec.great_circle_miles, Spec.haversine_term, radians.
  replace (0 * (PI / 180) - 0 * (PI / 180)) with 0 by lra.
  replace ((180 * (PI / 180) - 0 * (PI / 180)) / 2) with (PI / 2) by lra.
  replace (0 * (PI / 180)) with 0 by lra.
  replace (0 / 2) with 0 by lra.
  rewrite sin_0, cos_0, sin_PI2.
  replace (0² + 1 * 1 * 1²) with 1 by (unfold Rsqr; ring).
  rewrite sqrt_1, asin_1. lra.
Qed.

(** C2, as stated, fails for [_calculate_distance]: between the points
    (0, 0) and (0, 180) it returns [3959 * PI], which is not 1.15 times the
    great-circle distance for any radius between 3958.8 and 3959. *)
Lemma calculate_distance_not_inflated :
  ~ (forall p q : R * R, exists radius : R,
       3958.8 <= radius <= 3959 /\
       Estimator._calculate_distance p q = Spec.distanceMiles radius p q).
Proof.
  intros H. destruct (H (0, 0) (0, 180)) as (radius & Hr & Heq).
  rewrite calculate_distance_antipodal, distanceMiles_antipodal in Heq.
  pose proof PI_RGT_0 as Hpi.
  assert (radius * 1.15 = 3959) by nra. lra.
Qed.

(** C2, amended. For points with latitudes in [-90, 90], [haversine] of the
    statewide generator is the great-circle distance with radius 3958.8
    miles multiplied by 1.15; [_calculate_distance] of the builder is the
    great-circle distance with radius 3959 miles, without the factor. *)
Theorem distance_functions_characterised (lat1 lon1 lat2 lon2 : R) :
  -90 <= lat1 <= 90 -> -90 <= lat2 <= 90 ->
  Statewide.haversine lat1 lon1 lat2 lon2 =
    Spec.distanceMiles 3958.8 (lat1, lon1) (lat2, lon2) /\
  Estimator._calculate_distance (lat1, lon1) (lat2, lon2) =
    Spec.great_circle_miles 3959 (lat1, lon1) (lat2, lon2).
Proof.
  intros Hl1 Hl2. split.
  - unfold Statewide.haversine, Spec.distanceMiles, Spec.great_circle_miles,
      Spec.haversine_term.
    replace (radians (lat2 - lat1)) with (radians lat2 - radians lat1)
      by (unfold radians; lra).
    replace (radians (lon2 - lon1)) with (radians lon2 - radians lon1)
      by (unfold radians; lra).
    rewrite atan2_sqrt_asin; [reflexivity|].
    apply haversine_term_range; apply radians_range; assumption.
  - unfold Estimator._calculate_distance, Spec.great_circle_miles,
      Spec.haversine_term. ring.
Qed.

Lemma distance_functions_characterised_witness :
  -90 <= 34 <= 90 /\ -90 <= 37.77 <= 90 /\
  Statewide.haversine 34 (-118) 37.77 (-122.4) =
    Spec.distanceMiles 3958.8 (34, -118) (37.77, -122.4) /\
  Estimator._calculate_distance (34, -118) (37.77, -122.4) =
    Spec.great_circle_miles 3959 (34, -118) (37.77, -122.4).
Proof.
  split; [lra|]. split; [lra|].
  apply (distance_functions_characterised 34 (-118) 37.77 (-122.4)); lra.
Defined.

(** ** Frames, masks and the fill loop *)

Import InterpolationMethods TravelMatrixBuilder.

Lemma positions_from_spec (mask : list bool) (start j : nat) :
  j ∈ map fst (List.filter snd (zip (seq start (length mask)) mask)) <->
  (start <= j)%nat /\ mask !! (j - start)%nat = Some true.
Proof.
  revert start. induction mask as [|b mask IH]; intros start; cbn [length seq zip zip_with List.filter map].
  - rewrite elem_of_nil. split; [tauto|]. intros [_ H]. discriminate.
  - destruct b; cbn [snd map fst]; rewrite ?elem_of_cons, IH.
    + split.
      * intros [->|[Hle Hl]].
        -- split; [lia|]. now rewrite Nat.sub_diag.
        -- split; [lia|]. replace (j - start)%nat with (S (j - S start)) by lia. exact Hl.
      * intros [Hle Hl]. destruct (decide (j = start)) as [->|Hne]; [now left|right].
        split; [lia|]. replace (j - start)%nat with (S (j - S start)) in Hl by lia. exact Hl.
    + split.
      * intros [Hle Hl]. split; [lia|]. replace (j - start)%nat with (S (j - S start)) by lia. exact Hl.
      * intros [Hle Hl]. destruct (decide (j = start)) as [->|Hne].
        -- rewrite Nat.sub_diag in Hl. discriminate.
        -- split; [lia|]. replace (j - start)%nat with (S (j - S start)) in Hl by lia. exact Hl.
Qed.

Lemma positions_spec (mask : list bool) (j : nat) :
  j ∈ positions mask <-> mask !! j = Some true.
Proof.
  unfold positions. rewrite positions_from_spec, Nat.sub_0_r. split; [tauto|]. intros; split; [lia|assumption].
Qed.

Lemma positions_nil (mask : list bool) :
  positions mask = [] -> forall j, mask !! j <> Some true.
Proof.
  intros H j Hj. apply positions_spec in Hj. rewrite H in Hj. now apply elem_of_nil in Hj.
Qed.

Lemma fill_loop_frame value i missing times times' :
  fill_loop value i missing times = inr times' ->
  length times' = length times /\
  forall j, j ∉ missing -> times' !! j = times !! j.
Proof.
  revert i times. induction missing as [|idx rest IH]; intros i times H; cbn [fill_loop] in H.
  - injection H as <-. split; [reflexivity|]. reflexivity.
  - destruct (value i idx times) as [e|v]; cbn [bind] in H; [discriminate|].
    apply IH in H as [Hlen Hfr]. rewrite length_insert in Hlen. split; [exact Hlen|].
    intros j Hj. rewrite not_elem_of_cons in Hj. destruct Hj as [Hne Hj].
    rewrite (Hfr j Hj). apply list_lookup_insert_ne. congruence.
Qed.

Lemma row_set_col name col col' (df : DataFrame) j :
  lookup_col name df = Some col -> col' !! j = col !! j ->
  row (set_col name col' df) j = row df j.
Proof.
  induction df as [|[n c] df IH]; cbn [lookup_col set_col]; [discriminate|].
  destruct (String.eqb n name) eqn:E; intros Hl Hj.
  - injection Hl as ->. unfold row. cbn [map]. now rewrite Hj.
  - unfold row in *. cbn [map]. f_equal. now apply IH.
Qed.

Lemma getitem_inr df name col : getitem df name = inr col -> lookup_col name df = Some col.
Proof. unfold getitem. destruct (lookup_col name df); [|discriminate]. intros H. now injection H as ->. Qed.

Lemma positions_all_known (times : list Cell) :
  Forall (fun c => isna c = false) times -> positions (map isna times) = [].
Proof.
  intros Hall. destruct (positions (map isna times)) as [|j l] eqn:E; [reflexivity|].
  assert (Hj : j ∈ positions (map isna times)) by (rewrite E; left).
  apply positions_spec in Hj. rewrite list_lookup_fmap in Hj.
  destruct (times !! j) as [c|] eqn:Hc; [|discriminate].
  rewrite Forall_forall in Hall. apply list_elem_of_lookup_2 in Hc. apply Hall in Hc.
  cbn in Hj. congruence.
Qed.

Lemma known_not_missing (times : list Cell) j c :
  times !! j = Some c -> isna c = false -> j ∉ positions (map isna times).
Proof.
  intros Hc Hk Hj. apply positions_spec in Hj. rewrite list_lookup_fmap, Hc in Hj. cbn in Hj. congruence.
Qed.

Ltac bind_inv H :=
  repeat match type of H with
  | bind ?m _ = inr _ =>
      let E := fresh "E" in
      destruct m as [?|?] eqn:E; cbn [bind] in H; [discriminate H|]
  | (let '(_, _) := ?p in _) = inr _ => destruct p
  end.


Lemma all_ok_Forall2 {A B} (f : A -> result B) l bs :
  all_ok f l = inr bs -> Forall2 (fun a b => f a = inr b) l bs.
Proof.
  revert bs. induction l as [|a l IH]; intros bs H; cbn [all_ok] in H.
  - injection H as <-. constructor.
  - destruct (f a) as [e|b] eqn:Ea; cbn [bind] in H; [discriminate|].
    destruct (all_ok f l) as [e|bs'] eqn:El; cbn [bind] in H; [discriminate|].
    injection H as <-. constructor; [exact Ea|]. now apply IH.
Qed.


Lemma fill_loop_written value (P : Cell -> Prop) i missing times times' :
  fill_loop value i missing times = inr times' ->
  (forall i idx t v, value i idx t = inr v -> P v) ->
  forall j, j ∈ missing -> (j < length times)%nat ->
  exists v, times' !! j = Some v /\ P v.
Proof.
  intros H HP. revert i times H. induction missing as [|idx rest IH]; intros i times H j Hj Hlt.
  - now apply elem_of_nil in Hj.
  - cbn [fill_loop] in H. destruct (value i idx times) as [e|v] eqn:Ev; cbn [bind] in H; [discriminate|].
    destruct (decide (j ∈ rest)) as [Hin|Hnin].
    + eapply IH; [exact H|exact Hin|]. now rewrite length_insert.
    + apply elem_of_cons in Hj as [->|Hj]; [|contradiction].
      revert H. intros H.
      assert (Hfr : times' !! idx = <[idx:=v]> times !! idx).
      { clear IH. revert H. generalize (S i) (<[idx:=v]> times). revert Hnin.
        induction rest as [|r rest IHr]; intros Hnin i' t H; cbn [fill_loop] in H.
        - now injection H as <-.
        - destruct (value i' r t) as [e|w]; cbn [bind] in H; [discriminate|].
          apply not_elem_of_cons in Hnin as [Hne Hnin].
          rewrite (IHr Hnin _ _ H). apply list_lookup_insert_ne. congruence. }
      rewrite Hfr, list_lookup_insert_eq by exact Hlt. eauto.
Qed.

Lemma lookup_set_col name col df : lookup_col name (set_col name col df) = Some col.
Proof.
  induction df as [|[n c] df IH]; cbn [set_col lookup_col].
  - now rewrite String.eqb_refl.
  - destruct (String.eqb n name) eqn:E; cbn [lookup_col]; rewrite E; [reflexivity|exact IH].
Qed.

Lemma Req_bool_refl x : Req_bool x x = true.
Proof. unfold Req_bool. destruct (Req_dec_T x x); congruence. Qed.

Lemma np_average_all_nan (values : list Cell) (weights : list R) (v : Cell) :
  Forall (fun c => c = CNaN) values ->
  np_average values weights = inr v -> v = CNaN.
Proof.
  intros Hall. unfold np_average.
  destruct (negb _) eqn:Elen; [discriminate|].
  destruct (Req_bool (Rsum weights) 0) eqn:Esum; [discriminate|].
  destruct (existsb _ values); [discriminate|].
  destruct Hall as [|c values -> _].
  - apply negb_false_iff, Nat.eqb_eq in Elen. destruct weights; [|discriminate].
    cbn in Esum. now rewrite Req_bool_refl in Esum.
  - cbn. intros H. now injection H as <-.
Qed.



(** ** The interpolation strategies keep what is known *)

Section Frame.

Variable scaler_fit_transform : list (list R) -> result (list (list R)).
Variable kneighbors :
  nat -> list (list R) -> list (list R) ->
  result (list (list R) * list (list nat)).
Variable agglomerative_fit_predict : nat -> list (list R) -> result (list nat).
Variable random_forest_fit_predict :
  list (list R) -> list R -> list (list R) -> result (list R).
Variable py_float : string -> option R.

Let run := interpolate scaler_fit_transform kneighbors
             agglomerative_fit_predict random_forest_fit_predict py_float.

Lemma filled_frame (df : DataFrame) (times times' : list Cell)
    (value : nat -> nat -> list Cell -> result Cell) (j : nat) (c : Cell) :
  lookup_col travel_time_minutes df = Some times ->
  fill_loop value 0 (positions (map isna times)) times = inr times' ->
  times !! j = Some c -> isna c = false ->
  row (set_col travel_time_minutes times' df) j = row df j.
Proof.
  intros Hl Hf Hc Hk. apply row_set_col with (col := times); [exact Hl|].
  apply fill_loop_frame in Hf as [_ Hf]. apply Hf.
  eapply known_not_missing; eassumption.
Qed.

(** C6. For every matrix with a travel-time column and each of the four
    strategies: when the strategy returns a matrix, every row whose travel
    time was not null is the same in the result; and on a matrix with no
    null travel time the strategy returns the matrix as it is. *)
Theorem interpolate_known_unchanged (strategy : Strategy) (df : DataFrame)
    (times : list Cell) :
  getitem df travel_time_minutes = inr times ->
  (forall df' i c,
     run strategy df = inr df' -> times !! i = Some c -> isna c = false ->
     row df' i = row df i) /\
  (Forall (fun c => isna c = false) times -> run strategy df = inr df).
Proof.
  intros Hget. pose proof (getitem_inr _ _ _ Hget) as Hl. split.
  - intros df' i c Hrun Hc Hk. subst run.
    destruct strategy; cbn [interpolate] in Hrun;
      unfold nearest_neighbor_interpolation, spatial_weighting_interpolation,
             hierarchical_clustering_interpolation,
             machine_learning_interpolation in Hrun;
      rewrite Hget in Hrun; cbn [bind] in Hrun;
      (destruct (length (positions (map isna times)) =? 0)%nat;
       [injection Hrun as <-; reflexivity|]);
      bind_inv Hrun; injection Hrun as <-;
      eapply filled_frame; eauto.
  - intros Hall. subst run.
    destruct strategy; cbn [interpolate];
      unfold nearest_neighbor_interpolation, spatial_weighting_interpolation,
             hierarchical_clustering_interpolation,
             machine_learning_interpolation;
      rewrite Hget; cbn [bind]; rewrite positions_all_known by assumption;
      reflexivity.
Qed.

End Frame.

Lemma interpolate_known_unchanged_witness :
  getitem Scenarios.known_then_unknown travel_time_minutes =
    inr [CNum 10; CNaN] /\
  exists df',
    interpolate Scenarios.identity_scaler Scenarios.first_rows_neighbors
      Scenarios.one_cluster_per_row Scenarios.constant_forest
      Scenarios.no_float MachineLearning Scenarios.known_then_unknown =
    inr df' /\
    row df' 0 = row Scenarios.known_then_unknown 0.
Proof.
  split; [reflexivity|]. eexists. split; [reflexivity|].
  eapply (proj1 (interpolate_known_unchanged Scenarios.identity_scaler
            Scenarios.first_rows_neighbors Scenarios.one_cluster_per_row
            Scenarios.constant_forest Scenarios.no_float MachineLearning
            Scenarios.known_then_unknown [CNum 10; CNaN] eq_refl));
    reflexivity.
Defined.


(** ** Hierarchical clustering stays within the observed range *)




Lemma select_elem {A} (l : list A) (mask : list bool) x :
  x ∈ select l mask -> x ∈ l.
Proof.
  unfold select. revert mask. induction l as [|a l IH]; intros [|b mask]; cbn [zip zip_with List.filter map];
    try (intros H; now apply elem_of_nil in H).
  destruct b; cbn [snd map fst].
  - rewrite !elem_of_cons. intros [->|H]; [now left|right; eauto].
  - rewrite elem_of_cons. eauto.
Qed.





Section Clustering.

Variable scaler_fit_transform : list (list R) -> result (list (list R)).
Variable agglomerative_fit_predict : nat -> list (list R) -> result (list nat).


End Clustering.



(** ** Nearest-neighbor interpolation reads rows of the whole matrix *)

Lemma Req_bool_pos (x : R) : 0 < x -> Req_bool x 0 = false.
Proof. intros H. unfold Req_bool. destruct (Req_dec_T x 0); [lra|reflexivity]. Qed.

Lemma inverse_distance_weight_pos (d : R) : 0 <= d -> 0 < 1 / (d + 1e-6).
Proof. intros H. apply Rdiv_lt_0_compat; lra. Qed.

Section NearestNeighbor.

Variable scaler_fit_transform : list (list R) -> result (list (list R)).
Variable kneighbors :
  nat -> list (list R) -> list (list R) ->
  result (list (list R) * list (list nat)).

(** C7 fails on the code. On the matrix [unknown_then_known] (row 0 unset,
    row 1 known with 10 minutes) the index is fitted on the single known
    row, so the neighbor of row 0 is position 0 of the known rows, that is
    row 1; the code reads position 0 of the whole matrix instead, the unset
    row itself, and whenever it returns, row 0 is still NaN.  The index is
    only assumed to return positions of fitted rows. *)
Theorem nearest_neighbor_reads_unknown_row (df' : DataFrame) :
  (forall n X Q distances indices,
     kneighbors n X Q = inr (distances, indices) ->
     Forall (Forall (fun j => (j < length X)%nat)) indices) ->
  nearest_neighbor_interpolation scaler_fit_transform kneighbors
    Scenarios.unknown_then_known 5 = inr df' ->
  getitem df' travel_time_minutes = inr [CNaN; CNum 10].
Proof.
  intros Hcontract Hrun.
  unfold nearest_neighbor_interpolation in Hrun.
  change (getitem Scenarios.unknown_then_known travel_time_minutes) with
    (@inr exn _ [CNaN; CNum 10]) in Hrun.
  cbn [bind map isna notna negb] in Hrun.
  change (positions [true; false]) with [0%nat] in Hrun.
  cbn [length Nat.eqb] in Hrun.
  destruct (_create_zip_features _ _) as [?|features];
    cbn [bind] in Hrun; [discriminate|].
  destruct (bool_index features [false; true]) as [?|known_features] eqn:Ek;
    cbn [bind] in Hrun; [discriminate|].
  destruct (bool_index features [true; false]) as [?|missing_features];
    cbn [bind] in Hrun; [discriminate|].
  destruct (kneighbors _ _ _) as [?|[distances indices]] eqn:Enn;
    cbn [bind] in Hrun; [discriminate|].
  apply Hcontract in Enn.
  assert (Hlen : (length known_features <= 1)%nat).
  { unfold bool_index in Ek. destruct (_ <? _)%nat; [discriminate|].
    injection Ek as <-. unfold select.
    destruct features as [|a [|b [|c rest]]]; cbn; lia. }
  cbn [fill_loop] in Hrun.
  destruct (nn_value _ _ _ _ _) as [?|v] eqn:Ev;
    cbn [bind] in Hrun; [discriminate|].
  injection Hrun as <-.
  cbn [set_col Scenarios.unknown_then_known String.eqb].
  unfold nn_value in Ev.
  destruct (item indices 0) as [?|indices_0] eqn:Ei;
    cbn [bind] in Ev; [discriminate|].
  destruct (all_ok _ indices_0) as [?|neighbor_values] eqn:Evals;
    cbn [bind] in Ev; [discriminate|].
  destruct (item distances 0) as [?|distances_0];
    cbn [bind] in Ev; [discriminate|].
  apply np_average_all_nan in Ev.
  - subst v. reflexivity.
  - unfold item in Ei. destruct (indices !! 0%nat) as [r|] eqn:Er; [|discriminate].
    injection Ei as ->.
    rewrite Forall_forall in Enn. apply list_elem_of_lookup_2, Enn in Er.
    apply all_ok_Forall2 in Evals.
    apply Forall_forall. intros c Hc.
    apply list_elem_of_lookup in Hc as [k Hk].
    destruct (Forall2_lookup_r _ _ _ _ _ Evals Hk) as (j & Hj & Hitem).
    rewrite Forall_forall in Er. apply list_elem_of_lookup_2, Er in Hj.
    assert (j = 0%nat) as -> by lia.
    unfold item, ret in Hitem. cbn in Hitem. congruence.
Qed.

End NearestNeighbor.

Lemma first_rows_neighbors_in_range (n : nat) (X Q : list (list R))
    (distances : list (list R)) (indices : list (list nat)) :
  Scenarios.first_rows_neighbors n X Q = inr (distances, indices) ->
  Forall (Forall (fun j => (j < length X)%nat)) indices.
Proof.
  intros H. injection H as _ <-. apply Forall_fmap, Forall_forall.
  intros q _. cbn. apply Forall_forall. intros j Hj. apply elem_of_seq in Hj. lia.
Qed.

Lemma nearest_neighbor_reads_unknown_row_witness :
  (forall n X Q distances indices,
     Scenarios.first_rows_neighbors n X Q = inr (distances, indices) ->
     Forall (Forall (fun j => (j < length X)%nat)) indices) /\
  exists df',
    nearest_neighbor_interpolation Scenarios.identity_scaler
      Scenarios.first_rows_neighbors Scenarios.unknown_then_known 5 = inr df' /\
    getitem df' travel_time_minutes = inr [CNaN; CNum 10].
Proof.
  split; [exact first_rows_neighbors_in_range|].
  assert (Hrun : exists df',
    nearest_neighbor_interpolation Scenarios.identity_scaler
      Scenarios.first_rows_neighbors Scenarios.unknown_then_known 5 = inr df').
  { unfold nearest_neighbor_interpolation.
    cbv -[Req_bool Rsum INR IZR Rdiv Rminus Rplus Rmult].
    rewrite Req_bool_pos; [eexists; reflexivity|].
    cbn [Rsum foldr]. pose proof (inverse_distance_weight_pos 1). lra. }
  destruct Hrun as (df' & Hrun). exists df'. split; [exact Hrun|].
  exact (nearest_neighbor_reads_unknown_row Scenarios.identity_scaler
           Scenarios.first_rows_neighbors df' first_rows_neighbors_in_range Hrun).
Defined.

(** On the same input the value of the specification is the travel time of
    the known row. *)
Lemma nearest_neighbor_value_of_spec (d : R) :
  0 <= d ->
  Spec.nearest_neighbor_value [CNum 10] [[d]] [[0%nat]] 0 = inr (CNum 10).
Proof.
  intros Hd. unfold Spec.nearest_neighbor_value.
  cbn [item lookup list_lookup bind all_ok ret map].
  pose proof (inverse_distance_weight_pos d Hd) as Hw.
  unfold np_average. change (mapM as_num [CNum 10]) with (Some [10]).
  cbn [length Nat.eqb negb Rsum foldr].
  rewrite Req_bool_pos by lra.
  cbn [existsb orb zip_with Rsum foldr].
  unfold ret. do 2 f_equal. field. lra.
Qed.


(** ** The target matrix *)

Lemma drop_duplicates_from_fresh {A} (same : A -> A -> bool) (seen l : list A) :
  (forall x y, x ∈ l -> y ∈ seen -> same x y = false) ->
  (forall i j x y, l !! i = Some x -> l !! j = Some y -> i <> j -> same x y = false) ->
  drop_duplicates_from same seen l = l.
Proof.
  revert seen. induction l as [|x l IH]; intros seen Hseen Hpair; cbn [drop_duplicates_from]; [reflexivity|].
  assert (Hx : existsb (same x) seen = false).
  { apply not_true_is_false. intros Hex. apply existsb_exists in Hex as (y & Hy & Hs).
    apply list_elem_of_In in Hy. rewrite (Hseen x y) in Hs; [discriminate|left|exact Hy]. }
  rewrite Hx. f_equal. apply IH.
  - intros a b Ha Hb. apply elem_of_cons in Hb as [->|Hb].
    + apply list_elem_of_lookup in Ha as [k Hk].
      apply (Hpair (S k) 0%nat); [exact Hk|reflexivity|lia].
    + apply Hseen; [now right|exact Hb].
  - intros i j a b Ha Hb Hne. apply (Hpair (S i) (S j)); [exact Ha|exact Hb|lia].
Qed.

Lemma drop_duplicates_distinct {A} (same : A -> A -> bool) (l : list A) :
  (forall i j x y, l !! i = Some x -> l !! j = Some y -> i <> j -> same x y = false) ->
  drop_duplicates same l = l.
Proof.
  intros H. apply drop_duplicates_from_fresh; [|exact H].
  intros x y _ Hy. now apply elem_of_nil in Hy.
Qed.

Lemma lookup_flat_map_rows {A B} (f : A -> list B) (d : nat) (l : list A) (i : nat) (e : B) :
  (forall a, length (f a) = d) ->
  flat_map f l !! i = Some e ->
  exists a b x, l !! a = Some x /\ f x !! b = Some e /\ i = (a * d + b)%nat /\ (b < d)%nat.
Proof.
  intros Hd. revert i. induction l as [|x l IH]; intros i; cbn [flat_map]; [discriminate|].
  intros Hi. destruct (decide (i < d)%nat) as [Hlt|Hge].
  - rewrite lookup_app_l in Hi by (now rewrite Hd).
    exists 0%nat, i, x. split; [reflexivity|]. split; [exact Hi|]. split; [lia|exact Hlt].
  - rewrite lookup_app_r in Hi by (rewrite Hd; lia). rewrite Hd in Hi.
    apply IH in Hi as (a & b & y & Ha & Hb & Hi & Hlt).
    exists (S a), b, y. split; [exact Ha|]. split; [exact Hb|]. split; [lia|exact Hlt].
Qed.

Lemma length_flat_map_rows {A B} (f : A -> list B) (d : nat) (l : list A) :
  (forall a, length (f a) = d) -> length (flat_map f l) = (length l * d)%nat.
Proof.
  intros Hd. induction l as [|x l IH]; cbn [flat_map length]; [reflexivity|].
  rewrite length_app, Hd, IH. lia.
Qed.

(** With one roster row per provider identifier and one demand row per ZIP,
    the target matrix has |providers| x |demand areas| rows and no pair
    (demand ZIP, provider) twice. *)
Lemma create_target_matrix_one_row_per_pair
    (providers : list Provider) (demands : list Demand) :
  (forall i j p q, providers !! i = Some p -> providers !! j = Some q -> i <> j ->
     cell_same (NPI p) (NPI q) = false) ->
  (forall i j c d, demands !! i = Some c -> demands !! j = Some d -> i <> j ->
     cell_same (demand_zip_code c) (demand_zip_code d) = false) ->
  let target_matrix := create_target_matrix providers demands in
  length target_matrix = (length providers * length demands)%nat /\
  forall i j e1 e2,
    target_matrix !! i = Some e1 -> target_matrix !! j = Some e2 -> i <> j ->
    ~ (cell_same (zip_code e1) (zip_code e2) = true /\
       cell_same (provider_npi e1) (provider_npi e2) = true).
Proof.
  intros Hnpi Hzip. unfold create_target_matrix.
  rewrite (drop_duplicates_distinct same_provider_info).
  2:{ intros i j x y Hx Hy Hne. rewrite list_lookup_fmap in Hx, Hy.
      destruct (providers !! i) as [p|] eqn:Hp; [|discriminate].
      destruct (providers !! j) as [q|] eqn:Hq; [|discriminate].
      injection Hx as <-. injection Hy as <-. unfold same_provider_info. cbn [fst snd].
      now rewrite (Hnpi i j p q). }
  rewrite (drop_duplicates_distinct cell_same).
  2:{ intros i j x y Hx Hy Hne. rewrite list_lookup_fmap in Hx, Hy.
      destruct (demands !! i) as [c|] eqn:Hc; [|discriminate].
      destruct (demands !! j) as [d|] eqn:Hd; [|discriminate].
      injection Hx as <-. injection Hy as <-. now apply (Hzip i j). }
  set (zips := map demand_zip_code demands).
  set (f := fun provider : Cell * string =>
              map (fun demand_zip => mkEntry demand_zip (fst provider) CNaN) zips).
  assert (Hlen : forall a, length (f a) = length zips) by (intros a; unfold f; now rewrite length_map).
  cbn zeta. split.
  - rewrite (length_flat_map_rows f (length zips)) by exact Hlen.
    unfold zips. now rewrite !length_map.
  - intros i j e1 e2 H1 H2 Hne [Hz Hs].
    apply (lookup_flat_map_rows f (length zips)) in H1 as (a1 & b1 & x1 & Ha1 & Hb1 & -> & _); [|exact Hlen].
    apply (lookup_flat_map_rows f (length zips)) in H2 as (a2 & b2 & x2 & Ha2 & Hb2 & -> & _); [|exact Hlen].
    unfold f in Hb1, Hb2. rewrite list_lookup_fmap in Hb1, Hb2.
    destruct (zips !! b1) as [z1|] eqn:Hz1; [|discriminate].
    destruct (zips !! b2) as [z2|] eqn:Hz2; [|discriminate].
    injection Hb1 as <-. injection Hb2 as <-. cbn in Hz, Hs.
    assert (b1 = b2) as ->.
    { destruct (decide (b1 = b2)) as [Heq|Hb]; [exact Heq|exfalso].
      unfold zips in Hz1, Hz2. rewrite list_lookup_fmap in Hz1, Hz2.
      destruct (demands !! b1) as [c|] eqn:Hc; [|discriminate].
      destruct (demands !! b2) as [d|] eqn:Hd; [|discriminate].
      injection Hz1 as <-. injection Hz2 as <-.
      rewrite (Hzip b1 b2 c d) in Hz; [discriminate|assumption..]. }
    assert (a1 <> a2) as Ha by (intros ->; apply Hne; reflexivity).
    rewrite list_lookup_fmap in Ha1, Ha2.
    destruct (providers !! a1) as [p|] eqn:Hp; [|discriminate].
    destruct (providers !! a2) as [q|] eqn:Hq; [|discriminate].
    injection Ha1 as <-. injection Ha2 as <-. cbn in Hs.
    rewrite (Hnpi a1 a2 p q) in Hs; [discriminate|assumption..].
Qed.

(** C1 fails on the code. A provider identifier listed with two ZIP codes
    survives [drop_duplicates] twice, since the rows are compared on the pair
    (NPI, ZIP), while the matrix keeps the NPI only: the pair
    ("90210", 1234567890) gets two rows where the claim promises one. *)
Theorem create_target_matrix_repeated_provider :
  create_target_matrix Scenarios.repeated_provider Scenarios.one_demand_area =
  [mkEntry (CStr "90210") (CInt 1234567890) CNaN;
   mkEntry (CStr "90210") (CInt 1234567890) CNaN].
Proof. vm_compute. reflexivity. Qed.

(** ** Phase 5 of the build *)

Section RemainingGaps.

Variable scaler_fit_transform : list (list R) -> result (list (list R)).
Variable kneighbors :
  nat -> list (list R) -> list (list R) ->
  result (list (list R) * list (list nat)).

(** C4 fails on the code. For every matrix of the builder with an unset
    entry, [_interpolate_remaining_gaps] raises [KeyError]: the engine reads
    the column [travel_time_minutes], and the builder's matrix has the
    columns [zip_code], [provider_npi] and [drive_minutes]. *)
Theorem interpolate_remaining_gaps_key_error (target_matrix : Matrix) (s : State) :
  Exists (fun e => drive_minutes e = CNaN) target_matrix ->
  _interpolate_remaining_gaps scaler_fit_transform kneighbors target_matrix s =
  (inl (KeyError "travel_time_minutes"), s).
Proof.
  intros Hex. unfold _interpolate_remaining_gaps.
  assert (Hcount : (length (List.filter (fun b : bool => b)
                              (missing_mask target_matrix)) =? 0)%nat = false).
  { apply Nat.eqb_neq. induction Hex as [e m He|e m _ IH]; cbn.
    - rewrite He. cbn. lia.
    - destruct (isna (drive_minutes e)); cbn; [lia|exact IH]. }
  rewrite Hcount. reflexivity.
Qed.

End RemainingGaps.

Lemma interpolate_remaining_gaps_key_error_witness :
  Exists (fun e => drive_minutes e = CNaN) Scenarios.one_gap /\
  _interpolate_remaining_gaps Scenarios.identity_scaler
    Scenarios.first_rows_neighbors Scenarios.one_gap
    (Scenarios.fresh_builder Scenarios.providers_csv) =
  (inl (KeyError "travel_time_minutes"),
   Scenarios.fresh_builder Scenarios.providers_csv).
Proof.
  assert (H : Exists (fun e => drive_minutes e = CNaN) Scenarios.one_gap)
    by (left; reflexivity).
  split; [exact H|].
  exact (interpolate_remaining_gaps_key_error Scenarios.identity_scaler
           Scenarios.first_rows_neighbors Scenarios.one_gap
           (Scenarios.fresh_builder Scenarios.providers_csv) H).
Defined.

(** A whole build reaches that state: with a roster row whose provider
    identifier is missing, phase 4 finds no provider for the entry, leaves
    it unset, and the build ends in the [KeyError] of phase 5, before
    validation. *)
Example build_with_missing_npi_key_error :
  fst (build_travel_matrix ∅ Scenarios.no_perturbation Scenarios.no_float_str
         Scenarios.parquet_ok Scenarios.identity_scaler
         Scenarios.first_rows_neighbors Scenarios.default_config
         (Scenarios.fresh_builder Scenarios.providers_csv_no_npi)) =
  inl (KeyError "travel_time_minutes").
Proof. vm_compute. reflexivity. Qed.

(** ** A build with unresolved pairs *)

Lemma mbind_inr {A B} (m : M A) (k : A -> M B) (s s' : State) (b : B) :
  TravelMatrixBuilder.mbind m k s = (inr b, s') ->
  exists a s1, m s = (inr a, s1) /\ k a s1 = (inr b, s').
Proof.
  unfold TravelMatrixBuilder.mbind. destruct (m s) as [[e|a] s1]; [discriminate|]. eauto.
Qed.

Section Build.

Variable zip_db : ZipCoordinatesDB.t.
Variable gauss : nat -> R.
Variable float_str : R -> string.
Variable to_parquet : DataFrame -> result unit.
Variable scaler_fit_transform : list (list R) -> result (list (list R)).
Variable kneighbors :
  nat -> list (list R) -> list (list R) ->
  result (list (list R) * list (list nat)).
Variable cfg : Config.

Let estimates := estimate_phases zip_db gauss float_str cfg.
Let phases := fill_phases zip_db gauss float_str scaler_fit_transform
                kneighbors cfg.
Let build := build_travel_matrix zip_db gauss float_str to_parquet
               scaler_fit_transform kneighbors cfg.

Lemma reads_only_bind {A B} (m : M A) (k : A -> M B) :
  reads_only m -> (forall a, reads_only (k a)) -> reads_only (mbind m k).
Proof.
  intros Hm Hk s r s'. unfold mbind. destruct (m s) as [[e|a] s1] eqn:E.
  - intros H. injection H as <- <-. eapply Hm; eassumption.
  - intros H. apply Hk in H as [-> ->]. eapply Hm; eassumption.
Qed.

Lemma reads_only_mret {A} (a : A) : reads_only (mret a).
Proof. intros s r s' H. now injection H as <- <-. Qed.

Lemma reads_only_mraise {A} (e : exn) : reads_only (@mraise A e).
Proof. intros s r s' H. now injection H as <- <-. Qed.

Lemma reads_only_lift {A} (x : result A) : reads_only (lift x).
Proof. intros s r s' H. now injection H as <- <-. Qed.

Lemma reads_only_get : reads_only get.
Proof. intros s r s' H. now injection H as <- <-. Qed.

Lemma reads_only_modify (f : State -> State) :
  (forall s, fs (f s) = fs s /\ final_matrix (f s) = final_matrix s) ->
  reads_only (modify f).
Proof. intros Hf s r s' H. injection H as <- <-. apply Hf. Qed.

Ltac reads_only_steps :=
  repeat first
    [ apply reads_only_mret | apply reads_only_mraise | apply reads_only_lift
    | apply reads_only_get
    | (apply reads_only_modify; intros ?; split; reflexivity)
    | match goal with
      | |- reads_only (mbind _ _) => apply reads_only_bind; [|intros ?]
      | |- reads_only (match ?x with _ => _ end) => destruct x
      end ].

Lemma estimate_phases_reads_only : reads_only estimates.
Proof.
  subst estimates.
  unfold estimate_phases, load_provider_data, load_demand_data,
    download_academic_dataset, _create_placeholder_academic_matrix,
    _create_target_matrix, _fill_with_academic_data, _fill_with_osrm_data.
  reads_only_steps.
Qed.

Lemma interpolate_remaining_gaps_reads_only (target_matrix : Matrix) :
  reads_only (_interpolate_remaining_gaps scaler_fit_transform kneighbors
                target_matrix).
Proof. unfold _interpolate_remaining_gaps. reads_only_steps. Qed.

Lemma fill_phases_reads_only : reads_only phases.
Proof.
  subst phases. unfold fill_phases. apply reads_only_bind.
  - apply estimate_phases_reads_only.
  - apply interpolate_remaining_gaps_reads_only.
Qed.

Lemma validate_reads_only (matrix : Matrix) :
  reads_only (_validate_matrix cfg matrix).
Proof. unfold _validate_matrix. reads_only_steps. Qed.

(** A coverage below 1 means that an entry is unset. *)
Lemma coverage_below_one (matrix : Matrix) (c : R) :
  matrix_coverage matrix = CNum c -> c < 1 ->
  Exists (fun e => drive_minutes e = CNaN) matrix.
Proof.
  intros Hc Hlt. destruct matrix as [|e0 m0]; [discriminate|].
  remember (e0 :: m0) as m eqn:Hm.
  assert (Hc' : c = 1 - INR (length (List.filter (fun e => isna (drive_minutes e)) m))
                        / INR (length m)).
  { unfold matrix_coverage in Hc. rewrite Hm in Hc. rewrite Hm. congruence. }
  destruct (List.filter (fun e => isna (drive_minutes e)) m) as [|e l] eqn:Ef.
  - exfalso. change (INR (length (@nil Entry))) with 0 in Hc'.
    unfold Rdiv in Hc'. rewrite Rmult_0_l in Hc'. lra.
  - assert (He : In e (List.filter (fun e => isna (drive_minutes e)) m))
      by (rewrite Ef; left; reflexivity).
    apply filter_In in He as [Hin Hna]. apply Exists_exists. exists e.
    split; [now apply list_elem_of_In|]. now destruct (drive_minutes e).
Qed.

(** Phases 1 to 4 change the builder by the two loads only. *)
Lemma estimate_phases_state (s s1 : State) (target_matrix : Matrix) :
  estimates s = (inr target_matrix, s1) ->
  exists providers demands,
    s1 = set_demand_data demands (set_provider_data providers s).
Proof.
  subst estimates. unfold estimate_phases. intros H.
  apply mbind_inr in H as (providers & sa & Hp & H).
  apply mbind_inr in H as (demands & sb & Hd & H).
  apply mbind_inr in H as ([] & sc & Hdl & H).
  apply mbind_inr in H as (tm & sd & Hc & H).
  apply mbind_inr in H as (tm' & se & Ha & H). injection Ha as <- <-.
  exists providers, demands.
  assert (sa = set_provider_data providers s) as ->.
  { revert Hp. unfold load_provider_data, mbind, get, lift, modify, mret, mraise.
    cbn [ret]. destruct (fs s !! _); [|discriminate].
    destruct (read_csv _); [discriminate|]. destruct (negb _); [discriminate|].
    destruct (clean_zip_codes _ _); [discriminate|]. intros Hp. now injection Hp as <- <-. }
  assert (sb = set_demand_data demands (set_provider_data providers s)) as ->.
  { revert Hd. unfold load_demand_data, mbind, get, lift, modify, mret, mraise.
    cbn [ret]. destruct (fs _ !! _); [|discriminate].
    destruct (read_csv _); [discriminate|]. destruct (negb _); [discriminate|].
    destruct (clean_zip_codes _ _); [discriminate|]. intros Hd. now injection Hd as <- <-. }
  assert (sc = set_demand_data demands (set_provider_data providers s)) as ->.
  { revert Hdl. unfold download_academic_dataset, _create_placeholder_academic_matrix,
      mbind, get, lift, mret, mraise.
    cbn [ret fs set_demand_data set_provider_data].
    destruct (fs s !! academic_file cfg) as [f|];
      cbv beta iota delta [provider_data demand_data set_demand_data set_provider_data].
    - destruct (read_csv f); intros Hdl; [inversion Hdl|]. now injection Hdl as <-.
    - destruct (getitem providers "zip_code"); cbn [bind];
        [intros Hdl; inversion Hdl|].
      destruct (getitem demands "zip_code"); cbn [bind]; intros Hdl;
        [inversion Hdl|]. now injection Hdl as <-. }
  assert (sd = set_demand_data demands (set_provider_data providers s)) as ->.
  { revert Hc. unfold _create_target_matrix, mbind, get, lift, mret, mraise.
    cbn [ret provider_data demand_data set_demand_data set_provider_data].
    destruct (provider_rows _ _); [discriminate|].
    destruct (demand_rows _); [discriminate|]. intros Hc. now injection Hc as _ <-. }
  revert H. unfold _fill_with_osrm_data, mbind, get, lift, mret. cbn [ret].
  destruct (_ =? _)%nat; [intros H; now injection H as _ <-|].
  destruct (osrm_loop _ _ _ _ _ _ _); [discriminate|]. intros H. now injection H as _ <-.
Qed.

(** C3 fails on the code. Whenever an entry is still unset after the
    computed fill of phase 4, that is, whenever the coverage is below 1,
    [build_travel_matrix] does not reach the coverage check: phase 5 raises
    [KeyError] (see C4), whatever the configured minimum.  The files on disk
    and [self.final_matrix] are those from before the build;
    [self.provider_data] and [self.demand_data] are not: they hold the
    frames that phase 1 loaded. *)
Theorem build_with_unresolved_pairs_key_error
    (s s1 : State) (target_matrix : Matrix) :
  estimates s = (inr target_matrix, s1) ->
  Exists (fun e => drive_minutes e = CNaN) target_matrix ->
  build s = (inl (KeyError "travel_time_minutes"), s1) /\
  fs s1 = fs s /\ final_matrix s1 = final_matrix s /\
  exists providers demands,
    provider_data s1 = Some providers /\ demand_data s1 = Some demands.
Proof.
  intros Hest Hex. split.
  2:{ apply estimate_phases_state in Hest as (providers & demands & ->).
      split; [reflexivity|]. split; [reflexivity|]. exists providers, demands. auto. }
  subst build estimates. unfold build_travel_matrix, fill_phases.
  unfold mbind at 1. unfold mbind at 1. rewrite Hest.
  assert (Hcount : (length (List.filter (fun b : bool => b)
                              (missing_mask target_matrix)) =? 0)%nat = false).
  { apply Nat.eqb_neq. clear Hest. induction Hex as [e m He|e m _ IH]; cbn.
    - rewrite He. cbn. lia.
    - destruct (isna (drive_minutes e)); cbn; [lia|exact IH]. }
  unfold _interpolate_remaining_gaps. rewrite Hcount. reflexivity.
Qed.

(** A build that raises has written nothing, unless the exception is that
    of [to_parquet]: then the CSV file of the matrix, and no other file, was
    written before. *)
Lemma build_error_writes_nothing (s s' : State) (e : exn) :
  build s = (inl e, s') ->
  final_matrix s' = final_matrix s /\
  (fs s' = fs s \/
   exists matrix,
     to_parquet (to_frame matrix) = inl e /\ e <> ImportError /\
     fs s' = <[csv_file cfg := CsvFile (to_frame matrix)]> (fs s)).
Proof.
  subst build. unfold build_travel_matrix, mbind at 1.
  fold phases. destruct (phases s) as [[e1|m] s1] eqn:Hph.
  - intros H. injection H as <- <-.
    apply fill_phases_reads_only in Hph as [Hfs Hfm]. auto.
  - apply fill_phases_reads_only in Hph as [Hfs Hfm]. unfold mbind at 1.
    destruct (_validate_matrix cfg m s1) as [[e2|v] s2] eqn:Hval.
    + intros H. injection H as <- <-.
      apply validate_reads_only in Hval as [Hfs2 Hfm2]. split; [congruence|left; congruence].
    + apply validate_reads_only in Hval as [Hfs2 Hfm2].
      unfold _save_matrix, mbind, modify, mret, mraise.
      destruct (to_parquet (to_frame v)) as [ep|[]] eqn:Hp; [|intros H; discriminate H].
      destruct ep; try (intros H; discriminate H);
        intros H; injection H as <- <-; cbn;
        (split; [congruence|]); right; exists v;
        (split; [exact Hp|]); (split; [discriminate|]); congruence.
Qed.

End Build.

Lemma build_with_unresolved_pairs_key_error_witness :
  exists s1,
    estimate_phases ∅ Scenarios.no_perturbation Scenarios.no_float_str
      Scenarios.default_config
      (Scenarios.fresh_builder Scenarios.providers_csv_no_npi) =
    (inr [mkEntry (CStr "20001") CNaN CNaN], s1) /\
    Exists (fun e => drive_minutes e = CNaN) [mkEntry (CStr "20001") CNaN CNaN] /\
    build_travel_matrix ∅ Scenarios.no_perturbation Scenarios.no_float_str
      Scenarios.parquet_ok Scenarios.identity_scaler
      Scenarios.first_rows_neighbors Scenarios.default_config
      (Scenarios.fresh_builder Scenarios.providers_csv_no_npi) =
    (inl (KeyError "travel_time_minutes"), s1) /\
    fs s1 = fs (Scenarios.fresh_builder Scenarios.providers_csv_no_npi) /\
    final_matrix s1 =
      final_matrix (Scenarios.fresh_builder Scenarios.providers_csv_no_npi) /\
    exists providers demands,
      provider_data s1 = Some providers /\ demand_data s1 = Some demands.
Proof.
  assert (Hest : exists s1,
    estimate_phases ∅ Scenarios.no_perturbation Scenarios.no_float_str
      Scenarios.default_config
      (Scenarios.fresh_builder Scenarios.providers_csv_no_npi) =
    (inr [mkEntry (CStr "20001") CNaN CNaN], s1)).
  { eexists. vm_compute. reflexivity. }
  destruct Hest as [s1 Hest].
  assert (Hex : Exists (fun e => drive_minutes e = CNaN)
                  [mkEntry (CStr "20001") CNaN CNaN]) by (left; reflexivity).
  exists s1. split; [exact Hest|]. split; [exact Hex|].
  exact (build_with_unresolved_pairs_key_error ∅ Scenarios.no_perturbation
           Scenarios.no_float_str Scenarios.parquet_ok Scenarios.identity_scaler
           Scenarios.first_rows_neighbors Scenarios.default_config
           (Scenarios.fresh_builder Scenarios.providers_csv_no_npi) s1 _ Hest Hex).
Defined.


(** * Further properties of the code *)

(** ** Estimation: direction, distance bands *)

Lemma calculate_distance_comm (a b : R * R) :
  Estimator._calculate_distance a b = Estimator._calculate_distance b a.
Proof.
  destruct a as [lat1 lon1], b as [lat2 lon2].
  unfold Estimator._calculate_distance.
  rewrite (sin_half_sqr_sym (radians lat2)), (sin_half_sqr_sym (radians lon2)).
  rewrite (Rmult_comm (cos (radians lat1))). reflexivity.
Qed.

(** X1. The fallback estimate does not depend on the direction of travel: with
    the same draw, origin and destination can be exchanged. *)
Theorem fallback_symmetric (gauss : nat -> R) (n : nat) (origin_zip dest_zip : string) :
  Estimator._fallback_travel_time_estimation gauss n origin_zip dest_zip =
  Estimator._fallback_travel_time_estimation gauss n dest_zip origin_zip.
Proof.
  unfold Estimator._fallback_travel_time_estimation.
  destruct (startswith_any _ origin_zip), (startswith_any _ dest_zip);
    cbn [negb andb Bool.eqb]; try reflexivity.
  destruct (Py.int (slice_to 2 origin_zip)) as [o|],
           (Py.int (slice_to 2 dest_zip)) as [d|]; try reflexivity.
  replace (Z.abs (d - o)) with (Z.abs (o - d)) by lia.
  destruct (90 <=? o)%Z, (o <=? 96)%Z, (90 <=? d)%Z, (d <=? 96)%Z; reflexivity.
Qed.

(** X2. [_estimate_travel_time] does not depend on the direction of travel
    either: with the same coordinate table and the same draw, the estimate
    from A to B is the estimate from B to A. *)
Theorem estimate_travel_time_symmetric (zip_db : ZipCoordinatesDB.t)
    (gauss : nat -> R) (n : nat) (origin_zip dest_zip : string) :
  Estimator._estimate_travel_time zip_db gauss n origin_zip dest_zip =
  Estimator._estimate_travel_time zip_db gauss n dest_zip origin_zip.
Proof.
  unfold Estimator._estimate_travel_time.
  destruct (ZipCoordinatesDB.get_coordinates zip_db (zfill 5 origin_zip)) as [o|],
           (ZipCoordinatesDB.get_coordinates zip_db (zfill 5 dest_zip)) as [d|];
    try apply fallback_symmetric.
  now rewrite calculate_distance_comm.
Qed.

Lemma clamp_monotone (lo hi x y : R) :
  x <= y -> Py.min hi (Py.max lo x) <= Py.min hi (Py.max lo y).
Proof.
  intros Hxy. unfold Py.min, Py.max.
  destruct (Rlt_dec lo x), (Rlt_dec lo y);
    repeat match goal with |- context [Rlt_dec ?a ?b] => destruct (Rlt_dec a b) end;
    lra.
Qed.

(** X3. Within one distance band the minutes grow with the distance, before and
    after perturbation and clamping. *)
Theorem estimate_monotone_within_band (d1 d2 z : R) :
  d1 <= d2 ->
  (d2 <= 50 \/ (50 < d1 /\ d2 <= 150) \/ (150 < d1 /\ d2 <= 300) \/ 300 < d1) ->
  Estimator.speed_tier_minutes d1 <= Estimator.speed_tier_minutes d2 /\
  Estimator.estimate_minutes d1 z <= Estimator.estimate_minutes d2 z.
Proof.
  intros Hle Hband.
  assert (Ht : Estimator.speed_tier_minutes d1 <= Estimator.speed_tier_minutes d2).
  { unfold Estimator.speed_tier_minutes.
    destruct Hband as [H|[H|[H|H]]];
      repeat match goal with |- context [Rle_dec ?a ?b] => destruct (Rle_dec a b) end;
      lra. }
  split; [exact Ht|].
  unfold Estimator.estimate_minutes. apply clamp_monotone. lra.
Qed.

Lemma estimate_monotone_within_band_witness :
  60 <= 140 /\
  (140 <= 50 \/ (50 < 60 /\ 140 <= 150) \/ (150 < 60 /\ 140 <= 300) \/ 300 < 60) /\
  Estimator.speed_tier_minutes 60 <= Estimator.speed_tier_minutes 140 /\
  Estimator.estimate_minutes 60 0 <= Estimator.estimate_minutes 140 0.
Proof.
  assert (H1 : 60 <= 140) by lra.
  assert (H2 : 140 <= 50 \/ (50 < 60 /\ 140 <= 150) \/ (150 < 60 /\ 140 <= 300) \/ 300 < 60)
    by (right; left; lra).
  split; [exact H1|]. split; [exact H2|].
  exact (estimate_monotone_within_band 60 140 0 H1 H2).
Defined.

(** X4. Across the band limits the formula is not monotone: every distance
    just above 50 miles (up to 78) is estimated shorter than 50 miles, and
    every distance just above 150 miles (up to 177) shorter than 150
    miles. *)
Theorem speed_tier_drops_after_band_limit (d : R) :
  (50 < d <= 78 ->
   Estimator.speed_tier_minutes d < Estimator.speed_tier_minutes 50) /\
  (150 < d <= 177 ->
   Estimator.speed_tier_minutes d < Estimator.speed_tier_minutes 150).
Proof.
  unfold Estimator.speed_tier_minutes. split; intros H;
    repeat match goal with |- context [Rle_dec ?a ?b] => destruct (Rle_dec a b) end;
    lra.
Qed.

Lemma speed_tier_drops_after_band_limit_witness :
  50 < 60 <= 78 /\ 150 < 160 <= 177 /\
  Estimator.speed_tier_minutes 60 < Estimator.speed_tier_minutes 50 /\
  Estimator.speed_tier_minutes 160 < Estimator.speed_tier_minutes 150.
Proof.
  assert (H1 : 50 < 60 <= 78) by lra.
  assert (H2 : 150 < 160 <= 177) by lra.
  split; [exact H1|]. split; [exact H2|]. split.
  - exact (proj1 (speed_tier_drops_after_band_limit 60) H1).
  - exact (proj2 (speed_tier_drops_after_band_limit 160) H2).
Defined.


(** ** [ZipCoordinatesDB]: padding and batch lookup *)

Lemma length_of_chars (l : list ascii) : String.length (of_chars l) = length l.
Proof. induction l as [|c l IH]; cbn; [reflexivity|]. now rewrite <- IH. Qed.

Lemma length_string_app (a b : string) :
  String.length (a +:+ b) = (String.length a + String.length b)%nat.
Proof. induction a as [|c a IH]; cbn; [reflexivity|]. now rewrite <- IH. Qed.

Lemma zfill_length (width : nat) (s : string) :
  String.length (zfill width s) = Nat.max width (String.length s).
Proof.
  unfold zfill. destruct (width <=? String.length s)%nat eqn:E.
  - apply Nat.leb_le in E. lia.
  - apply Nat.leb_gt in E. destruct s as [|c rest].
    + rewrite length_of_chars, length_replicate. cbn. lia.
    + destruct (Ascii.eqb c "+" || Ascii.eqb c "-")%bool; cbn [String.length] in *;
        rewrite ?length_string_app, length_of_chars, length_replicate;
        cbn [String.length]; lia.
Qed.

Lemma zfill_long (width : nat) (s : string) :
  (width <= String.length s)%nat -> zfill width s = s.
Proof. intros H. unfold zfill. apply Nat.leb_le in H. now rewrite H. Qed.

(** X5. The lookup is insensitive to zero padding: a ZIP code and its padding
    to five characters resolve alike, and a ZIP code of five characters or
    more is looked up as it is. *)
Theorem get_coordinates_zero_padding (coordinates : ZipCoordinatesDB.t)
    (zip_code : string) :
  ZipCoordinatesDB.get_coordinates coordinates (zfill 5 zip_code) =
    ZipCoordinatesDB.get_coordinates coordinates zip_code /\
  ((5 <= String.length zip_code)%nat ->
   ZipCoordinatesDB.get_coordinates coordinates zip_code =
     coordinates !! zip_code).
Proof.
  unfold ZipCoordinatesDB.get_coordinates. split.
  - rewrite (zfill_long 5 (zfill 5 zip_code)); [reflexivity|].
    rewrite zfill_length. lia.
  - intros H. now rewrite zfill_long.
Qed.

Lemma get_coordinates_zero_padding_witness :
  (5 <= String.length "90210")%nat /\
  ZipCoordinatesDB.get_coordinates ({["00501"%string := (40.8, -73.0)]}) (zfill 5 "501") =
    ZipCoordinatesDB.get_coordinates ({["00501"%string := (40.8, -73.0)]}) "501" /\
  ZipCoordinatesDB.get_coordinates ({["00501"%string := (40.8, -73.0)]}) "90210" =
    ({["00501"%string := (40.8, -73.0)]} : ZipCoordinatesDB.t) !! "90210"%string.
Proof.
  assert (H : (5 <= String.length "90210")%nat) by (cbn; lia).
  split; [exact H|]. split.
  - exact (proj1 (get_coordinates_zero_padding _ "501")).
  - exact (proj2 (get_coordinates_zero_padding _ "90210") H).
Defined.

Lemma batch_fold_lookup (coordinates : ZipCoordinatesDB.t)
    (zip_codes : list string) (acc : ZipCoordinatesDB.t) (z : string) :
  foldl (fun results zip_code =>
           match ZipCoordinatesDB.get_coordinates coordinates zip_code with
           | Some coords => <[zip_code := coords]> results
           | None => results
           end) acc zip_codes !! z =
  if decide (z ∈ zip_codes /\
             is_Some (ZipCoordinatesDB.get_coordinates coordinates z))
  then ZipCoordinatesDB.get_coordinates coordinates z
  else acc !! z.
Proof.
  revert acc. induction zip_codes as [|y l IH]; intros acc; cbn [foldl].
  - destruct (decide _) as [[H _]|_]; [|reflexivity]. now apply elem_of_nil in H.
  - rewrite IH. destruct (decide (z ∈ l /\ _)) as [[Hin Hs]|Hn].
    + rewrite decide_True; [reflexivity|]. split; [now right|exact Hs].
    + destruct (decide (z = y)) as [->|Hne].
      * destruct (ZipCoordinatesDB.get_coordinates coordinates y) as [c|] eqn:Ey.
        -- rewrite lookup_insert_eq. rewrite decide_True; [reflexivity|].
           split; [left|]; eauto.
        -- rewrite decide_False; [reflexivity|]. intros [_ [c Hc]]. discriminate.
      * assert (Hacc : match ZipCoordinatesDB.get_coordinates coordinates y with
                       | Some coords => <[y:=coords]> acc
                       | None => acc
                       end !! z = acc !! z).
        { destruct (ZipCoordinatesDB.get_coordinates coordinates y);
            [now rewrite lookup_insert_ne|reflexivity]. }
        rewrite Hacc. rewrite decide_False; [reflexivity|].
        intros [Hin Hs]. apply Hn. split; [|exact Hs].
        apply elem_of_cons in Hin as [?|?]; [congruence|assumption].
Qed.

(** X6. [batch_get_coordinates] returns exactly the requested ZIP codes that
    resolve, each with the coordinates of [get_coordinates]; a ZIP code that
    does not resolve is dropped without error, and no other key appears. *)
Theorem batch_get_coordinates_lookup (coordinates : ZipCoordinatesDB.t)
    (zip_codes : list string) (z : string) (coords : R * R) :
  ZipCoordinatesDB.batch_get_coordinates coordinates zip_codes !! z = Some coords <->
  z ∈ zip_codes /\ ZipCoordinatesDB.get_coordinates coordinates z = Some coords.
Proof.
  unfold ZipCoordinatesDB.batch_get_coordinates. rewrite batch_fold_lookup.
  destruct (decide _) as [[Hin Hs]|Hn].
  - split; [intros H; now split|intros [_ H]; exact H].
  - rewrite lookup_empty. split; [discriminate|].
    intros [Hin H]. exfalso. apply Hn. split; [exact Hin|]. rewrite H. eauto.
Qed.


(** ** The target matrix has every pair *)

Lemma cell_same_refl (c : Cell) : cell_same c c = true.
Proof.
  destruct c; cbn; auto using String.eqb_refl, Z.eqb_refl, Req_bool_refl.
Qed.

Lemma drop_duplicates_from_sub {A} (same : A -> A -> bool) (seen l : list A) (x : A) :
  x ∈ drop_duplicates_from same seen l -> x ∈ l.
Proof.
  revert seen. induction l as [|y l IH]; intros seen; cbn [drop_duplicates_from].
  - intros H. exact H.
  - destruct (existsb (same y) seen).
    + intros H. right. eauto.
    + rewrite !elem_of_cons. intros [->|H]; [now left|right; eauto].
Qed.

Lemma drop_duplicates_from_covers {A} (same : A -> A -> bool) (seen l : list A) (x : A) :
  (forall a, same a a = true) ->
  x ∈ l ->
  exists y, (y ∈ seen \/ y ∈ drop_duplicates_from same seen l) /\ same x y = true.
Proof.
  intros Hrefl. revert seen. induction l as [|a l IH]; intros seen Hx.
  - now apply elem_of_nil in Hx.
  - cbn [drop_duplicates_from]. apply elem_of_cons in Hx as [->|Hx].
    + destruct (existsb (same a) seen) eqn:E.
      * apply existsb_exists in E as (y & Hy & Hs). apply list_elem_of_In in Hy.
        exists y. auto.
      * exists a. split; [right; left|apply Hrefl].
    + destruct (existsb (same a) seen) eqn:E.
      * apply IH. exact Hx.
      * destruct (IH (a :: seen) Hx) as (y & [Hy|Hy] & Hs).
        -- apply elem_of_cons in Hy as [->|Hy]; exists y || exists a.
           ++ split; [right; left|exact Hs].
           ++ auto.
        -- exists y. split; [right; now right|exact Hs].
Qed.

Lemma drop_duplicates_covers {A} (same : A -> A -> bool) (l : list A) (x : A) :
  (forall a, same a a = true) -> x ∈ l ->
  exists y, y ∈ drop_duplicates same l /\ same x y = true.
Proof.
  intros Hrefl Hx.
  destruct (drop_duplicates_from_covers same [] l x Hrefl Hx) as (y & [Hy|Hy] & Hs).
  - now apply elem_of_nil in Hy.
  - eauto.
Qed.

Lemma cell_same_str (z : string) (c : Cell) :
  cell_same (CStr z) c = true -> c = CStr z.
Proof.
  destruct c; cbn; try discriminate. intros H. apply String.eqb_eq in H. now subst.
Qed.

(** X7. No omission, nothing invented: for every roster row and every demand
    row the target matrix has an entry with that demand ZIP (the same value
    for [unique], the same string when it is a string) and that provider
    identifier; and every entry of the target matrix is unset and pairs the
    identifier of some roster row with the ZIP of some demand row. *)
Theorem create_target_matrix_complete
    (providers : list Provider) (demands : list Demand) :
  (forall p d, p ∈ providers -> d ∈ demands ->
     exists e, e ∈ create_target_matrix providers demands /\
       cell_same (demand_zip_code d) (zip_code e) = true /\
       (forall z, demand_zip_code d = CStr z -> zip_code e = CStr z) /\
       cell_same (NPI p) (provider_npi e) = true) /\
  (forall e, e ∈ create_target_matrix providers demands ->
     drive_minutes e = CNaN /\
     exists p d, p ∈ providers /\ d ∈ demands /\
       provider_npi e = NPI p /\ zip_code e = demand_zip_code d).
Proof.
  unfold create_target_matrix. split.
  - intros p d Hp Hd.
    destruct (drop_duplicates_covers same_provider_info
                (map (fun p => (NPI p, slice_to 5 (provider_zip_code p))) providers)
                (NPI p, slice_to 5 (provider_zip_code p)))
      as (info & Hinfo & Hsame).
    { intros [c z]. unfold same_provider_info. cbn.
      now rewrite cell_same_refl, String.eqb_refl. }
    { apply list_elem_of_fmap. eauto. }
    destruct (drop_duplicates_covers cell_same (map demand_zip_code demands)
                (demand_zip_code d)) as (z & Hz & Hzs).
    { apply cell_same_refl. }
    { apply list_elem_of_fmap. eauto. }
    exists (mkEntry z (fst info) CNaN). split; [|split; [|split]].
    + apply list_elem_of_In, in_flat_map. exists info.
      split; [now apply list_elem_of_In|].
      apply list_elem_of_In, list_elem_of_fmap. eauto.
    + exact Hzs.
    + intros z0 Hz0. rewrite Hz0 in Hzs. cbn [zip_code]. now apply cell_same_str.
    + unfold same_provider_info in Hsame. cbn in Hsame.
      now apply andb_prop in Hsame as [Hs _].
  - intros e He. apply list_elem_of_In, in_flat_map in He as (info & Hinfo & He).
    apply list_elem_of_In, list_elem_of_fmap in He as (z & -> & Hz).
    apply list_elem_of_In, drop_duplicates_from_sub, list_elem_of_fmap in Hinfo
      as (p & -> & Hp).
    apply drop_duplicates_from_sub, list_elem_of_fmap in Hz as (d & -> & Hd).
    split; [reflexivity|]. exists p, d. auto.
Qed.

Lemma create_target_matrix_complete_witness :
  exists e,
    e ∈ create_target_matrix Scenarios.repeated_provider Scenarios.one_demand_area /\
    cell_same (CStr "90210") (zip_code e) = true /\
    (forall z, CStr "90210" = CStr z -> zip_code e = CStr z) /\
    cell_same (CInt 1234567890) (provider_npi e) = true.
Proof.
  apply (proj1 (create_target_matrix_complete Scenarios.repeated_provider
                  Scenarios.one_demand_area)
               (mkProvider (CInt 1234567890) "94102") (mkDemand (CStr "90210"))).
  - right. left.
  - left.
Defined.


(** ** Phase 4: the computed fill *)

Lemma first_position_none (mask : list bool) :
  first_position mask = None -> existsb (fun b : bool => b) mask = false.
Proof.
  induction mask as [|b mask IH]; [reflexivity|]. cbn [first_position existsb].
  destruct b; [discriminate|]. destruct (first_position mask); [discriminate|].
  intros _. now apply IH.
Qed.

Lemma first_position_some (mask : list bool) (i : nat) :
  first_position mask = Some i ->
  (i < length mask)%nat /\ existsb (fun b : bool => b) mask = true.
Proof.
  revert i. induction mask as [|b mask IH]; intros i; [discriminate|].
  cbn [first_position existsb length]. destruct b.
  - intros H. injection H as <-. split; [lia|reflexivity].
  - destruct (first_position mask) as [j|]; [|discriminate].
    intros H. injection H as <-. destruct (IH j eq_refl) as [Hlt Hex].
    split; [lia|exact Hex].
Qed.

Lemma existsb_map {A B} (f : A -> B) (g : B -> bool) (l : list A) :
  existsb g (map f l) = existsb (fun a => g (f a)) l.
Proof. induction l as [|a l IH]; cbn; [reflexivity|]. now rewrite IH. Qed.

Section ComputedFill.

Variable zip_db : ZipCoordinatesDB.t.
Variable gauss : nat -> R.
Variable float_str : R -> string.

(** On a roster with its two columns the lookup of the provider's ZIP code
    does not raise; when it returns, it has found a row exactly when the NPI
    is listed. *)
Lemma provider_zip_of_roster (frame : DataFrame) (provider_npi : Cell) :
  roster_frame frame ->
  exists found, provider_zip_of float_str frame provider_npi = inr found.
Proof.
  intros (_ & npis & zips & Hn & Hz & Hlen).
  unfold provider_zip_of, getitem. rewrite Hn. cbn [ret bind].
  destruct (first_position (map (fun c => cell_eqb c provider_npi) npis))
    as [i|] eqn:Hfp; [|eexists; reflexivity].
  apply first_position_some in Hfp as [Hlt _]. rewrite length_map in Hlt.
  rewrite Hz. cbn [ret bind]. unfold item.
  destruct (zips !! i) as [c|] eqn:Hc; [eexists; reflexivity|].
  apply lookup_ge_None in Hc. lia.
Qed.

Lemma provider_zip_of_listed (frame : DataFrame) (provider_npi : Cell)
    (found : option string) :
  provider_zip_of float_str frame provider_npi = inr found ->
  npi_listed (Some frame) provider_npi =
  match found with Some _ => true | None => false end.
Proof.
  unfold provider_zip_of, npi_listed, getitem. cbn [base.mbind option_bind].
  destruct (lookup_col "NPI" frame) as [npis|]; [|discriminate]. cbn [ret bind].
  destruct (first_position (map (fun c => cell_eqb c provider_npi) npis))
    as [i|] eqn:Hfp.
  - apply first_position_some in Hfp as [_ Hex]. rewrite existsb_map in Hex.
    rewrite Hex. intros H.
    destruct (lookup_col "zip_code" frame); cbn [ret raise bind] in H; [|discriminate].
    destruct (item _ i); cbn [bind] in H; [discriminate|]. now injection H as <-.
  - apply first_position_none in Hfp. rewrite existsb_map in Hfp. rewrite Hfp.
    intros H. now injection H as <-.
Qed.

Lemma osrm_loop_returns (providers : option DataFrame)
    (missing_indices : list nat) (n : nat) (target_matrix : Matrix) :
  (forall frame, providers = Some frame -> roster_frame frame) ->
  exists filled,
    osrm_loop zip_db gauss float_str providers n missing_indices target_matrix =
      inr filled.
Proof.
  intros Hroster. revert n target_matrix.
  induction missing_indices as [|idx rest IH]; intros n m; cbn [osrm_loop].
  - eexists. reflexivity.
  - destruct (m !! idx) as [e0|]; [|destruct providers; apply IH].
    destruct providers as [frame|]; [|apply IH].
    destruct (provider_zip_of_roster frame (provider_npi e0) (Hroster frame eq_refl))
      as (found & ->).
    cbn [bind]. destruct found as [provider_zip|]; [|apply IH].
    destruct (Estimator._estimate_travel_time _ _ _ _ _). apply IH.
Qed.

(** What the loop has done when it returns. *)
Lemma osrm_loop_entries (providers : option DataFrame)
    (missing_indices : list nat) (n : nat) (target_matrix filled : Matrix) :
  osrm_loop zip_db gauss float_str providers n missing_indices target_matrix =
    inr filled ->
  length filled = length target_matrix /\
  forall i e, target_matrix !! i = Some e ->
    exists e',
      filled !! i = Some e' /\
      zip_code e' = zip_code e /\ provider_npi e' = provider_npi e /\
      if decide (i ∈ missing_indices) then
        if npi_listed providers (provider_npi e)
        then exists t, drive_minutes e' = CNum t /\ 5 <= t <= 600
        else e' = e
      else e' = e.
Proof.
  unfold Matrix in *. revert n target_matrix.
  induction missing_indices as [|idx rest IH]; intros n m; cbn [osrm_loop];
    unfold Matrix in *.
  - intros H. injection H as <-. split; [reflexivity|]. intros i e Hi. exists e.
    split; [exact Hi|]. split; [reflexivity|]. split; [reflexivity|].
    rewrite decide_False; [reflexivity|]. intros H. now apply elem_of_nil in H.
  - assert (Hskip :
      (forall e, m !! idx = Some e -> npi_listed providers (provider_npi e) = false) ->
      osrm_loop zip_db gauss float_str providers n rest m = inr filled ->
      length filled = length m /\
      forall i e, m !! i = Some e ->
        exists e',
          filled !! i = Some e' /\
          zip_code e' = zip_code e /\ provider_npi e' = provider_npi e /\
          if decide (i ∈ idx :: rest) then
            if npi_listed providers (provider_npi e)
            then exists t, drive_minutes e' = CNum t /\ 5 <= t <= 600
            else e' = e
          else e' = e).
    { intros Hno Hrun. destruct (IH n m Hrun) as (Hlen & Hent).
      split; [exact Hlen|].
      intros i e Hi. destruct (Hent i e Hi) as (e' & He' & Hz & Hn & Hcase).
      exists e'. split; [exact He'|]. split; [exact Hz|]. split; [exact Hn|].
      destruct (decide (i ∈ rest)) as [Hin|Hnin].
      - rewrite decide_True by (now right). exact Hcase.
      - destruct (decide (i ∈ idx :: rest)) as [Hin|_]; [|exact Hcase].
        apply elem_of_cons in Hin as [->|?]; [|contradiction].
        now rewrite (Hno e Hi). }
    destruct (m !! idx) as [e0|] eqn:He0.
    2:{ intros Hrun. apply Hskip; [intros e He; discriminate|].
        now destruct providers. }
    destruct providers as [frame|].
    2:{ apply Hskip. intros e _. reflexivity. }
    destruct (provider_zip_of float_str frame (provider_npi e0)) as [?|found] eqn:Hfound;
      cbn [bind]; [discriminate|].
    pose proof (provider_zip_of_listed _ _ _ Hfound) as Hl.
    destruct found as [provider_zip|].
    2:{ apply Hskip. intros e He. congruence. }
    destruct (Estimator._estimate_travel_time _ _ _ _ _) as [travel_time n'] eqn:Hest.
    pose proof (estimate_travel_time_between zip_db gauss n
                  provider_zip (astype_str float_str (zip_code e0))) as Hrange.
    rewrite Hest in Hrange. cbn [fst] in Hrange.
    intros Hrun.
    destruct (IH n' (<[idx := set_drive_minutes (CNum travel_time) e0]> m) Hrun)
      as (Hlen & Hent).
    rewrite length_insert in Hlen.
    split; [exact Hlen|].
    intros i e Hi. destruct (decide (i = idx)) as [->|Hne].
    + assert (e = e0) as -> by congruence.
      destruct (Hent idx (set_drive_minutes (CNum travel_time) e0))
        as (e' & He' & Hz & Hn & Hcase).
      { apply list_lookup_insert_eq. now apply lookup_lt_Some in He0. }
      exists e'. split; [exact He'|]. split; [exact Hz|]. split; [exact Hn|].
      rewrite decide_True by left. rewrite Hl.
      cbn [provider_npi set_drive_minutes] in Hcase. rewrite Hl in Hcase.
      destruct (decide (idx ∈ rest)); [exact Hcase|].
      subst e'. exists travel_time. split; [reflexivity|exact Hrange].
    + destruct (Hent i e) as (e' & He' & Hz & Hn & Hcase).
      { rewrite list_lookup_insert_ne by congruence. exact Hi. }
      exists e'. split; [exact He'|]. split; [exact Hz|]. split; [exact Hn|].
      destruct (decide (i ∈ rest)) as [Hin|Hnin].
      * rewrite decide_True by (now right). exact Hcase.
      * rewrite decide_False; [exact Hcase|].
        intros Hin. apply elem_of_cons in Hin as [?|?]; contradiction.
Qed.

(** X8. With [self.provider_data] unset or a roster of distinct columns,
    among them [NPI] and [zip_code], [_fill_with_osrm_data] does not raise
    and leaves the state alone.  The matrix keeps its rows, with the same demand ZIP
    and provider identifier; an entry that was set is unchanged; an unset
    entry whose provider identifier equals the NPI of a roster row gets an
    estimate between 5 and 600 minutes, and an unset entry with no such
    roster row stays unset. *)
Theorem fill_with_osrm_data_entries (target_matrix : Matrix) (s : State) :
  (forall frame, provider_data s = Some frame -> roster_frame frame) ->
  exists filled,
    _fill_with_osrm_data zip_db gauss float_str target_matrix s = (inr filled, s) /\
    length filled = length target_matrix /\
    forall i e, target_matrix !! i = Some e ->
      exists e', filled !! i = Some e' /\
        zip_code e' = zip_code e /\ provider_npi e' = provider_npi e /\
        if isna (drive_minutes e) then
          if npi_listed (provider_data s) (provider_npi e)
          then exists t, drive_minutes e' = CNum t /\ 5 <= t <= 600
          else e' = e
        else e' = e.
Proof.
  intros Hroster.
  unfold _fill_with_osrm_data, TravelMatrixBuilder.mbind, get, TravelMatrixBuilder.mret,
    lift.
  cbn [ret]. unfold Matrix in *.
  destruct (length (positions (missing_mask target_matrix)) =? 0)%nat eqn:E.
  - exists target_matrix. split; [reflexivity|]. split; [reflexivity|].
    intros i e Hi. exists e. repeat split; try assumption.
    destruct (isna (drive_minutes e)) eqn:Hna; [|reflexivity].
    apply Nat.eqb_eq, length_zero_iff_nil in E.
    exfalso. apply (positions_nil _ E i). unfold missing_mask.
    rewrite list_lookup_fmap, Hi. cbn. now rewrite Hna.
  - destruct (osrm_loop_returns (provider_data s)
                (positions (missing_mask target_matrix)) 0 target_matrix Hroster)
      as (filled & Hrun).
    destruct (osrm_loop_entries _ _ _ _ _ Hrun) as (Hlen & Hent).
    exists filled. rewrite Hrun. split; [reflexivity|].
    split; [exact Hlen|]. intros i e Hi.
    destruct (Hent i e Hi) as (e' & He' & Hz & Hn & Hcase).
    exists e'. repeat split; try assumption.
    assert (Hpos : i ∈ positions (missing_mask target_matrix) <->
                   isna (drive_minutes e) = true).
    { rewrite positions_spec. unfold missing_mask. rewrite list_lookup_fmap, Hi. cbn.
      split; [congruence|intros ->; reflexivity]. }
    destruct (isna (drive_minutes e)) eqn:Hna.
    + rewrite decide_True in Hcase by (now apply Hpos). exact Hcase.
    + rewrite decide_False in Hcase; [exact Hcase|].
      intros Hin. apply Hpos in Hin. discriminate.
Qed.

End ComputedFill.

Lemma loaded_roster_frame (frame : DataFrame) :
  provider_data Scenarios.builder_with_roster = Some frame -> roster_frame frame.
Proof.
  intros H. injection H as <-. split.
  - apply NoDup_cons. split; [|apply NoDup_singleton].
    intros Hin. apply list_elem_of_singleton in Hin. discriminate.
  - exists [CInt 1234567890], [CStr "90001"]. repeat split.
Qed.

Lemma fill_with_osrm_data_entries_witness :
  (forall frame,
     provider_data Scenarios.builder_with_roster = Some frame ->
     roster_frame frame) /\
  exists filled,
    _fill_with_osrm_data ∅ Scenarios.no_perturbation Scenarios.no_float_str
      Scenarios.one_gap Scenarios.builder_with_roster =
    (inr filled, Scenarios.builder_with_roster) /\
    length filled = length Scenarios.one_gap /\
    forall i e, Scenarios.one_gap !! i = Some e ->
      exists e', filled !! i = Some e' /\
        zip_code e' = zip_code e /\ provider_npi e' = provider_npi e /\
        if isna (drive_minutes e) then
          if npi_listed (provider_data Scenarios.builder_with_roster)
               (provider_npi e)
          then exists t, drive_minutes e' = CNum t /\ 5 <= t <= 600
          else e' = e
        else e' = e.
Proof.
  split; [exact loaded_roster_frame|].
  exact (fill_with_osrm_data_entries ∅ Scenarios.no_perturbation
           Scenarios.no_float_str Scenarios.one_gap Scenarios.builder_with_roster
           loaded_roster_frame).
Defined.


(** ** Validation, saving, loading *)

Lemma filter_length_zero {A} (f : A -> bool) (l : list A) :
  length (List.filter f l) = 0%nat <-> Forall (fun a => f a = false) l.
Proof.
  induction l as [|a l IH]; cbn [List.filter].
  - split; [constructor|reflexivity].
  - destruct (f a) eqn:E; cbn [length].
    + split; [discriminate|]. intros H. apply Forall_cons in H as [H _]. congruence.
    + rewrite IH. split; [intros H; now constructor|].
      intros H. now apply Forall_cons in H as [_ H].
Qed.

Lemma cell_lt_five_zero : cell_lt (CNum 5) 0 = false.
Proof. unfold cell_lt, as_num, Rlt_bool. destruct (Rlt_dec 5 0); [lra|reflexivity]. Qed.

Lemma lookup_set_col_ne (name other : string) (col : list Cell) (df : DataFrame) :
  other <> name -> lookup_col other (set_col name col df) = lookup_col other df.
Proof.
  intros Hne. induction df as [|[n c] df IH]; cbn [set_col lookup_col].
  - destruct (String.eqb name other) eqn:E; [|reflexivity].
    apply String.eqb_eq in E. congruence.
  - destruct (String.eqb n name) eqn:E; cbn [lookup_col].
    + apply String.eqb_eq in E. subst n.
      destruct (String.eqb name other) eqn:E2; [|reflexivity].
      apply String.eqb_eq in E2. congruence.
    + destruct (String.eqb n other); [reflexivity|exact IH].
Qed.

Lemma columns_set_col (name : string) (col col0 : list Cell) (df : DataFrame) :
  lookup_col name df = Some col0 -> columns (set_col name col df) = columns df.
Proof.
  unfold columns. induction df as [|[n c] df IH]; cbn [set_col lookup_col]; [discriminate|].
  destruct (String.eqb n name) eqn:E; cbn [map fst]; [reflexivity|].
  intros H. f_equal. now apply IH.
Qed.

(** X9. On a matrix whose travel times are floats, [_validate_matrix]
    leaves the builder and the files alone and raises nothing but the
    coverage error ([ValueError]).  When it returns, the matrix has its rows
    in place: a negative travel time has been replaced by 5, every other
    entry (unset ones included) is unchanged, and no negative travel time
    is left. *)
Theorem validate_matrix_outcome (cfg : Config) (matrix : Matrix) (s : State) :
  Forall (fun e => is_float (drive_minutes e) = true) matrix ->
  match _validate_matrix cfg matrix s with
  | (inl e, s') => e = ValueError /\ s' = s
  | (inr validated, s') =>
      s' = s /\ length validated = length matrix /\
      forall i e, matrix !! i = Some e ->
        exists e', validated !! i = Some e' /\
          zip_code e' = zip_code e /\ provider_npi e' = provider_npi e /\
          (if cell_lt (drive_minutes e) 0
           then drive_minutes e' = CNum 5 else e' = e) /\
          cell_lt (drive_minutes e') 0 = false
  end.
Proof.
  intros _. unfold _validate_matrix, Matrix in *.
  destruct (cell_lt (matrix_coverage matrix) (min_coverage cfg)); [split; reflexivity|].
  destruct (0 <? _)%nat eqn:E; cbn.
  - split; [reflexivity|]. split; [apply length_map|].
    intros i e Hi. rewrite list_lookup_fmap, Hi. cbn [fmap option_fmap option_map].
    eexists. split; [reflexivity|].
    destruct (cell_lt (drive_minutes e) 0) eqn:Hneg; cbn;
      auto using cell_lt_five_zero.
  - split; [reflexivity|]. split; [reflexivity|].
    apply Nat.ltb_ge in E.
    assert (Hz : length (List.filter (fun e => cell_lt (drive_minutes e) 0) matrix) = 0%nat)
      by lia.
    apply filter_length_zero in Hz. rewrite Forall_forall in Hz.
    intros i e Hi. exists e. pose proof (Hz e (list_elem_of_lookup_2 _ _ _ Hi)) as He.
    cbn in He. rewrite He. auto.
Qed.

Lemma validate_matrix_outcome_witness :
  Forall (fun e => is_float (drive_minutes e) = true) Scenarios.negative_time /\
  match _validate_matrix Scenarios.default_config Scenarios.negative_time
          Scenarios.builder_with_roster with
  | (inl e, s') => e = ValueError /\ s' = Scenarios.builder_with_roster
  | (inr validated, s') =>
      s' = Scenarios.builder_with_roster /\
      length validated = length Scenarios.negative_time /\
      forall i e, Scenarios.negative_time !! i = Some e ->
        exists e', validated !! i = Some e' /\
          zip_code e' = zip_code e /\ provider_npi e' = provider_npi e /\
          (if cell_lt (drive_minutes e) 0
           then drive_minutes e' = CNum 5 else e' = e) /\
          cell_lt (drive_minutes e') 0 = false
  end.
Proof.
  assert (H : Forall (fun e => is_float (drive_minutes e) = true)
                Scenarios.negative_time) by (repeat constructor).
  split; [exact H|].
  exact (validate_matrix_outcome Scenarios.default_config Scenarios.negative_time
           Scenarios.builder_with_roster H).
Defined.

Lemma string_app_inj (p a b : string) : p +:+ a = p +:+ b -> a = b.
Proof. induction p as [|c p IH]; cbn; [auto|]. intros H. injection H as H. auto. Qed.

Section Save.

Variable to_parquet : DataFrame -> result unit.
Variable cfg : Config.

(** X10. [_save_matrix] is not atomic.  On a matrix whose travel times are
    floats it first writes [travel_matrix.csv], whatever happens next.  If
    [to_parquet] returns or raises [ImportError], the call returns and
    [travel_matrix_summary.json] holds the summary; when [to_parquet]
    returned, the parquet file holds the matrix.  Any other exception of
    [to_parquet] ends the call: the CSV file is there, the summary is not
    written.  No other file and no attribute of the builder changes. *)
Theorem save_matrix_files (matrix : Matrix) (s : State) :
  Forall (fun e => is_float (drive_minutes e) = true) matrix ->
  exists r s',
    _save_matrix to_parquet cfg matrix s = (r, s') /\
    r = match to_parquet (to_frame matrix) with
        | inr _ => inr tt
        | inl ImportError => inr tt
        | inl e => inl e
        end /\
    fs s' !! csv_file cfg = Some (CsvFile (to_frame matrix)) /\
    (to_parquet (to_frame matrix) = inr tt ->
     fs s' !! output_file cfg = Some (ParquetFile (to_frame matrix))) /\
    fs s' !! summary_file cfg =
      match r with
      | inr _ => Some (JsonFile (summary_of matrix))
      | inl _ => fs s !! summary_file cfg
      end /\
    (forall path, path <> csv_file cfg -> path <> output_file cfg ->
       path <> summary_file cfg -> fs s' !! path = fs s !! path) /\
    provider_data s' = provider_data s /\ demand_data s' = demand_data s /\
    final_matrix s' = final_matrix s.
Proof.
  intros _.
  assert (H1 : csv_file cfg <> output_file cfg)
    by (intros H; apply string_app_inj in H; discriminate).
  assert (H2 : csv_file cfg <> summary_file cfg)
    by (intros H; apply string_app_inj in H; discriminate).
  assert (H3 : output_file cfg <> summary_file cfg)
    by (intros H; apply string_app_inj in H; discriminate).
  unfold _save_matrix, TravelMatrixBuilder.mbind, modify, TravelMatrixBuilder.mret,
    mraise.
  destruct (to_parquet (to_frame matrix)) as [e|[]]; [destruct e|]; cbn [ret];
    eexists; eexists; (split; [reflexivity|]); (split; [reflexivity|]);
    cbn [fs set_fs provider_data demand_data final_matrix];
    repeat split; intros;
    try match goal with H : inl _ = inr _ |- _ => discriminate H end;
    repeat first [rewrite lookup_insert_eq | rewrite lookup_insert_ne by congruence];
    reflexivity.
Qed.

End Save.

Lemma save_matrix_files_witness :
  Forall (fun e => is_float (drive_minutes e) = true) Scenarios.one_gap /\
  exists s',
    _save_matrix Scenarios.parquet_invalid Scenarios.default_config
      Scenarios.one_gap Scenarios.builder_with_roster = (inl ValueError, s') /\
    fs s' !! csv_file Scenarios.default_config =
      Some (CsvFile (to_frame Scenarios.one_gap)) /\
    fs s' !! summary_file Scenarios.default_config = None.
Proof.
  assert (H : Forall (fun e => is_float (drive_minutes e) = true) Scenarios.one_gap)
    by (repeat constructor).
  split; [exact H|].
  destruct (save_matrix_files Scenarios.parquet_invalid Scenarios.default_config
              Scenarios.one_gap Scenarios.builder_with_roster H)
    as (r & s' & Hrun & -> & Hcsv & _ & Hsum & _).
  exists s'. split; [exact Hrun|]. split; [exact Hcsv|]. exact Hsum.
Defined.

(** *** Loading *)

Lemma has_column_lookup (df : DataFrame) (name : string) :
  has_column df name = true <-> exists col, lookup_col name df = Some col.
Proof.
  unfold has_column, columns. induction df as [|[n c] df IH]; cbn [map fst existsb lookup_col].
  - split; [discriminate|]. intros [col H]. discriminate.
  - rewrite String.eqb_sym. destruct (String.eqb n name); cbn [orb]; [|exact IH].
    split; [eauto|reflexivity].
Qed.

Lemma lookup_col_rename_ne (old new name : string) (df : DataFrame) :
  name <> old -> name <> new ->
  lookup_col name (rename old new df) = lookup_col name df.
Proof.
  intros Ho Hn. unfold rename. induction df as [|[n c] df IH]; cbn [map lookup_col];
    [reflexivity|].
  destruct (String.eqb n old) eqn:E.
  - apply String.eqb_eq in E. subst n.
    destruct (String.eqb new name) eqn:E1; [apply String.eqb_eq in E1; congruence|].
    destruct (String.eqb old name) eqn:E2; [apply String.eqb_eq in E2; congruence|].
    exact IH.
  - destruct (String.eqb n name); [reflexivity|exact IH].
Qed.

Lemma lookup_col_rename_new (old new : string) (df : DataFrame) :
  has_column df old = true ->
  exists col, lookup_col new (rename old new df) = Some col.
Proof.
  intros H. apply has_column_lookup in H as [col H].
  unfold rename. induction df as [|[n c] df IH]; cbn [map lookup_col] in *; [discriminate|].
  destruct (String.eqb n old) eqn:E.
  - rewrite String.eqb_refl. eauto.
  - destruct (String.eqb n new); [eauto|]. now apply IH.
Qed.

(** The check of the required columns passes exactly when both are there. *)
Lemma required_columns_check (df : DataFrame) (a b : string) :
  negb (length (List.filter (fun col => negb (has_column df col)) [a; b]) =? 0)%nat =
  negb (has_column df a && has_column df b).
Proof. cbn [List.filter]. now destruct (has_column df a), (has_column df b). Qed.

Section Load.

Variable float_str : R -> string.
Variable cfg : Config.

Lemma clean_zip_codes_inr (df : DataFrame) (zips : list Cell) :
  lookup_col "zip_code" df = Some zips ->
  exists cleaned,
    clean_zip_codes float_str df = inr cleaned /\
    (forall name, name <> "zip_code"%string ->
       lookup_col name cleaned = lookup_col name df) /\
    exists zips',
      lookup_col "zip_code" cleaned = Some zips' /\
      Forall (fun c => exists z, c = CStr z /\ (5 <= String.length z)%nat) zips'.
Proof.
  intros Hz. unfold clean_zip_codes, getitem. rewrite Hz. cbn [ret bind].
  eexists. split; [reflexivity|]. split.
  - intros name Hne. now apply lookup_set_col_ne.
  - eexists. split; [apply lookup_set_col|].
    apply Forall_fmap, Forall_forall. intros c _. cbn.
    eexists. split; [reflexivity|]. rewrite zfill_length. lia.
Qed.

(** X11. [load_provider_data] raises [FileNotFoundError] exactly when the
    roster file is absent.  A load that raises leaves the builder as it was,
    with one exception: when the file was read and a required column is
    missing, the [ValueError] leaves the frame as read in
    [self.provider_data].  A load that returns only sets
    [self.provider_data], to the frame it returns, which has a column [NPI]
    and a column [zip_code] of strings of at least five characters. *)
Theorem load_provider_data_outcome (s : State) :
  match load_provider_data float_str cfg s with
  | (inl e, s') =>
      (e = FileNotFoundError <-> fs s !! provider_file cfg = None) /\
      ((s' = s /\ forall df, fs s !! provider_file cfg <> Some (CsvFile df)) \/
       exists df,
         fs s !! provider_file cfg = Some (CsvFile df) /\ e = ValueError /\
         s' = set_provider_data df s /\
         (has_column df "provider_npi" && has_column df "zip_code")%bool = false)
  | (inr frame, s') =>
      s' = set_provider_data frame s /\
      exists npis zips,
        lookup_col "NPI" frame = Some npis /\
        lookup_col "zip_code" frame = Some zips /\
        Forall (fun c => exists z, c = CStr z /\ (5 <= String.length z)%nat) zips
  end.
Proof.
  unfold load_provider_data, TravelMatrixBuilder.mbind, get, lift, modify,
    TravelMatrixBuilder.mret, mraise. cbn [ret].
  destruct (fs s !! provider_file cfg) as [f|] eqn:Ef.
  2:{ split; [tauto|]. left. split; [reflexivity|discriminate]. }
  destruct f as [df|df|summary]; cbn [read_csv ret raise].
  2,3: split; [split; discriminate|]; left; split; [reflexivity|congruence].
  rewrite required_columns_check.
  destruct (has_column df "provider_npi") eqn:Hn, (has_column df "zip_code") eqn:Hz;
    cbn [andb negb].
  2-4: split; [split; discriminate|]; right; exists df; rewrite Hn, Hz; auto.
  destruct (lookup_col_rename_new "provider_npi" "NPI" df Hn) as [npis Hnpis].
  apply has_column_lookup in Hz as [zips Hzips].
  rewrite <- (lookup_col_rename_ne "provider_npi" "NPI") in Hzips by discriminate.
  destruct (clean_zip_codes_inr _ _ Hzips) as (cleaned & -> & Hother & zips' & Hz' & Hlen).
  split; [reflexivity|]. exists npis, zips'. split; [|split; [exact Hz'|exact Hlen]].
  rewrite Hother by discriminate. exact Hnpis.
Qed.

(** X12. [load_demand_data] raises [FileNotFoundError] exactly when the
    demand file is absent.  A load that raises leaves the builder as it was,
    with one exception: when the file was read and a required column is
    missing, the [ValueError] leaves the frame as read in
    [self.demand_data].  A load that returns only sets [self.demand_data],
    to the frame it returns, which has a column [ensemble_demand_score] and
    a column [zip_code] of strings of at least five characters. *)
Theorem load_demand_data_outcome (s : State) :
  match load_demand_data float_str cfg s with
  | (inl e, s') =>
      (e = FileNotFoundError <-> fs s !! demand_file cfg = None) /\
      ((s' = s /\ forall df, fs s !! demand_file cfg <> Some (CsvFile df)) \/
       exists df,
         fs s !! demand_file cfg = Some (CsvFile df) /\ e = ValueError /\
         s' = set_demand_data df s /\
         (has_column df "zip_code" && has_column df "demand_score")%bool = false)
  | (inr frame, s') =>
      s' = set_demand_data frame s /\
      exists scores zips,
        lookup_col "ensemble_demand_score" frame = Some scores /\
        lookup_col "zip_code" frame = Some zips /\
        Forall (fun c => exists z, c = CStr z /\ (5 <= String.length z)%nat) zips
  end.
Proof.
  unfold load_demand_data, TravelMatrixBuilder.mbind, get, lift, modify,
    TravelMatrixBuilder.mret, mraise. cbn [ret].
  destruct (fs s !! demand_file cfg) as [f|] eqn:Ef.
  2:{ split; [tauto|]. left. split; [reflexivity|discriminate]. }
  destruct f as [df|df|summary]; cbn [read_csv ret raise].
  2,3: split; [split; discriminate|]; left; split; [reflexivity|congruence].
  rewrite required_columns_check.
  destruct (has_column df "zip_code") eqn:Hz, (has_column df "demand_score") eqn:Hd;
    cbn [andb negb].
  2-4: split; [split; discriminate|]; right; exists df; rewrite Hz, Hd; auto.
  destruct (lookup_col_rename_new "demand_score" "ensemble_demand_score" df Hd)
    as [scores Hscores].
  apply has_column_lookup in Hz as [zips Hzips].
  rewrite <- (lookup_col_rename_ne "demand_score" "ensemble_demand_score") in Hzips
    by discriminate.
  destruct (clean_zip_codes_inr _ _ Hzips) as (cleaned & -> & Hother & zips' & Hz' & Hlen).
  split; [reflexivity|]. exists scores, zips'. split; [|split; [exact Hz'|exact Hlen]].
  rewrite Hother by discriminate. exact Hscores.
Qed.

End Load.


(** ** A build that returns *)

Lemma create_target_matrix_unset (providers : list Provider) (demands : list Demand)
    (e : Entry) :
  e ∈ create_target_matrix providers demands -> drive_minutes e = CNaN.
Proof.
  unfold create_target_matrix. intros He.
  apply list_elem_of_In, in_flat_map in He as (info & _ & He).
  now apply list_elem_of_In, list_elem_of_fmap in He as (z & -> & _).
Qed.

Section BuildSuccess.

Variable zip_db : ZipCoordinatesDB.t.
Variable gauss : nat -> R.
Variable float_str : R -> string.
Variable to_parquet : DataFrame -> result unit.
Variable scaler_fit_transform : list (list R) -> result (list (list R)).
Variable kneighbors :
  nat -> list (list R) -> list (list R) ->
  result (list (list R) * list (list nat)).
Variable cfg : Config.

Let phases := fill_phases zip_db gauss float_str scaler_fit_transform
                kneighbors cfg.
Let build := build_travel_matrix zip_db gauss float_str to_parquet
               scaler_fit_transform kneighbors cfg.

(** When the fill phases return, every entry of the matrix is set, to a
    value between 5 and 600: an entry left unset by phase 4 ends the build
    in phase 5. *)
Lemma fill_phases_all_set (s s1 : State) (target_matrix : Matrix) :
  phases s = (inr target_matrix, s1) ->
  Forall in_range target_matrix /\ final_matrix s1 = final_matrix s /\ fs s1 = fs s.
Proof.
  intros Hph. split.
  2:{ destruct (fill_phases_reads_only zip_db gauss float_str scaler_fit_transform
                  kneighbors cfg s _ s1 Hph); auto. }
  subst phases. unfold fill_phases in Hph.
  apply mbind_inr in Hph as (filled & sf & Hest & Hph).
  unfold estimate_phases in Hest.
  apply mbind_inr in Hest as (ps0 & sa & _ & Hest).
  apply mbind_inr in Hest as (ds0 & sb & _ & Hest).
  apply mbind_inr in Hest as ([] & sc & _ & Hest).
  apply mbind_inr in Hest as (tm & sd & Hcreate & Hest).
  apply mbind_inr in Hest as (tm' & se & Hacad & Hosrm).
  injection Hacad as <- <-.
  assert (Hunset : forall e, e ∈ tm -> drive_minutes e = CNaN).
  { unfold _create_target_matrix in Hcreate.
    apply mbind_inr in Hcreate as (s0 & s0' & _ & Hcreate).
    destruct (provider_data s0), (demand_data s0); try discriminate.
    apply mbind_inr in Hcreate as (providers & ? & _ & Hcreate).
    apply mbind_inr in Hcreate as (demands & ? & _ & Hcreate).
    injection Hcreate as <- _. apply create_target_matrix_unset. }
  unfold _interpolate_remaining_gaps in Hph.
  destruct (length (List.filter (fun b : bool => b) (missing_mask filled)) =? 0)%nat eqn:E;
    [|discriminate].
  injection Hph as <- _.
  apply Nat.eqb_eq, filter_length_zero in E. unfold missing_mask in E.
  rewrite Forall_fmap in E. rewrite Forall_forall in E.
  unfold _fill_with_osrm_data, TravelMatrixBuilder.mbind, get, TravelMatrixBuilder.mret,
    lift in Hosrm.
  cbn [ret] in Hosrm. unfold Matrix in *.
  destruct (length (positions (missing_mask tm)) =? 0)%nat eqn:Epos.
  - injection Hosrm as <- _. apply Forall_forall. intros e He.
    pose proof (E e He) as Hset. cbn in Hset. rewrite (Hunset e He) in Hset. discriminate.
  - destruct (osrm_loop _ _ _ _ _ _ _) as [?|filled'] eqn:Hloop; [discriminate|].
    injection Hosrm as <- _. apply Forall_forall. intros e' He'.
    apply list_elem_of_lookup in He' as [i Hi].
    destruct (osrm_loop_entries _ _ _ _ _ _ _ _ Hloop) as [Hlen Hent].
    destruct (tm !! i) as [e|] eqn:Hei.
    2:{ apply lookup_ge_None in Hei. apply lookup_lt_Some in Hi. unfold Matrix in *. lia. }
    destruct (Hent i e Hei) as (e2 & He2 & _ & _ & Hcase).
    unfold Matrix in *. rewrite Hi in He2. injection He2 as <-.
    pose proof (Hunset e (list_elem_of_lookup_2 _ _ _ Hei)) as Hnan.
    pose proof (E e' (list_elem_of_lookup_2 _ _ _ Hi)) as Hset. cbn in Hset.
    destruct (decide _) as [_|_].
    + destruct (npi_listed _ _); [exact Hcase|]. subst e'. rewrite Hnan in Hset. discriminate.
    + subst e'. rewrite Hnan in Hset. discriminate.
Qed.

Lemma in_range_not_negative (e : Entry) : in_range e -> cell_lt (drive_minutes e) 0 = false.
Proof.
  intros (t & -> & Ht). unfold cell_lt, as_num, Rlt_bool.
  destruct (Rlt_dec t 0); [lra|reflexivity].
Qed.

(** What a build that returns has done. *)
Lemma build_inr_inv (s s' : State) (matrix : Matrix) :
  build s = (inr matrix, s') ->
  Forall in_range matrix /\
  cell_lt (matrix_coverage matrix) (min_coverage cfg) = false /\
  final_matrix s' = Some matrix /\
  fs s' !! csv_file cfg = Some (CsvFile (to_frame matrix)) /\
  fs s' !! summary_file cfg = Some (JsonFile (summary_of matrix)).
Proof.
  intros Hb. subst build. unfold build_travel_matrix in Hb.
  apply mbind_inr in Hb as (m0 & s1 & Hph & Hb).
  apply fill_phases_all_set in Hph as (Hrange & _ & _).
  apply mbind_inr in Hb as (m1 & s2 & Hval & Hb).
  unfold _validate_matrix in Hval.
  destruct (cell_lt (matrix_coverage m0) (min_coverage cfg)) eqn:Hcov; [discriminate|].
  assert (Hz : length (List.filter (fun e => cell_lt (drive_minutes e) 0) m0) = 0%nat).
  { apply filter_length_zero. eapply Forall_impl; [exact Hrange|].
    intros e. apply in_range_not_negative. }
  rewrite Hz in Hval. cbn [Nat.ltb Nat.leb] in Hval. injection Hval as <- <-.
  apply mbind_inr in Hb as ([] & s3 & Hsave & Hb).
  apply mbind_inr in Hb as ([] & s4 & Hmod & Hb).
  injection Hb as <- <-. injection Hmod as <-.
  assert (H2 : csv_file cfg <> summary_file cfg)
    by (intros H; apply string_app_inj in H; discriminate).
  assert (H1 : csv_file cfg <> output_file cfg)
    by (intros H; apply string_app_inj in H; discriminate).
  unfold _save_matrix, TravelMatrixBuilder.mbind, modify, TravelMatrixBuilder.mret,
    mraise in Hsave.
  split; [exact Hrange|]. split; [exact Hcov|]. split; [reflexivity|].
  destruct (to_parquet (to_frame m0)) as [e|[]]; [destruct e|]; cbn [ret] in Hsave;
    try discriminate Hsave; injection Hsave as <-;
    cbn [fs set_fs set_final_matrix];
    (split; [|now rewrite lookup_insert_eq]);
    repeat rewrite lookup_insert_ne by congruence; now rewrite lookup_insert_eq.
Qed.

(** The coverage error ends a build only under a minimum above 1: a matrix
    that reaches validation is complete. *)
Lemma coverage_error_needs_minimum_above_one
    (s s1 s2 : State) (target_matrix : Matrix) (e : exn) :
  phases s = (inr target_matrix, s1) ->
  _validate_matrix cfg target_matrix s1 = (inl e, s2) ->
  1 < min_coverage cfg.
Proof.
  intros Hph Hval. apply fill_phases_all_set in Hph as (Hrange & _ & _).
  unfold _validate_matrix in Hval.
  destruct (cell_lt (matrix_coverage target_matrix) (min_coverage cfg)) eqn:Hcov.
  2:{ destruct (0 <? _)%nat; discriminate. }
  destruct target_matrix as [|e0 m]; [discriminate|].
  assert (Hz : length (List.filter (fun e => isna (drive_minutes e)) (e0 :: m)) = 0%nat).
  { apply filter_length_zero. eapply Forall_impl; [exact Hrange|].
    intros x (t & -> & _). reflexivity. }
  unfold matrix_coverage in Hcov. rewrite Hz in Hcov.
  unfold cell_lt, as_num, Rlt_bool in Hcov.
  destruct (Rlt_dec _ _) as [Hlt|]; [|discriminate].
  change (INR 0) with 0 in Hlt. unfold Rdiv in Hlt. rewrite Rmult_0_l in Hlt. lra.
Qed.

(** X13. A build that returns has produced a complete, bounded matrix: every
    entry holds a travel time between 5 and 600 minutes, the matrix is kept
    in [self.final_matrix], and [travel_matrix.csv] and
    [travel_matrix_summary.json] hold the matrix and its summary. *)
Theorem build_success_postcondition (s s' : State) (matrix : Matrix) :
  build s = (inr matrix, s') ->
  Forall (fun e => exists t, drive_minutes e = CNum t /\ 5 <= t <= 600) matrix /\
  final_matrix s' = Some matrix /\
  fs s' !! csv_file cfg = Some (CsvFile (to_frame matrix)) /\
  fs s' !! summary_file cfg = Some (JsonFile (summary_of matrix)).
Proof.
  intros Hb. apply build_inr_inv in Hb as (H1 & _ & H2 & H3 & H4). auto.
Qed.

(** X14. [get_matrix_summary] raises [ValueError] as long as no build has
    returned; after a build that returned it yields, without touching the
    state, the figures that the build wrote to
    [travel_matrix_summary.json]. *)
Theorem get_matrix_summary_after_build (s s' : State) (matrix : Matrix) :
  (final_matrix s = None -> get_matrix_summary s = (inl ValueError, s)) /\
  (build s = (inr matrix, s') ->
   exists summary written,
     get_matrix_summary s' = (inr summary, s') /\
     fs s' !! summary_file cfg = Some (JsonFile written) /\
     summary_total_pairs summary = total_pairs written /\
     summary_coverage summary = coverage written /\
     summary_mean_travel_time summary = mean_travel_time written /\
     summary_median_travel_time summary = median_travel_time written /\
     summary_providers_count summary = providers_count written /\
     summary_demand_areas_count summary = demand_areas_count written).
Proof.
  split.
  - intros Hnone. unfold get_matrix_summary, TravelMatrixBuilder.mbind, get. cbn [ret].
    now rewrite Hnone.
  - intros Hb. apply build_inr_inv in Hb as (_ & _ & Hfinal & _ & Hfile).
    eexists. exists (summary_of matrix). split.
    + unfold get_matrix_summary, TravelMatrixBuilder.mbind, get. cbn [ret].
      rewrite Hfinal. reflexivity.
    + split; [exact Hfile|]. repeat split.
Qed.

End BuildSuccess.

Lemma default_build_returns :
  exists s',
    build_travel_matrix ∅ Scenarios.no_perturbation Scenarios.no_float_str
      Scenarios.parquet_ok Scenarios.identity_scaler Scenarios.first_rows_neighbors
      Scenarios.default_config (Scenarios.fresh_builder Scenarios.providers_csv) =
    (inr [mkEntry (CStr "20001") (CInt 1234567890) (CNum 180)], s').
Proof.
  assert (Hph : exists s1,
    fill_phases ∅ Scenarios.no_perturbation Scenarios.no_float_str
      Scenarios.identity_scaler Scenarios.first_rows_neighbors
      Scenarios.default_config (Scenarios.fresh_builder Scenarios.providers_csv) =
    (inr [mkEntry (CStr "20001") (CInt 1234567890) (CNum 180)], s1)).
  { eexists. vm_compute. reflexivity. }
  destruct Hph as [s1 Hph].
  assert (Hval : _validate_matrix Scenarios.default_config
                   [mkEntry (CStr "20001") (CInt 1234567890) (CNum 180)] s1 =
                 (inr [mkEntry (CStr "20001") (CInt 1234567890) (CNum 180)], s1)).
  { unfold _validate_matrix, matrix_coverage, cell_lt, as_num, Rlt_bool.
    cbn [List.filter isna drive_minutes length INR min_coverage Scenarios.default_config].
    destruct (Rlt_dec (1 - 0 / 1) 0.95); [lra|].
    destruct (Rlt_dec 180 0); [lra|]. reflexivity. }
  unfold build_travel_matrix, TravelMatrixBuilder.mbind at 1. rewrite Hph.
  unfold TravelMatrixBuilder.mbind at 1. rewrite Hval.
  eexists. reflexivity.
Qed.

Lemma build_success_postcondition_witness :
  exists s' matrix,
    build_travel_matrix ∅ Scenarios.no_perturbation Scenarios.no_float_str
      Scenarios.parquet_ok Scenarios.identity_scaler Scenarios.first_rows_neighbors
      Scenarios.default_config (Scenarios.fresh_builder Scenarios.providers_csv) =
    (inr matrix, s') /\
    Forall (fun e => exists t, drive_minutes e = CNum t /\ 5 <= t <= 600) matrix /\
    final_matrix s' = Some matrix /\
    fs s' !! csv_file Scenarios.default_config = Some (CsvFile (to_frame matrix)) /\
    fs s' !! summary_file Scenarios.default_config =
      Some (JsonFile (summary_of matrix)).
Proof.
  destruct default_build_returns as [s' Hb].
  exists s', [mkEntry (CStr "20001") (CInt 1234567890) (CNum 180)]. split; [exact Hb|].
  exact (build_success_postcondition ∅ Scenarios.no_perturbation
           Scenarios.no_float_str Scenarios.parquet_ok Scenarios.identity_scaler
           Scenarios.first_rows_neighbors Scenarios.default_config _ s' _ Hb).
Defined.

Lemma get_matrix_summary_after_build_witness :
  final_matrix (Scenarios.fresh_builder Scenarios.providers_csv) = None /\
  get_matrix_summary (Scenarios.fresh_builder Scenarios.providers_csv) =
    (inl ValueError, Scenarios.fresh_builder Scenarios.providers_csv) /\
  exists s',
    build_travel_matrix ∅ Scenarios.no_perturbation Scenarios.no_float_str
      Scenarios.parquet_ok Scenarios.identity_scaler Scenarios.first_rows_neighbors
      Scenarios.default_config (Scenarios.fresh_builder Scenarios.providers_csv) =
    (inr [mkEntry (CStr "20001") (CInt 1234567890) (CNum 180)], s') /\
    exists summary written,
      get_matrix_summary s' = (inr summary, s') /\
      fs s' !! summary_file Scenarios.default_config = Some (JsonFile written) /\
      summary_total_pairs summary = total_pairs written /\
      summary_coverage summary = coverage written /\
      summary_mean_travel_time summary = mean_travel_time written /\
      summary_median_travel_time summary = median_travel_time written /\
      summary_providers_count summary = providers_count written /\
      summary_demand_areas_count summary = demand_areas_count written.
Proof.
  destruct default_build_returns as [s' Hb].
  pose proof (get_matrix_summary_after_build ∅ Scenarios.no_perturbation
           Scenarios.no_float_str Scenarios.parquet_ok Scenarios.identity_scaler
           Scenarios.first_rows_neighbors Scenarios.default_config
           (Scenarios.fresh_builder Scenarios.providers_csv) s'
           [mkEntry (CStr "20001") (CInt 1234567890) (CNum 180)]) as [H1 H2].
  split; [reflexivity|]. split; [exact (H1 eq_refl)|].
  exists s'. split; [exact Hb|]. exact (H2 Hb).
Defined.


(** ** The strategies: shape, gaps, malformed ZIP codes *)

Section Shape.

Variable scaler_fit_transform : list (list R) -> result (list (list R)).
Variable kneighbors :
  nat -> list (list R) -> list (list R) ->
  result (list (list R) * list (list nat)).
Variable agglomerative_fit_predict : nat -> list (list R) -> result (list nat).
Variable random_forest_fit_predict :
  list (list R) -> list R -> list (list R) -> result (list R).
Variable py_float : string -> option R.

Let run := interpolate scaler_fit_transform kneighbors
             agglomerative_fit_predict random_forest_fit_predict py_float.

Lemma run_inr_inv (strategy : Strategy) (df df' : DataFrame) :
  run strategy df = inr df' ->
  exists times, getitem df travel_time_minutes = inr times /\
    ((positions (map isna times) = [] /\ df' = df) \/
     exists value times',
       positions (map isna times) <> [] /\
       fill_loop value 0 (positions (map isna times)) times = inr times' /\
       df' = set_col travel_time_minutes times' df /\
       match strategy with
       | MachineLearning => forall i idx t v, value i idx t = inr v -> isna v = false
       | _ => True
       end).
Proof.
  intros Hrun. subst run.
  destruct (getitem df travel_time_minutes) as [e|times] eqn:Hget.
  { destruct strategy; cbn [interpolate] in Hrun;
      unfold nearest_neighbor_interpolation, spatial_weighting_interpolation,
             hierarchical_clustering_interpolation,
             machine_learning_interpolation in Hrun;
      rewrite Hget in Hrun; discriminate. }
  exists times. split; [reflexivity|].
  destruct strategy; cbn [interpolate] in Hrun;
    unfold nearest_neighbor_interpolation, spatial_weighting_interpolation,
           hierarchical_clustering_interpolation,
           machine_learning_interpolation in Hrun;
    rewrite Hget in Hrun; cbn [bind] in Hrun;
    (destruct (length (positions (map isna times)) =? 0)%nat eqn:E0;
     [injection Hrun as <-; left;
      apply Nat.eqb_eq, length_zero_iff_nil in E0; now split|]);
    (assert (Hne : positions (map isna times) <> [])
       by (intros H0; rewrite H0 in E0; discriminate));
    bind_inv Hrun; injection Hrun as <-; right;
    eexists; eexists; (split; [exact Hne|]); (split; [eassumption|]);
    (split; [reflexivity|]); try exact I.
  intros i idx t v Hv. unfold ml_value in Hv. bind_inv Hv. now injection Hv as <-.
Qed.

(** X15. Whatever the strategy, a returned matrix has the shape of its input:
    the same columns in the same order, each of the same length, and every
    column other than the travel times untouched. *)
Theorem interpolate_keeps_shape (strategy : Strategy) (df df' : DataFrame) :
  run strategy df = inr df' ->
  columns df' = columns df /\
  forall name col, lookup_col name df = Some col ->
    exists col', lookup_col name df' = Some col' /\
      length col' = length col /\
      (name <> travel_time_minutes -> col' = col).
Proof.
  intros Hrun. apply run_inr_inv in Hrun as (times & Hget & [[_ ->]|Hfill]).
  { split; [reflexivity|]. intros name col Hl. exists col. auto. }
  destruct Hfill as (value & times' & _ & Hfill & -> & _).
  apply getitem_inr in Hget. apply fill_loop_frame in Hfill as [Hlen _].
  split; [eapply columns_set_col; exact Hget|].
  intros name col Hl. destruct (decide (name = travel_time_minutes)) as [->|Hne].
  - exists times'. rewrite lookup_set_col. split; [reflexivity|].
    split; [congruence|]. intros H. contradiction.
  - exists col. rewrite lookup_set_col_ne by exact Hne. auto.
Qed.


End Shape.


Lemma interpolate_keeps_shape_witness :
  exists df',
    interpolate Scenarios.identity_scaler Scenarios.first_rows_neighbors
      Scenarios.one_cluster_per_row Scenarios.constant_forest
      Scenarios.no_float MachineLearning Scenarios.known_then_unknown = inr df' /\
    columns df' = columns Scenarios.known_then_unknown /\
    forall name col, lookup_col name Scenarios.known_then_unknown = Some col ->
      exists col', lookup_col name df' = Some col' /\
        length col' = length col /\
        (name <> travel_time_minutes -> col' = col).
Proof.
  eexists. split; [reflexivity|].
  exact (interpolate_keeps_shape Scenarios.identity_scaler
           Scenarios.first_rows_neighbors Scenarios.one_cluster_per_row
           Scenarios.constant_forest Scenarios.no_float MachineLearning
           Scenarios.known_then_unknown _ eq_refl).
Defined.


(** ** ZIP codes shorter than five characters *)

Lemma length_chars (s : string) : length (chars s) = String.length s.
Proof. unfold chars. induction s as [|c s IH]; cbn; [reflexivity|]. now rewrite IH. Qed.

Lemma int_of_short_tail (s : string) :
  (String.length s < 5)%nat -> Py.int (slice_from 4 s) = None.
Proof.
  intros H. unfold slice_from. rewrite <- length_chars in H.
  rewrite drop_ge by lia. reflexivity.
Qed.

(** [int] of a string of [n] characters is below [10 ^ n] in absolute
    value, so that strings of up to 18 characters fit [int64]. *)
Lemma digit_of_range (c : ascii) (d : Z) : digit_of c = Some d -> (0 <= d <= 9)%Z.
Proof.
  unfold digit_of. destruct (_ && _)%bool eqn:E; [|discriminate].
  intros H. injection H as <-.
  apply andb_prop in E as [E1 E2]. apply Nat.leb_le in E1, E2. lia.
Qed.

Lemma parse_digits_bound (cs : list ascii) (after_digit : bool) (acc z : Z) :
  parse_digits after_digit acc cs = Some z -> (0 <= acc)%Z ->
  (0 <= z < (acc + 1) * 10 ^ Z.of_nat (length cs))%Z.
Proof.
  revert after_digit acc. induction cs as [|c cs IH]; intros b acc; cbn [parse_digits length].
  - destruct b; [|discriminate]. intros H. injection H as <-. cbn. lia.
  - rewrite Nat2Z.inj_succ, Z.pow_succ_r by lia.
    assert (Hp : (0 < 10 ^ Z.of_nat (length cs))%Z) by (apply Z.pow_pos_nonneg; lia).
    destruct (digit_of c) as [d|] eqn:Hd.
    + apply digit_of_range in Hd. intros H Hacc. apply IH in H; [|lia]. nia.
    + destruct (_ && _)%bool; [|discriminate]. intros H Hacc.
      apply IH in H; [|lia]. nia.
Qed.

Lemma length_lstrip (cs : list ascii) : (length (lstrip cs) <= length cs)%nat.
Proof.
  induction cs as [|c cs IH]; cbn [lstrip length]; [lia|].
  destruct (is_space c); cbn [length]; lia.
Qed.

Lemma length_strip (cs : list ascii) : (length (strip cs) <= length cs)%nat.
Proof.
  unfold strip. rewrite length_rev.
  etransitivity; [apply length_lstrip|]. rewrite length_rev. apply length_lstrip.
Qed.

Lemma int_bound (s : string) (z : Z) :
  Py.int s = Some z -> (Z.abs z < 10 ^ Z.of_nat (String.length s))%Z.
Proof.
  unfold Py.int. pose proof (length_strip (chars s)) as Hlen.
  rewrite length_chars in Hlen.
  assert (Hmono : forall n, (n <= String.length s)%nat ->
            (10 ^ Z.of_nat n <= 10 ^ Z.of_nat (String.length s))%Z)
    by (intros n Hn; apply Z.pow_le_mono_r; lia).
  destruct (strip (chars s)) as [|c cs]; [discriminate|]. cbn [length] in Hlen.
  destruct (Ascii.eqb c "-"); [|destruct (Ascii.eqb c "+")].
  - destruct (parse_digits false 0 cs) as [z'|] eqn:Hp; [|discriminate].
    intros H. injection H as <-. apply parse_digits_bound in Hp; [|lia].
    specialize (Hmono (length cs)). lia.
  - intros Hp. apply parse_digits_bound in Hp; [|lia].
    specialize (Hmono (length cs)). lia.
  - intros Hp. apply parse_digits_bound in Hp; [|lia].
    specialize (Hmono (length (c :: cs))). cbn [length] in *. lia.
Qed.

Lemma int_in_int64 (s : string) (z : Z) :
  Py.int s = Some z -> (String.length s <= 18)%nat -> in_int64 z = true.
Proof.
  intros Hz Hlen. apply int_bound in Hz.
  assert (H18 : (10 ^ Z.of_nat (String.length s) <= 10 ^ 18)%Z)
    by (apply Z.pow_le_mono_r; lia).
  unfold in_int64, int64_min, int64_max.
  apply andb_true_intro. split; apply Z.leb_le; lia.
Qed.

Lemma length_slice_to (n : nat) (s : string) :
  (String.length (slice_to n s) <= n)%nat.
Proof. unfold slice_to. rewrite length_of_chars, length_take. lia. Qed.

Lemma length_slice (a b : nat) (s : string) :
  (String.length (slice a b s) <= b - a)%nat.
Proof. unfold slice. rewrite length_of_chars, length_take. lia. Qed.

Lemma length_slice_from (n : nat) (s : string) :
  String.length (slice_from n s) = (String.length s - n)%nat.
Proof. unfold slice_from. now rewrite length_of_chars, length_drop, length_chars. Qed.

(** A column of strings converts, or raises [ValueError] or
    [OverflowError]; slices of up to 18 characters never overflow. *)
Lemma all_ok_strings (sl : string -> string) (cells : list Cell) :
  Forall (fun c => exists s, c = CStr s) cells ->
  (exists zs, all_ok (str_astype_int sl) cells = inr zs) \/
  all_ok (str_astype_int sl) cells = inl ValueError \/
  all_ok (str_astype_int sl) cells = inl OverflowError.
Proof.
  induction 1 as [|c cells (s & ->) _ IH]; cbn [all_ok].
  - left. eexists. reflexivity.
  - cbn [str_astype_int]. destruct (Py.int (sl s)); cbn [bind]; [|now right; left].
    destruct (in_int64 _); cbn [ret raise bind]; [|now right; right].
    destruct IH as [(zs & ->)|[-> | ->]]; cbn [bind]; eauto.
Qed.

Lemma all_ok_strings_bounded (sl : string -> string) (cells : list Cell) :
  Forall (fun c => exists s, c = CStr s /\ (String.length (sl s) <= 18)%nat) cells ->
  (exists zs, all_ok (str_astype_int sl) cells = inr zs) \/
  all_ok (str_astype_int sl) cells = inl ValueError.
Proof.
  induction 1 as [|c cells (s & -> & Hlen) _ IH]; cbn [all_ok].
  - left. eexists. reflexivity.
  - cbn [str_astype_int]. destruct (Py.int (sl s)) as [z|] eqn:Hz; cbn [bind]; [|now right].
    rewrite (int_in_int64 _ _ Hz Hlen). cbn [ret bind].
    destruct IH as [(zs & ->)| ->]; cbn [bind]; eauto.
Qed.

Lemma all_ok_unparsable (sl : string -> string) (cells : list Cell) :
  Forall (fun c => exists s, c = CStr s) cells ->
  Exists (fun c => exists s, c = CStr s /\ Py.int (sl s) = None) cells ->
  all_ok (str_astype_int sl) cells = inl ValueError \/
  all_ok (str_astype_int sl) cells = inl OverflowError.
Proof.
  intros Hall Hex. induction Hex as [c cells (s & -> & Hs)|c cells _ IH]; cbn [all_ok].
  - cbn [str_astype_int]. rewrite Hs. now left.
  - apply Forall_cons in Hall as [(s & ->) Hall]. cbn [str_astype_int].
    destruct (Py.int (sl s)); cbn [bind]; [|now left].
    destruct (in_int64 _); cbn [ret raise bind]; [|now right].
    destruct (IH Hall) as [-> | ->]; cbn [bind]; auto.
Qed.

Lemma all_ok_unparsable_bounded (sl : string -> string) (cells : list Cell) :
  Forall (fun c => exists s, c = CStr s /\ (String.length (sl s) <= 18)%nat) cells ->
  Exists (fun c => exists s, c = CStr s /\ Py.int (sl s) = None) cells ->
  all_ok (str_astype_int sl) cells = inl ValueError.
Proof.
  intros Hall Hex. induction Hex as [c cells (s & -> & Hs)|c cells _ IH]; cbn [all_ok].
  - cbn [str_astype_int]. now rewrite Hs.
  - apply Forall_cons in Hall as [(s & -> & Hlen) Hall]. cbn [str_astype_int].
    destruct (Py.int (sl s)) as [z|] eqn:Hz; cbn [bind]; [|reflexivity].
    rewrite (int_in_int64 _ _ Hz Hlen). cbn [ret bind].
    now rewrite (IH Hall).
Qed.

Section ShortZip.

Variable scaler_fit_transform : list (list R) -> result (list (list R)).
Variable kneighbors :
  nat -> list (list R) -> list (list R) ->
  result (list (list R) * list (list nat)).
Variable agglomerative_fit_predict : nat -> list (list R) -> result (list nat).
Variable random_forest_fit_predict :
  list (list R) -> list R -> list (list R) -> result (list R).
Variable py_float : string -> option R.

Lemma create_zip_features_short_zip (df : DataFrame) (origin : list Cell) :
  getitem df "origin_zip" = inr origin ->
  Forall (fun c => exists s, c = CStr s) origin ->
  Exists (fun c => exists s, c = CStr s /\ (String.length s < 5)%nat) origin ->
  (_create_zip_features scaler_fit_transform df = inl ValueError \/
   _create_zip_features scaler_fit_transform df = inl OverflowError) /\
  (Forall (fun c => forall s, c = CStr s -> (String.length s <= 22)%nat) origin ->
   _create_zip_features scaler_fit_transform df = inl ValueError).
Proof.
  intros Hget Hstr Hshort. unfold _create_zip_features. rewrite Hget. cbn [bind].
  assert (Hunparsable :
    Exists (fun c => exists s, c = CStr s /\ Py.int (slice_from 4 s) = None) origin).
  { eapply Exists_impl; [exact Hshort|]. cbn. intros c (s & -> & Hs).
    exists s. split; [reflexivity|]. now apply int_of_short_tail. }
  destruct (all_ok_strings_bounded (slice_to 2) origin) as [(z1 & ->)| ->]; [| |auto].
  { eapply Forall_impl; [exact Hstr|]. intros c (s & ->). exists s.
    split; [reflexivity|]. pose proof (length_slice_to 2 s). lia. }
  cbn [bind].
  destruct (all_ok_strings_bounded (slice 2 4) origin) as [(z2 & ->)| ->]; [| |auto].
  { eapply Forall_impl; [exact Hstr|]. intros c (s & ->). exists s.
    split; [reflexivity|]. pose proof (length_slice 2 4 s). lia. }
  cbn [bind]. split.
  - destruct (all_ok_unparsable (slice_from 4) origin Hstr Hunparsable) as [-> | ->];
      cbn [bind]; auto.
  - intros Hlen. rewrite all_ok_unparsable_bounded; [reflexivity| |exact Hunparsable].
    rewrite Forall_forall in Hstr, Hlen. apply Forall_forall. intros c Hc.
    destruct (Hstr c Hc) as (s & ->). exists s. split; [reflexivity|].
    rewrite length_slice_from. specialize (Hlen _ Hc s eq_refl). lia.
Qed.

(** X17. On a matrix with a gap whose origin ZIP codes are strings, one of
    them of fewer than five characters, the three strategies that derive
    features from the ZIP digits raise: the third digit group of such a
    code is empty, which is a [ValueError], unless the conversion to
    [int64] of an earlier code raised [OverflowError] before.  With origin
    ZIP codes of at most 22 characters no conversion overflows, and the
    exception is [ValueError]. *)
Theorem short_origin_zip_value_error (strategy : Strategy) (df : DataFrame)
    (times origin : list Cell) :
  getitem df travel_time_minutes = inr times ->
  Exists (fun c => isna c = true) times ->
  getitem df "origin_zip" = inr origin ->
  Forall (fun c => exists s, c = CStr s) origin ->
  Exists (fun c => exists s, c = CStr s /\ (String.length s < 5)%nat) origin ->
  match strategy with
  | SpatialWeighting _ => True
  | _ =>
      (interpolate scaler_fit_transform kneighbors agglomerative_fit_predict
         random_forest_fit_predict py_float strategy df = inl ValueError \/
       interpolate scaler_fit_transform kneighbors agglomerative_fit_predict
         random_forest_fit_predict py_float strategy df = inl OverflowError) /\
      (Forall (fun c => forall s, c = CStr s -> (String.length s <= 22)%nat) origin ->
       interpolate scaler_fit_transform kneighbors agglomerative_fit_predict
         random_forest_fit_predict py_float strategy df = inl ValueError)
  end.
Proof.
  intros Hget Hgap Horigin Hstr Hshort.
  assert (Hpos : (length (positions (map isna times)) =? 0)%nat = false).
  { apply Nat.eqb_neq. intros H0. apply length_zero_iff_nil in H0.
    apply Exists_exists in Hgap as (c & Hc & Hna).
    apply list_elem_of_lookup in Hc as [j Hj].
    apply (positions_nil _ H0 j). rewrite list_lookup_fmap, Hj. cbn. now rewrite Hna. }
  destruct (create_zip_features_short_zip df origin Horigin Hstr Hshort)
    as [Hfeat Hbounded].
  destruct strategy; [| exact I | |]; cbn [interpolate];
    unfold nearest_neighbor_interpolation, hierarchical_clustering_interpolation,
           machine_learning_interpolation;
    rewrite Hget; cbn [bind]; rewrite Hpos;
    (split; [destruct Hfeat as [-> | ->]; cbn [bind]; auto|]);
    intros Hlen; rewrite (Hbounded Hlen); reflexivity.
Qed.

End ShortZip.

Lemma short_origin_zip_value_error_witness :
  interpolate Scenarios.identity_scaler Scenarios.first_rows_neighbors
    Scenarios.one_cluster_per_row Scenarios.constant_forest Scenarios.no_float
    (NearestNeighbor 5) Scenarios.four_digit_origin = inl ValueError.
Proof.
  apply (short_origin_zip_value_error Scenarios.identity_scaler
           Scenarios.first_rows_neighbors Scenarios.one_cluster_per_row
           Scenarios.constant_forest Scenarios.no_float (NearestNeighbor 5)
           Scenarios.four_digit_origin [CNum 10; CNaN] [CStr "9021"; CStr "90001"]).
  - reflexivity.
  - right. left. reflexivity.
  - reflexivity.
  - repeat constructor; eexists; reflexivity.
  - left. exists "9021"%string. split; [reflexivity|]. cbn. lia.
  - apply Forall_forall. intros c Hc s Hs. subst c.
    repeat (apply elem_of_cons in Hc as [Hc|Hc]; [injection Hc as ->; cbn; lia|]).
    now apply elem_of_nil in Hc.
Defined.


(** ** Spatial weighting stays within the observed range *)

Lemma weighted_sum_bounds (xs ws : list R) (lo hi : R) :
  length xs = length ws ->
  Forall (fun x => lo <= x <= hi) xs -> Forall (fun w => 0 < w) ws ->
  lo * Rsum ws <= Rsum (zip_with Rmult xs ws) <= hi * Rsum ws.
Proof.
  intros Hlen Hx. revert ws Hlen.
  induction Hx as [|x xs Hx _ IH]; intros [|w ws] Hlen Hw; try discriminate.
  - cbn. lra.
  - apply Forall_cons in Hw as [Hw Hws]. cbn [zip_with Rsum foldr].
    fold (Rsum ws). fold (Rsum (zip_with Rmult xs ws)).
    destruct (IH ws) as [H1 H2]; [cbn in Hlen; lia|exact Hws|]. nra.
Qed.

Lemma Rsum_positive (ws : list R) :
  Forall (fun w => 0 < w) ws -> 0 <= Rsum ws.
Proof. induction 1 as [|w ws Hw _ IH]; cbn; [lra|]. fold (Rsum ws). lra. Qed.

Lemma np_average_within (values : list Cell) (weights : list R) (v : Cell) (lo hi : R) :
  Forall (fun c => exists x, as_num c = Some x /\ lo <= x <= hi) values ->
  Forall (fun w => 0 < w) weights ->
  np_average values weights = inr v ->
  exists y, as_num v = Some y /\ lo <= y <= hi.
Proof.
  intros Hv Hw. unfold np_average.
  destruct (negb _) eqn:Elen; [discriminate|].
  apply negb_false_iff, Nat.eqb_eq in Elen.
  destruct (Req_bool (Rsum weights) 0) eqn:Esum; [discriminate|].
  destruct (existsb _ values); [discriminate|].
  destruct (mapM as_num values) as [xs|] eqn:Em.
  - intros H. injection H as <-. eexists. split; [reflexivity|].
    apply mapM_Some in Em.
    assert (Hxs : Forall (fun x => lo <= x <= hi) xs).
    { apply Forall_forall. intros x Hx. apply list_elem_of_lookup in Hx as [k Hk].
      destruct (Forall2_lookup_r _ _ _ _ _ Em Hk) as (c & Hc & Hcx).
      rewrite Forall_forall in Hv.
      destruct (Hv c (list_elem_of_lookup_2 _ _ _ Hc)) as (x' & Hx' & Hb). congruence. }
    pose proof (Forall2_length _ _ _ Em) as Hl.
    destruct (weighted_sum_bounds xs weights lo hi) as [H1 H2]; [lia|exact Hxs|exact Hw|].
    pose proof (Rsum_positive weights Hw) as Hpos.
    assert (Hne : Rsum weights <> 0).
    { unfold Req_bool in Esum. destruct (Req_dec_T (Rsum weights) 0); [discriminate|assumption]. }
    assert (Hs : 0 < Rsum weights) by lra.
    set (S := Rsum weights) in *. set (T := Rsum (zip_with Rmult xs weights)) in *.
    assert (Hy : T / S * S = T) by (field; lra).
    split; nra.
  - exfalso. assert (Hs : is_Some (mapM as_num values)).
    { apply mapM_is_Some. eapply Forall_impl; [exact Hv|]. cbn.
      intros c (x & -> & _). eauto. }
    rewrite Em in Hs. now destruct Hs.
Qed.

Lemma select_Forall {A} (P : A -> Prop) (l : list A) (mask : list bool) :
  Forall P l -> Forall P (select l mask).
Proof.
  intros H. apply Forall_forall. intros x Hx. apply select_elem in Hx.
  rewrite Forall_forall in H. auto.
Qed.

Lemma select_known (times : list Cell) (c : Cell) :
  c ∈ select times (map notna times) -> c ∈ times /\ isna c = false.
Proof.
  unfold select. induction times as [|a times IH]; cbn [map zip zip_with List.filter].
  - intros H. now apply elem_of_nil in H.
  - destruct (notna a) eqn:Ea; cbn [snd map fst].
    + rewrite !elem_of_cons. intros [->|H].
      * split; [now left|]. unfold notna in Ea. now apply negb_true_iff in Ea.
      * destruct (IH H). auto.
    + intros H. destruct (IH H). split; [now right|assumption].
Qed.

Section SpatialWeighting.

Variable py_float : string -> option R.

Lemma spatial_value_within (max_distance : R) (known_coords : list (R * R))
    (known_values : list Cell) (missing_coords : list (R * R))
    (i missing_idx : nat) (times : list Cell) (v : Cell) (lo hi : R) :
  Forall (fun c => exists x, as_num c = Some x /\ lo <= x <= hi) known_values ->
  spatial_value max_distance known_coords known_values missing_coords
    i missing_idx times = inr v ->
  exists y, as_num v = Some y /\ lo <= y <= hi.
Proof.
  intros Hk. unfold spatial_value.
  destruct (item missing_coords i) as [?|missing_coord]; cbn [bind]; [discriminate|].
  destruct (0 <? _)%nat.
  - apply np_average_within.
    + now apply select_Forall.
    + apply Forall_fmap, select_Forall, Forall_fmap, Forall_forall.
      intros kc _. unfold compose. apply inverse_distance_weight_pos.
      assert (0 <= sqrt ((kc.1 - missing_coord.1)² + (kc.2 - missing_coord.2)²))
        by apply sqrt_pos.
      lra.
  - destruct (argmin _) as [?|nearest_idx]; cbn [bind]; [discriminate|].
    unfold item. destruct (known_values !! nearest_idx) as [c|] eqn:Hc; [|discriminate].
    intros H. injection H as <-.
    rewrite Forall_forall in Hk. apply Hk. eapply list_elem_of_lookup_2. exact Hc.
Qed.

(** X18. On a matrix whose known travel times are numbers, a returned result of
    the spatial-weighting strategy has a number in every row, and every one
    of them lies between any bounds [lo] and [hi] of the known travel times:
    a gap gets a weighted average of known times with positive weights, or
    the nearest known time. *)
Theorem spatial_weighting_within_observed_range
    (df df' : DataFrame) (max_distance : R) (times times' : list Cell) (lo hi : R) :
  getitem df travel_time_minutes = inr times ->
  spatial_weighting_interpolation py_float df max_distance = inr df' ->
  getitem df' travel_time_minutes = inr times' ->
  (forall c, c ∈ times -> isna c = false ->
     exists x, as_num c = Some x /\ lo <= x <= hi) ->
  length times' = length times /\
  forall i c', times' !! i = Some c' ->
    exists y, as_num c' = Some y /\ lo <= y <= hi.
Proof.
  intros Hget Hrun Hget' Hnum.
  unfold spatial_weighting_interpolation in Hrun. rewrite Hget in Hrun. cbn [bind] in Hrun.
  apply getitem_inr in Hget, Hget'.
  destruct (length (positions (map isna times)) =? 0)%nat eqn:E0.
  - injection Hrun as <-. rewrite Hget in Hget'. injection Hget' as <-.
    split; [reflexivity|]. intros i c Hi.
    apply Hnum; [eapply list_elem_of_lookup_2; exact Hi|].
    apply Nat.eqb_eq, length_zero_iff_nil in E0.
    destruct (isna c) eqn:Hna; [|reflexivity]. exfalso.
    apply (positions_nil _ E0 i). rewrite list_lookup_fmap, Hi. cbn. now rewrite Hna.
  - bind_inv Hrun. injection Hrun as <-. rewrite lookup_set_col in Hget'.
    injection Hget' as <-.
    match goal with
    | Hfill : fill_loop _ _ _ _ = inr _ |- _ => rename Hfill into HF
    end.
    pose proof (fill_loop_frame _ _ _ _ _ HF) as [Hlen Hframe].
    split; [exact Hlen|]. intros i c' Hi.
    destruct (decide (i ∈ positions (map isna times))) as [Hin|Hnin].
    + destruct (fill_loop_written _
                  (fun v => exists y, as_num v = Some y /\ lo <= y <= hi)
                  _ _ _ _ HF) with (j := i) as (v & Hv & Hy).
      * intros k idx t v. apply spatial_value_within.
        apply Forall_forall. intros c Hc. apply select_known in Hc as [Hc Hna].
        now apply Hnum.
      * exact Hin.
      * apply lookup_lt_Some in Hi. lia.
      * assert (v = c') as <- by congruence. exact Hy.
    + rewrite (Hframe i Hnin) in Hi.
      apply Hnum; [eapply list_elem_of_lookup_2; exact Hi|].
      destruct (isna c') eqn:Hna; [|reflexivity]. exfalso. apply Hnin.
      apply positions_spec. rewrite list_lookup_fmap, Hi. cbn. now rewrite Hna.
Qed.

End SpatialWeighting.

Lemma spatial_weighting_within_observed_range_witness :
  exists df' times',
    getitem Scenarios.known_then_unknown travel_time_minutes = inr [CNum 10; CNaN] /\
    spatial_weighting_interpolation Scenarios.digits_float
      Scenarios.known_then_unknown 100 = inr df' /\
    getitem df' travel_time_minutes = inr times' /\
    length times' = 2%nat /\
    forall i c', times' !! i = Some c' ->
      exists y, as_num c' = Some y /\ 10 <= y <= 10.
Proof.
  assert (Hnum : forall c, c ∈ [CNum 10; CNaN] -> isna c = false ->
            exists x, as_num c = Some x /\ 10 <= x <= 10).
  { intros c Hc Hna. repeat (apply elem_of_cons in Hc as [->|Hc]); try discriminate.
    - exists 10. split; [reflexivity|lra].
    - now apply elem_of_nil in Hc. }
  assert (Hrun : exists df' times',
    spatial_weighting_interpolation Scenarios.digits_float
      Scenarios.known_then_unknown 100 = inr df' /\
    getitem df' travel_time_minutes = inr times').
  { unfold spatial_weighting_interpolation.
    cbv -[Rle_bool Req_bool Rsum INR IZR Rdiv Rminus Rplus Rmult sqrt Rsqr argmin_from Rlt_bool].
    match goal with |- context [Rle_bool ?a ?b] => destruct (Rle_bool a b) end.
    - cbv -[Req_bool Rsum INR IZR Rdiv Rminus Rplus Rmult sqrt Rsqr].
      rewrite Req_bool_pos; [eexists; eexists; split; reflexivity|].
      cbn [Rsum foldr].
      match goal with
      | |- 0 < 1 / (?d + ?c) + 0 =>
          assert (Hw : 0 < 1 / (d + c))
            by (apply (inverse_distance_weight_pos d);
                apply Rmult_le_pos; [apply sqrt_pos|lra])
      end. lra.
    - eexists. eexists. split; reflexivity. }
  destruct Hrun as (df' & times' & Hrun & Hget').
  exists df', times'. split; [reflexivity|]. split; [exact Hrun|]. split; [exact Hget'|].
  exact (spatial_weighting_within_observed_range Scenarios.digits_float
           Scenarios.known_then_unknown df' 100 [CNum 10; CNaN] times' 10 10
           eq_refl Hrun Hget' Hnum).
Defined.


(** ** Quality metrics *)

Lemma count_interpolated_split (original interpolated : list Cell) :
  Forall2 (fun c c' => isna c = false -> isna c' = false) original interpolated ->
  length (List.filter isna original) =
  (QualityMetrics.count_interpolated original interpolated +
   length (List.filter isna interpolated))%nat.
Proof.
  unfold QualityMetrics.count_interpolated, notna.
  induction 1 as [|c c' o t Hc _ IH]; [reflexivity|].
  cbn [zip zip_with List.filter fst snd].
  destruct (isna c) eqn:Ec; destruct (isna c') eqn:Ec'; cbn [negb andb length];
    try lia.
  all: specialize (Hc eq_refl); discriminate.
Qed.

(** X19. The reported coverage improvement is the share of pairs counted as
    interpolated: when the two matrices have the same, non-zero number of
    rows and no known travel time of the original is missing from the
    interpolated matrix, [coverage_improvement] equals
    [interpolated_pairs / total_pairs], and is not negative. *)
Theorem coverage_improvement_counts_interpolated
    (original_matrix interpolated_matrix : DataFrame)
    (original interpolated : list Cell) (metrics : QualityMetrics.Metrics) :
  getitem original_matrix travel_time_minutes = inr original ->
  getitem interpolated_matrix travel_time_minutes = inr interpolated ->
  QualityMetrics.get_interpolation_quality_metrics
    original_matrix interpolated_matrix = inr metrics ->
  length original = length interpolated -> original <> [] ->
  (forall i c c', original !! i = Some c -> interpolated !! i = Some c' ->
     isna c = false -> isna c' = false) ->
  QualityMetrics.total_pairs metrics = length interpolated /\
  exists x,
    QualityMetrics.coverage_improvement metrics = CNum x /\
    x = INR (QualityMetrics.interpolated_pairs metrics) /
        INR (QualityMetrics.total_pairs metrics) /\
    0 <= x.
Proof.
  intros Ho Ht Hm Hlen Hne Hkeep.
  unfold QualityMetrics.get_interpolation_quality_metrics in Hm.
  rewrite Ho, Ht in Hm. cbn [bind] in Hm.
  destruct (existsb _ interpolated); [discriminate|]. injection Hm as <-.
  cbn [QualityMetrics.total_pairs QualityMetrics.coverage_improvement
       QualityMetrics.interpolated_pairs].
  split; [reflexivity|].
  assert (Hsplit := count_interpolated_split original interpolated).
  rewrite Forall2_same_length_lookup in Hsplit.
  specialize (Hsplit (conj Hlen Hkeep)).
  destruct original as [|c0 o]; [congruence|].
  destruct interpolated as [|c1 t]; [discriminate|].
  unfold QualityMetrics.series_coverage, QualityMetrics.float_sub. cbn [as_num].
  set (n := length (c1 :: t)) in *. set (n0 := length (c0 :: o)) in *.
  assert (Hn : 0 < INR n) by (apply lt_0_INR; subst n; cbn; lia).
  replace n0 with n by (subst n n0; lia).
  rewrite Hsplit, plus_INR.
  set (k := QualityMetrics.count_interpolated (c0 :: o) (c1 :: t)) in *.
  eexists. split; [reflexivity|]. split.
  - field. lra.
  - assert (0 <= INR k) by apply pos_INR.
    assert (Hk : INR k / INR n * INR n = INR k) by (field; lra).
    assert (Hx : 1 - INR (length (List.filter isna (c1 :: t))) / INR n -
            (1 - (INR k + INR (length (List.filter isna (c1 :: t)))) / INR n)
            = INR k / INR n) by (field; lra).
    rewrite Hx. nra.
Qed.

Lemma coverage_improvement_counts_interpolated_witness :
  exists metrics,
    QualityMetrics.get_interpolation_quality_metrics
      Scenarios.known_then_unknown Scenarios.both_known = inr metrics /\
    QualityMetrics.total_pairs metrics = 2%nat /\
    exists x,
      QualityMetrics.coverage_improvement metrics = CNum x /\
      x = INR (QualityMetrics.interpolated_pairs metrics) /
          INR (QualityMetrics.total_pairs metrics) /\
      0 <= x.
Proof.
  eexists. split; [reflexivity|].
  apply (coverage_improvement_counts_interpolated Scenarios.known_then_unknown
           Scenarios.both_known [CNum 10; CNaN] [CNum 10; CNum 42] _
           eq_refl eq_refl eq_refl eq_refl).
  - discriminate.
  - intros [|[|i]] c c' Hc Hc' Hna; cbn in Hc, Hc'; try discriminate.
    + injection Hc' as <-. reflexivity.
    + injection Hc' as <-. reflexivity.
Defined.


(** ** Nearest neighbors when the known rows come first *)

Lemma positions_from_known_first (known unknown : list Cell) (start : nat) :
  Forall (fun c => isna c = false) known ->
  Forall (fun c => isna c = true) unknown ->
  map fst (List.filter snd
    (zip (seq start (length (map isna (known ++ unknown))))
         (map isna (known ++ unknown)))) =
  seq (start + length known) (length unknown).
Proof.
  intros Hk Hu. revert start. induction Hk as [|c known Hc Hk IH]; intros start.
  - cbn [app length]. rewrite Nat.add_0_r. revert start.
    induction Hu as [|c unknown Hc Hu IH]; intros start; [reflexivity|].
    cbn [map length seq zip zip_with List.filter]. rewrite Hc. cbn [snd map fst].
    f_equal. apply IH.
  - cbn [app map length seq zip zip_with List.filter]. rewrite Hc. cbn [snd].
    rewrite IH. f_equal. lia.
Qed.

Lemma positions_known_first (known unknown : list Cell) :
  Forall (fun c => isna c = false) known ->
  Forall (fun c => isna c = true) unknown ->
  positions (map isna (known ++ unknown)) = seq (length known) (length unknown).
Proof. intros Hk Hu. unfold positions. now rewrite positions_from_known_first. Qed.

Lemma select_length_known_first {A} (rows : list A) (known unknown : list Cell) :
  Forall (fun c => isna c = false) known ->
  Forall (fun c => isna c = true) unknown ->
  (length (select rows (map notna (known ++ unknown))) <= length known)%nat.
Proof.
  intros Hk Hu. unfold select. revert rows.
  induction Hk as [|c known Hc Hk IH]; intros rows.
  - cbn [app length]. revert rows.
    induction Hu as [|c unknown Hc Hu IH]; intros [|r rows];
      cbn [map zip zip_with List.filter length]; try lia.
    unfold notna at 1. rewrite Hc. cbn [negb snd]. apply IH.
  - destruct rows as [|r rows]; cbn [app map zip zip_with List.filter length]; [lia|].
    unfold notna at 1. rewrite Hc. cbn [negb snd map length].
    specialize (IH rows). lia.
Qed.

Lemma all_ok_item_prefix (known times : list Cell) (row : list nat) :
  (forall p, (p < length known)%nat -> times !! p = known !! p) ->
  Forall (fun j => (j < length known)%nat) row ->
  all_ok (item times) row = all_ok (item known) row.
Proof.
  intros Hpre Hrow. induction Hrow as [|j row Hj Hrow IH]; [reflexivity|].
  cbn [all_ok]. unfold item at 1 3. rewrite (Hpre j Hj), IH. reflexivity.
Qed.

Lemma nn_value_known_first (known times : list Cell)
    (distances : list (list R)) (indices : list (list nat)) (i idx : nat) :
  (forall p, (p < length known)%nat -> times !! p = known !! p) ->
  Forall (Forall (fun j => (j < length known)%nat)) indices ->
  nn_value distances indices i idx times =
  Spec.nearest_neighbor_value known distances indices i.
Proof.
  intros Hpre Hind. unfold nn_value, Spec.nearest_neighbor_value.
  unfold item at 1 4. destruct (indices !! i) as [row|] eqn:Er; [|reflexivity].
  cbn [ret bind]. rewrite (all_ok_item_prefix known times row Hpre); [reflexivity|].
  rewrite Forall_forall in Hind. apply Hind. eapply list_elem_of_lookup_2. exact Er.
Qed.

Lemma fill_loop_known_first (known : list Cell)
    (distances : list (list R)) (indices : list (list nat))
    (r j : nat) (times times' : list Cell) :
  Forall (Forall (fun q => (q < length known)%nat)) indices ->
  (forall p, (p < length known)%nat -> times !! p = known !! p) ->
  fill_loop (nn_value distances indices) j (seq (length known + j) r) times =
    inr times' ->
  forall i, (j <= i < j + r)%nat -> (length known + i < length times)%nat ->
    exists v,
      Spec.nearest_neighbor_value known distances indices i = inr v /\
      times' !! (length known + i)%nat = Some v.
Proof.
  intros Hind. revert j times. induction r as [|r IH]; intros j times Hpre H i Hi Hlt; [lia|].
  cbn [seq fill_loop] in H.
  rewrite (nn_value_known_first known times distances indices j _ Hpre Hind) in H.
  destruct (Spec.nearest_neighbor_value known distances indices j) as [?|v] eqn:Ev;
    cbn [bind] in H; [discriminate|].
  replace (S (length known + j)) with (length known + S j)%nat in H by lia.
  destruct (decide (i = j)) as [->|Hne].
  - exists v. split; [exact Ev|].
    apply fill_loop_frame in H as [_ Hframe]. rewrite Hframe.
    + now apply list_lookup_insert_eq.
    + rewrite elem_of_seq. lia.
  - apply (IH (S j) (<[(length known + j)%nat := v]> times)); [|exact H|lia|].
    + intros p Hp. rewrite list_lookup_insert_ne by lia. now apply Hpre.
    + now rewrite length_insert.
Qed.

Section KnownFirst.

Variable scaler_fit_transform : list (list R) -> result (list (list R)).
Variable kneighbors :
  nat -> list (list R) -> list (list R) ->
  result (list (list R) * list (list nat)).

(** X20. When every known row of the matrix precedes every unset row, the
    positions among the known rows are the positions in the matrix, and a
    returned result of the nearest-neighbor strategy is the intended one:
    the known rows are unchanged and the [i]-th unset row holds the
    inverse-distance-weighted average of the known travel times that the
    index selected for it.  The index is fitted on the features of the
    known rows and queried with those of the unset rows; it is only assumed
    to return positions of fitted rows. *)
Theorem nearest_neighbor_known_rows_first
    (df df' : DataFrame) (k : nat) (known unknown times' : list Cell) :
  (forall n X Q distances indices,
     kneighbors n X Q = inr (distances, indices) ->
     Forall (Forall (fun j => (j < length X)%nat)) indices) ->
  getitem df travel_time_minutes = inr (known ++ unknown) ->
  Forall (fun c => isna c = false) known ->
  Forall (fun c => isna c = true) unknown ->
  unknown <> [] ->
  nearest_neighbor_interpolation scaler_fit_transform kneighbors df k = inr df' ->
  getitem df' travel_time_minutes = inr times' ->
  exists features distances indices,
    _create_zip_features scaler_fit_transform df = inr features /\
    kneighbors
      (Nat.min k (length (select features (map notna (known ++ unknown)))))
      (select features (map notna (known ++ unknown)))
      (select features (map isna (known ++ unknown))) = inr (distances, indices) /\
    take (length known) times' = known /\
    forall i, (i < length unknown)%nat ->
      exists v,
        Spec.nearest_neighbor_value known distances indices i = inr v /\
        times' !! (length known + i)%nat = Some v.
Proof.
  intros Hcontract Hget Hk Hu Hne Hrun Hget'.
  unfold nearest_neighbor_interpolation in Hrun. rewrite Hget in Hrun. cbn [bind] in Hrun.
  rewrite (positions_known_first known unknown Hk Hu), length_seq in Hrun.
  destruct (length unknown =? 0)%nat eqn:E0.
  { apply Nat.eqb_eq, length_zero_iff_nil in E0. contradiction. }
  destruct (_create_zip_features scaler_fit_transform df) as [?|features] eqn:Ef;
    cbn [bind] in Hrun; [discriminate|].
  destruct (bool_index features (map notna (known ++ unknown))) as [?|known_features] eqn:Ekf;
    cbn [bind] in Hrun; [discriminate|].
  destruct (bool_index features (map isna (known ++ unknown))) as [?|missing_features] eqn:Emf;
    cbn [bind] in Hrun; [discriminate|].
  destruct (kneighbors _ known_features missing_features) as [?|[distances indices]] eqn:Enn;
    cbn [bind] in Hrun; [discriminate|].
  destruct (fill_loop _ _ _ _) as [?|filled] eqn:Efill; cbn [bind] in Hrun; [discriminate|].
  injection Hrun as <-.
  apply getitem_inr in Hget'. rewrite lookup_set_col in Hget'. injection Hget' as <-.
  unfold bool_index in Ekf, Emf.
  destruct (_ <? _)%nat in Ekf; [discriminate|]. injection Ekf as <-.
  destruct (_ <? _)%nat in Emf; [discriminate|]. injection Emf as <-.
  exists features, distances, indices. split; [reflexivity|]. split; [exact Enn|].
  pose proof (Hcontract _ _ _ _ _ Enn) as Hind.
  assert (Hind' : Forall (Forall (fun q => (q < length known)%nat)) indices).
  { eapply Forall_impl; [exact Hind|]. intros row Hrow.
    eapply Forall_impl; [exact Hrow|]. intros q Hq. cbn in Hq.
    pose proof (select_length_known_first features known unknown Hk Hu). lia. }
  pose proof (fill_loop_frame _ _ _ _ _ Efill) as [Hlen Hframe].
  split.
  - apply list_eq. intros p. destruct (decide (p < length known)%nat) as [Hp|Hp].
    + rewrite lookup_take_lt by exact Hp. rewrite Hframe.
      * now apply lookup_app_l.
      * rewrite elem_of_seq. lia.
    + rewrite lookup_take_ge by lia. symmetry. apply lookup_ge_None. lia.
  - intros i Hi.
    replace (seq (length known) (length unknown))
      with (seq (length known + 0) (length unknown)) in Efill by (f_equal; lia).
    apply (fill_loop_known_first known distances indices (length unknown) 0
             (known ++ unknown) filled Hind'); [|exact Efill|lia|].
    + intros p Hp. now apply lookup_app_l.
    + rewrite length_app. lia.
Qed.

End KnownFirst.

Lemma nearest_neighbor_known_rows_first_witness :
  exists df' times' features distances indices,
    nearest_neighbor_interpolation Scenarios.identity_scaler
      Scenarios.first_rows_neighbors Scenarios.known_then_unknown 5 = inr df' /\
    getitem df' travel_time_minutes = inr times' /\
    _create_zip_features Scenarios.identity_scaler Scenarios.known_then_unknown =
      inr features /\
    Scenarios.first_rows_neighbors
      (Nat.min 5 (length (select features (map notna ([CNum 10] ++ [CNaN])))))
      (select features (map notna ([CNum 10] ++ [CNaN])))
      (select features (map isna ([CNum 10] ++ [CNaN]))) = inr (distances, indices) /\
    take (length [CNum 10]) times' = [CNum 10] /\
    forall i, (i < length [CNaN])%nat ->
      exists v,
        Spec.nearest_neighbor_value [CNum 10] distances indices i = inr v /\
        times' !! (length [CNum 10] + i)%nat = Some v.
Proof.
  assert (Hrun : exists df',
    nearest_neighbor_interpolation Scenarios.identity_scaler
      Scenarios.first_rows_neighbors Scenarios.known_then_unknown 5 = inr df').
  { unfold nearest_neighbor_interpolation.
    cbv -[Req_bool Rsum INR IZR Rdiv Rminus Rplus Rmult].
    rewrite Req_bool_pos; [eexists; reflexivity|].
    cbn [Rsum foldr]. pose proof (inverse_distance_weight_pos 1). lra. }
  destruct Hrun as (df' & Hrun).
  assert (Hget' : exists times', getitem df' travel_time_minutes = inr times').
  { revert Hrun. unfold nearest_neighbor_interpolation.
    cbv -[Req_bool Rsum INR IZR Rdiv Rminus Rplus Rmult].
    rewrite Req_bool_pos.
    - intros H. injection H as <-. eexists. reflexivity.
    - cbn [Rsum foldr]. pose proof (inverse_distance_weight_pos 1). lra. }
  destruct Hget' as (times' & Hget').
  destruct (nearest_neighbor_known_rows_first Scenarios.identity_scaler
              Scenarios.first_rows_neighbors Scenarios.known_then_unknown df' 5
              [CNum 10] [CNaN] times' first_rows_neighbors_in_range eq_refl)
    as (features & distances & indices & H);
    [repeat constructor | repeat constructor | discriminate | exact Hrun | exact Hget' |].
  exists df', times', features, distances, indices.
  split; [exact Hrun|]. split; [exact Hget'|]. exact H.
Defined.


(** ** The whole of [_estimate_travel_time] *)

Lemma fallback_draws_and_range (gauss : nat -> R) (n : nat)
    (origin_zip dest_zip : string) :
  10 <= fst (Estimator._fallback_travel_time_estimation gauss n origin_zip dest_zip)
     <= 180 /\
  (n <= snd (Estimator._fallback_travel_time_estimation gauss n origin_zip dest_zip)
     <= S n)%nat.
Proof.
  unfold Estimator._fallback_travel_time_estimation.
  repeat match goal with
  | |- context [if ?b then _ else _] => destruct b
  | |- context [match ?o with Some _ => _ | None => _ end] => destruct o
  end; cbn [fst snd]; try (split; [lra|lia]).
  split; [|lia].
  match goal with
  | |- _ <= Py.min 120 (Py.max 10 ?x) <= _ =>
      pose proof (clamp_between 10 120 x)
  end. lra.
Qed.

(** X21. Whatever the ZIP strings, the coordinate table and the random stream,
    [_estimate_travel_time] returns between 5 and 600 minutes and takes at
    most one draw.  With coordinates for both ZIP codes it takes exactly
    one; when a ZIP code has no coordinates, the result is that of the
    fallback heuristic and lies between 10 and 180 minutes. *)
Theorem estimate_travel_time_range (zip_db : ZipCoordinatesDB.t)
    (gauss : nat -> R) (n : nat) (origin_zip dest_zip : string) :
  5 <= fst (Estimator._estimate_travel_time zip_db gauss n origin_zip dest_zip) <= 600 /\
  (n <= snd (Estimator._estimate_travel_time zip_db gauss n origin_zip dest_zip) <= S n)%nat /\
  (ZipCoordinatesDB.get_coordinates zip_db origin_zip <> None ->
   ZipCoordinatesDB.get_coordinates zip_db dest_zip <> None ->
   snd (Estimator._estimate_travel_time zip_db gauss n origin_zip dest_zip) = S n) /\
  (ZipCoordinatesDB.get_coordinates zip_db origin_zip = None \/
   ZipCoordinatesDB.get_coordinates zip_db dest_zip = None ->
   Estimator._estimate_travel_time zip_db gauss n origin_zip dest_zip =
     Estimator._fallback_travel_time_estimation gauss n origin_zip dest_zip /\
   10 <= fst (Estimator._estimate_travel_time zip_db gauss n origin_zip dest_zip) <= 180).
Proof.
  assert (Hpad : forall z,
    ZipCoordinatesDB.get_coordinates zip_db (zfill 5 z) =
    ZipCoordinatesDB.get_coordinates zip_db z).
  { intros z. unfold ZipCoordinatesDB.get_coordinates.
    rewrite (zfill_long 5 (zfill 5 z)); [reflexivity|]. rewrite zfill_length. lia. }
  pose proof (fallback_draws_and_range gauss n origin_zip dest_zip) as [Hfb Hn].
  unfold Estimator._estimate_travel_time. rewrite !Hpad.
  destruct (ZipCoordinatesDB.get_coordinates zip_db origin_zip) as [oc|];
    [destruct (ZipCoordinatesDB.get_coordinates zip_db dest_zip) as [dc|]|].
  - cbn [fst snd]. split; [|split; [lia|split; [reflexivity|]]].
    + unfold Estimator.estimate_minutes. apply clamp_between. lra.
    + intros [H|H]; discriminate.
  - split; [lra|]. split; [exact Hn|]. split; [congruence|]. intros _. split; [reflexivity|lra].
  - split; [lra|]. split; [exact Hn|]. split; [congruence|]. intros _. split; [reflexivity|lra].
Qed.

Lemma estimate_travel_time_range_witness :
  (ZipCoordinatesDB.get_coordinates
     ({["90001"%string := (33.97, -118.25)]}) "90001" = None \/
   ZipCoordinatesDB.get_coordinates
     ({["90001"%string := (33.97, -118.25)]}) "10001" = None) /\
  Estimator._estimate_travel_time
    ({["90001"%string := (33.97, -118.25)]}) Scenarios.no_perturbation 0
    "90001" "10001" =
  Estimator._fallback_travel_time_estimation Scenarios.no_perturbation 0
    "90001" "10001" /\
  10 <= fst (Estimator._estimate_travel_time
               ({["90001"%string := (33.97, -118.25)]}) Scenarios.no_perturbation 0
               "90001" "10001") <= 180.
Proof.
  assert (H : ZipCoordinatesDB.get_coordinates
     ({["90001"%string := (33.97, -118.25)]}) "90001" = None \/
   ZipCoordinatesDB.get_coordinates
     ({["90001"%string := (33.97, -118.25)]}) "10001" = None).
  { right. vm_compute. reflexivity. }
  split; [exact H|].
  exact (proj2 (proj2 (proj2 (estimate_travel_time_range
           ({["90001"%string := (33.97, -118.25)]}) Scenarios.no_perturbation 0
           "90001" "10001"))) H).
Defined.
